(** * royal-road-cli: extraction, reflow, pagination and reading history

    A shallow embedding of the Go sources
      - [internal/config/config.go]  (reading history),
      - [internal/api] client        (statistics block, relative timestamps),
      - [internal/ui/reader.go]      (word wrap, pagination state machine),
    followed by the properties stated about them.

    Conventions.
      - A Go [int] is a [Z] together with the 64-bit two's complement
        wrap-around of every arithmetic operation ([GoInt]).
      - A Go [string] is a byte sequence: Rocq's [string] of 8-bit [ascii].
      - A Go [float64] is Rocq's primitive binary64 [float].
      - A slice is a [list]; a nil pointer is [None].
      - A run-time panic (division by zero, slice bounds) is [None] of an
        [option] result. *)

From Stdlib Require Import ZArith List String Ascii Bool Lia Floats Uint63.
Import ListNotations.

Local Open Scope string_scope.
Local Open Scope list_scope.
Local Open Scope Z_scope.

(* ===================================================================== *)
(** * Go's [int] *)
(* ===================================================================== *)

Module GoInt.

Definition min_int : Z := - 2 ^ 63.
Definition max_int : Z := 2 ^ 63 - 1.

(** Two's complement reduction into [min_int .. max_int]. *)
Definition wrap (z : Z) : Z := (z + 2 ^ 63) mod 2 ^ 64 - 2 ^ 63.

Definition in_range (z : Z) : Prop := min_int <= z <= max_int.

Definition add (a b : Z) : Z := wrap (a + b).
Definition sub (a b : Z) : Z := wrap (a - b).
Definition mul (a b : Z) : Z := wrap (a * b).
Definition neg (a : Z) : Z := wrap (- a).

(** Integer division truncates toward zero and panics on a zero divisor. *)
Definition quo (a b : Z) : option Z :=
  if b =? 0 then None else Some (wrap (Z.quot a b)).

(** [len(s)] of a slice or of a string. *)
Definition len {A : Type} (l : list A) : Z := Z.of_nat (List.length l).
Definition strlen (s : string) : Z := Z.of_nat (String.length s).

(** The helper [max] and [min] of [internal/ui/utils.go]. *)
Definition max (a b : Z) : Z := if a >? b then a else b.
Definition min (a b : Z) : Z := if a <? b then a else b.

End GoInt.

(* ===================================================================== *)
(** * internal/config/config.go *)
(* ===================================================================== *)

Module Config.

Record Theme := {
  AccentColor : string;
  BackgroundColor : string;
  TextColor : string
}.

Record Reading := {
  TextWidth : Z;
  ShowProgress : bool;
  WrapText : bool
}.

Record Bookmark := {
  bm_FictionID : string;
  bm_FictionTitle : string;
  bm_ChapterIndex : Z;
  bm_ChapterTitle : string;
  bm_Position : Z;
  bm_CreatedAt : string
}.

Record ReadingEntry := {
  FictionID : string;
  FictionTitle : string;
  Author : string;
  CurrentChapter : Z;
  ChapterTitle : string;
  ChapterProgress : float;
  LastRead : string;
  TotalChapters : Z
}.

Record Config := {
  theme : Theme;
  reading : Reading;
  LastFiction : string;
  Bookmarks : list Bookmark;
  ReadingHistory : list ReadingEntry
}.

Definition DefaultConfig : Config := {|
  theme := {| AccentColor := "170"; BackgroundColor := "0"; TextColor := "15" |};
  reading := {| TextWidth := 78; ShowProgress := true; WrapText := true |};
  LastFiction := "";
  Bookmarks := [];
  ReadingHistory := []
|}.

Definition set_history (c : Config) (h : list ReadingEntry) (lastf : string) : Config :=
  {| theme := theme c; reading := reading c; LastFiction := lastf;
     Bookmarks := Bookmarks c; ReadingHistory := h |}.

(** The [for i, existing := range c.ReadingHistory] loop: the index of the
    first entry whose [FictionID] is [id]. *)
Fixpoint find_entry (id : string) (h : list ReadingEntry) : option nat :=
  match h with
  | [] => None
  | existing :: rest =>
      if String.eqb (FictionID existing) id then Some O
      else option_map S (find_entry id rest)
  end.

(** [s[i] = x] on a slice, for an index known to be in range. *)
Fixpoint assign {A : Type} (l : list A) (i : nat) (x : A) : list A :=
  match l, i with
  | [], _ => []
  | _ :: t, O => x :: t
  | a :: t, S j => a :: assign t j x
  end.

(** [UpdateReadingProgress].  In the branch [i != 0] the inner
    [append(h[:i], h[i+1:]...)] shifts the tail of the old backing array
    one place to the left and the outer [append] copies the result behind
    the one-element literal into a fresh array, which becomes
    [c.ReadingHistory]. *)
Definition UpdateReadingProgress (entry : ReadingEntry) (c : Config) : Config :=
  let h := ReadingHistory c in
  match find_entry (FictionID entry) h with
  | Some i =>
      let h1 := assign h i entry in
      let h2 :=
        if Nat.eqb i 0 then h1
        else [entry] ++ (firstn i h1 ++ skipn (S i) h1) in
      set_history c h2 (FictionID entry)
  | None =>
      set_history c ([entry] ++ h) (FictionID entry)
  end.

(** The slice expression [s[lo:hi]] for [hi <= len(s)]; it panics unless
    [0 <= lo <= hi]. *)
Definition slice {A : Type} (s : list A) (lo hi : Z) : option (list A) :=
  if (0 <=? lo) && (lo <=? hi) && (hi <=? GoInt.len s)
  then Some (firstn (Z.to_nat (hi - lo)) (skipn (Z.to_nat lo) s))
  else None.

(** [GetReadingHistoryPage]: the page, the number of pages, [hasNext] and
    [hasPrev]. *)
Definition GetReadingHistoryPage (c : Config) (page pageSize : Z)
  : option (list ReadingEntry * Z * bool * bool) :=
  let total := GoInt.len (ReadingHistory c) in
  if total =? 0 then Some ([], 0, false, false)
  else
    match GoInt.quo (GoInt.sub (GoInt.add total pageSize) 1) pageSize with
    | None => None
    | Some totalPages =>
        let page := if page <? 1 then 1 else page in
        let page := if page >? totalPages then totalPages else page in
        let start := GoInt.mul (GoInt.sub page 1) pageSize in
        let end_ := GoInt.add start pageSize in
        let end_ := if end_ >? total then total else end_ in
        let hasNext := page <? totalPages in
        let hasPrev := page >? 1 in
        match slice (ReadingHistory c) start end_ with
        | None => None
        | Some entries => Some (entries, totalPages, hasNext, hasPrev)
        end
    end.

Definition GetLastReadEntry (c : Config) : option ReadingEntry :=
  match ReadingHistory c with
  | e :: _ => Some e
  | [] => None
  end.

Definition set_bookmarks (c : Config) (b : list Bookmark) : Config :=
  {| theme := theme c; reading := reading c; LastFiction := LastFiction c;
     Bookmarks := b; ReadingHistory := ReadingHistory c |}.

(** The [for i, existing := range c.Bookmarks] loop of [AddBookmark] and of
    [RemoveBookmark]: the index of the first bookmark of that chapter of
    that fiction. *)
Fixpoint find_bookmark (fictionID : string) (chapterIndex : Z) (l : list Bookmark)
  : option nat :=
  match l with
  | [] => None
  | existing :: rest =>
      if String.eqb (bm_FictionID existing) fictionID
         && (bm_ChapterIndex existing =? chapterIndex)
      then Some O
      else option_map S (find_bookmark fictionID chapterIndex rest)
  end.

(** [AddBookmark]. *)
Definition AddBookmark (bookmark : Bookmark) (c : Config) : Config :=
  match find_bookmark (bm_FictionID bookmark) (bm_ChapterIndex bookmark) (Bookmarks c) with
  | Some i => set_bookmarks c (assign (Bookmarks c) i bookmark)
  | None => set_bookmarks c (Bookmarks c ++ [bookmark])
  end.

(** [RemoveBookmark]: [append(c.Bookmarks[:i], c.Bookmarks[i+1:]...)] moves
    the bookmarks behind index [i] one place to the left. *)
Definition RemoveBookmark (fictionID : string) (chapterIndex : Z) (c : Config) : Config :=
  match find_bookmark fictionID chapterIndex (Bookmarks c) with
  | Some i => set_bookmarks c (firstn i (Bookmarks c) ++ skipn (S i) (Bookmarks c))
  | None => c
  end.

End Config.

(* ===================================================================== *)
(** * The functions of Go's [strings] and [strconv] that the program calls *)
(* ===================================================================== *)

Module GoStrings.

Definition byte_of (a : ascii) : Z := Z.of_N (N_of_ascii a).

(** The ASCII white space of [strings.Fields] and [strings.TrimSpace]:
    tab, line feed, vertical tab, form feed, carriage return, space. *)
Definition asciiSpace (a : ascii) : bool :=
  let b := byte_of a in
  ((9 <=? b) && (b <=? 13)) || (b =? 32).

(** [strings.HasPrefix]. *)
Fixpoint HasPrefix (s prefix : string) : bool :=
  match prefix, s with
  | EmptyString, _ => true
  | String _ _, EmptyString => false
  | String p prefix', String c s' => Ascii.eqb c p && HasPrefix s' prefix'
  end.

Fixpoint rev_onto (s acc : string) : string :=
  match s with
  | EmptyString => acc
  | String c s' => rev_onto s' (String c acc)
  end.

Definition rev (s : string) : string := rev_onto s EmptyString.

(** [strings.HasSuffix]. *)
Definition HasSuffix (s suffix : string) : bool := HasPrefix (rev s) (rev suffix).

(** [strings.Contains]. *)
Fixpoint Contains (s substr : string) : bool :=
  HasPrefix s substr
  || match s with
     | EmptyString => false
     | String _ s' => Contains s' substr
     end.

(** The UTF-8 encodings of the white space of [unicode.IsSpace] beyond
    ASCII: U+0085, U+00A0, U+1680, U+2000..U+200A, U+2028, U+2029, U+202F,
    U+205F, U+3000.  A valid encoding starts with a lead byte, which is
    never the continuation byte of another rune, so the rune-wise scans of
    [strings.Fields] and [strings.TrimSpace] meet each of them at a rune
    boundary. *)
Definition space_width (s : string) : nat :=
  match s with
  | EmptyString => O
  | String c0 s1 =>
      if asciiSpace c0 then 1%nat
      else
        match byte_of c0, s1 with
        | 194, String c1 _ =>
            if (byte_of c1 =? 133) || (byte_of c1 =? 160) then 2%nat else O
        | 225, String c1 (String c2 _) =>
            if (byte_of c1 =? 154) && (byte_of c2 =? 128) then 3%nat else O
        | 226, String c1 (String c2 _) =>
            let b1 := byte_of c1 in
            let b2 := byte_of c2 in
            if (b1 =? 128)
               && (((128 <=? b2) && (b2 <=? 138))
                   || (b2 =? 168) || (b2 =? 169) || (b2 =? 175))
            then 3%nat
            else if (b1 =? 129) && (b2 =? 159) then 3%nat else O
        | 227, String c1 (String c2 _) =>
            if (byte_of c1 =? 128) && (byte_of c2 =? 128) then 3%nat else O
        | _, _ => O
        end
  end.

(** The same encodings read from the end of the string: the argument is
    the reversed string. *)
Definition space_width_rev (r : string) : nat :=
  match r with
  | EmptyString => O
  | String c0 r1 =>
      if asciiSpace c0 then 1%nat
      else
        match r1 with
        | String c1 r2 =>
            if (space_width (String c1 (String c0 EmptyString)) =? 2)%nat then 2%nat
            else
              match r2 with
              | String c2 _ =>
                  if (space_width (String c2 (String c1 (String c0 EmptyString))) =? 3)%nat
                  then 3%nat else O
              | EmptyString => O
              end
        | EmptyString => O
        end
  end.

Fixpoint drop (n : nat) (s : string) : string :=
  match n, s with
  | O, _ => s
  | S n', String _ s' => drop n' s'
  | S _, EmptyString => EmptyString
  end.

(** Removal of leading white space; [fuel] bounds the number of runes. *)
Fixpoint trim_left (width : string -> nat) (fuel : nat) (s : string) : string :=
  match fuel with
  | O => s
  | S fuel' =>
      match width s with
      | O => s
      | w => trim_left width fuel' (drop w s)
      end
  end.

(** [strings.TrimSpace]. *)
Definition TrimSpace (s : string) : string :=
  let l := trim_left space_width (String.length s) s in
  rev (trim_left space_width_rev (String.length l) (rev l)).

(** [strings.Split(s, sep)] for a separator that is not empty (the program
    only splits on the constants "/", ". ", a line feed and two line
    feeds).  [skip] counts the bytes of a separator still to be passed
    over, [cur] is the piece being read, reversed. *)
Fixpoint split_go (sep : string) (s : string) (skip : nat) (cur : string)
  : list string :=
  match s with
  | EmptyString => [rev cur]
  | String c s' =>
      match skip with
      | S k => split_go sep s' k cur
      | O =>
          if HasPrefix s sep
          then rev cur :: split_go sep s' (Nat.pred (String.length sep)) EmptyString
          else split_go sep s' O (String c cur)
      end
  end.

Definition Split (s sep : string) : list string := split_go sep s O EmptyString.

(** [strings.Join]. *)
Fixpoint Join (elems : list string) (sep : string) : string :=
  match elems with
  | [] => EmptyString
  | [e] => e
  | e :: rest => String.append e (String.append sep (Join rest sep))
  end.

(** [strings.Fields]: the maximal runs of bytes that contain no white
    space.  [skip] counts the remaining bytes of a white space rune, [cur]
    is the field being read, reversed. *)
Fixpoint fields_go (s : string) (skip : nat) (cur : string) : list string :=
  let flush (rest : list string) :=
    match cur with
    | EmptyString => rest
    | _ => rev cur :: rest
    end in
  match s with
  | EmptyString => flush []
  | String c s' =>
      match skip with
      | S k => fields_go s' k cur
      | O =>
          match space_width s with
          | O => fields_go s' O (String c cur)
          | S k => flush (fields_go s' k EmptyString)
          end
      end
  end.

Definition Fields (s : string) : list string := fields_go s O EmptyString.

(** [regexp.MustCompile(re).ReplaceAllString(raw, "")] for the character
    class [re] of [keep]'s complement. *)
Fixpoint remove_bytes (drop_it : ascii -> bool) (s : string) : string :=
  match s with
  | EmptyString => EmptyString
  | String c s' =>
      if drop_it c then remove_bytes drop_it s'
      else String c (remove_bytes drop_it s')
  end.

Definition is_digit (a : ascii) : bool :=
  (48 <=? byte_of a) && (byte_of a <=? 57).

(** The class \s of Go's regular expressions: tab, line feed, form feed,
    carriage return, space (no vertical tab). *)
Definition re_space (a : ascii) : bool :=
  let b := byte_of a in
  (b =? 9) || (b =? 10) || (b =? 12) || (b =? 13) || (b =? 32).

Fixpoint all_digits (s : string) : bool :=
  match s with
  | EmptyString => true
  | String c s' => is_digit c && all_digits s'
  end.

Fixpoint digits_value (s : string) (acc : Z) : Z :=
  match s with
  | EmptyString => acc
  | String c s' => digits_value s' (10 * acc + (byte_of c - 48))
  end.

(** [strconv.Atoi]: an optional sign and at least one decimal digit; a
    syntax error or a value outside the 64-bit range is [None]. *)
Definition Atoi (s : string) : option Z :=
  let (negative, body) :=
    match s with
    | String "-" s' => (true, s')
    | String "+" s' => (false, s')
    | _ => (false, s)
    end in
  match body with
  | EmptyString => None
  | _ =>
      if all_digits body then
        let v := digits_value body 0 in
        let v := if negative then - v else v in
        if (GoInt.min_int <=? v) && (v <=? GoInt.max_int) then Some v else None
      else None
  end.

End GoStrings.

(* ===================================================================== *)
(** * The libraries behind the extraction engine *)
(* ===================================================================== *)

(** The part of [github.com/PuerkitoBio/goquery] that the client uses.  A
    document is the selection of its root. *)
Class GoQuery := {
  Selection : Type;
  (** [s.Find(selector)] *)
  sel_Find : Selection -> string -> Selection;
  (** [s.Eq(i)] *)
  sel_Eq : Selection -> Z -> Selection;
  (** [s.Length()] *)
  sel_Length : Selection -> Z;
  (** [s.Text()] *)
  sel_Text : Selection -> string;
  (** [s.Attr(name)]: [None] when [exists] is false *)
  sel_Attr : Selection -> string -> option string;
  (** [s.Parent()] *)
  sel_Parent : Selection -> Selection;
  (** [s.Html()]: [None] when it returns an error *)
  sel_Html : Selection -> option string;
  (** the one-element selections that [s.Each] visits, in order *)
  sel_Each : Selection -> list Selection
}.

(** The part of Go's [time] that the client uses.  A [Duration] is a number
    of nanoseconds in an [int64]. *)
Class GoTime := {
  Time : Type;
  (** [t.Add(d)] *)
  time_Add : Time -> Z -> Time;
  (** [t.AddDate(years, months, days)] *)
  time_AddDate : Time -> Z -> Z -> Z -> Time
}.

Definition time_Hour : Z := 3600 * 1000000000.

(* ===================================================================== *)
(** * internal/api: types.go and the client *)
(* ===================================================================== *)

Module Api.

Record FictionChapter {T : GoTime} := {
  ch_ID : Z;
  ch_Title : string;
  ch_Release : option Time
}.

Record FictionViews := { Total : Z; Average : Z }.

Record FictionScore := {
  Style : float;
  Story : float;
  Grammar : float;
  Overall : float;
  Character : float
}.

Record FictionStats := {
  Pages : Z;
  Ratings : Z;
  Favorites : Z;
  Followers : Z;
  Views : FictionViews;
  Score : FictionScore
}.

Record FictionAuthor := {
  au_ID : Z;
  au_Name : string;
  au_Title : string;
  au_Avatar : string
}.

Record Fiction {T : GoTime} := {
  ID : Z;
  Type_ : string;
  Title : string;
  Image : string;
  Status : string;
  Tags : list string;
  Warnings : list string;
  Description : string;
  Stats : FictionStats;
  Author : FictionAuthor;
  Chapters : list FictionChapter
}.

Record Chapter := {
  Content : string;
  PreNote : string;
  PostNote : string;
  Next : Z;
  Previous : Z
}.

(** The zero value of [FictionStats], as in [&Fiction{ID: id}]. *)
Definition zero_FictionStats : FictionStats := {|
  Pages := 0; Ratings := 0; Favorites := 0; Followers := 0;
  Views := {| Total := 0; Average := 0 |};
  Score := {| Style := 0%float; Story := 0%float; Grammar := 0%float;
              Overall := 0%float; Character := 0%float |}
|}.

(** The sentinel that [parseRating] returns for a score it cannot read. *)
Definition minus_one : float := (-1)%float.

Section Extraction.
Context {Q : GoQuery}.

(** [strconv.ParseFloat(s, 64)]; [None] when it returns an error. *)
Variable ParseFloat : string -> option float.

Definition parseNumber (raw : string) : Z :=
  let cleaned :=
    GoStrings.remove_bytes
      (fun c => Ascii.eqb c ","%char || GoStrings.re_space c) raw in
  match GoStrings.Atoi cleaned with
  | Some num => num
  | None => 0
  end.

Definition parseRating (raw : string) : float :=
  match GoStrings.Split raw "/" with
  | part0 :: _ =>
      match ParseFloat (GoStrings.TrimSpace part0) with
      | Some rating => rating
      | None => minus_one
      end
  | [] => minus_one
  end.

Definition getContent (sel : Selection) : string :=
  match sel_Attr (sel_Find sel "span") "data-content" with
  | Some content => content
  | None => ""
  end.

Definition statsList (doc : Selection) : Selection :=
  sel_Find (sel_Eq (sel_Find (sel_Find doc "div.stats-content") ".list-unstyled") 1) "li".

Definition ratingList (doc : Selection) : Selection :=
  sel_Find (sel_Eq (sel_Find (sel_Find doc "div.stats-content") ".list-unstyled") 0) "li".

(** [parseStats(doc, stats)]: the value of [*stats] after the call. *)
Definition parseStats (doc : Selection) (stats : FictionStats) : FictionStats :=
  let statsList := statsList doc in
  let ratingList := ratingList doc in
  let stats :=
    if sel_Length statsList >=? 12 then
      {| Pages := parseNumber (sel_Text (sel_Eq statsList 11));
         Ratings := parseNumber (sel_Text (sel_Eq statsList 9));
         Favorites := parseNumber (sel_Text (sel_Eq statsList 7));
         Followers := parseNumber (sel_Text (sel_Eq statsList 5));
         Views := {| Total := parseNumber (sel_Text (sel_Eq statsList 1));
                     Average := parseNumber (sel_Text (sel_Eq statsList 3)) |};
         Score := Score stats |}
    else stats in
  if sel_Length ratingList >=? 10 then
    {| Pages := Pages stats;
       Ratings := Ratings stats;
       Favorites := Favorites stats;
       Followers := Followers stats;
       Views := Views stats;
       Score := {| Style := parseRating (getContent (sel_Eq ratingList 3));
                   Story := parseRating (getContent (sel_Eq ratingList 5));
                   Grammar := parseRating (getContent (sel_Eq ratingList 9));
                   Overall := parseRating (getContent (sel_Eq ratingList 1));
                   Character := parseRating (getContent (sel_Eq ratingList 7)) |} |}
  else stats.

(** [extractChapterID]. *)
Definition extractChapterID (url : string) : Z :=
  let parts := GoStrings.Split url "/" in
  if GoInt.len parts >=? 6 then
    match GoStrings.Atoi (nth 5 parts "") with
    | Some id => id
    | None => -1
    end
  else -1.

Context {T : GoTime}.

Fixpoint span (p : ascii -> bool) (s : string) : string * string :=
  match s with
  | EmptyString => (EmptyString, EmptyString)
  | String c s' =>
      if p c then let (a, b) := span p s' in (String c a, b)
      else (EmptyString, s)
  end.

(** A match of the regular expression (\d+)\s*unit that starts at the
    first byte of [s]: the digits of its group.  Both repetitions are
    greedy, and giving back a digit or a white space never helps, since
    the byte given back is neither white space nor the first letter of
    [unit]. *)
Definition match_here (unit : string) (s : string) : option string :=
  let (digits, rest) := span GoStrings.is_digit s in
  match digits with
  | EmptyString => None
  | _ =>
      let (_, rest') := span GoStrings.re_space rest in
      if GoStrings.HasPrefix rest' unit then Some digits else None
  end.

(** [re.FindStringSubmatch(text)] for that expression: group 1 of the
    leftmost match, [None] when [len(matches) > 1] is false. *)
Fixpoint FindStringSubmatch (unit : string) (text : string) : option string :=
  match match_here unit text with
  | Some digits => Some digits
  | None =>
      match text with
      | EmptyString => None
      | String _ text' => FindStringSubmatch unit text'
      end
  end.

(** [parseRelativeTime(timeText)], with the reading [now] of
    [time.Now()].  The error it returns is always nil. *)
Definition parseRelativeTime (now : Time) (timeText : string) : Time :=
  if GoStrings.Contains timeText "ago" then
    if GoStrings.Contains timeText "hour" then
      match FindStringSubmatch "hour" timeText with
      | Some m1 =>
          match GoStrings.Atoi m1 with
          | Some hours => time_Add now (GoInt.mul (GoInt.neg hours) time_Hour)
          | None => now
          end
      | None => now
      end
    else if GoStrings.Contains timeText "day" then
      match FindStringSubmatch "day" timeText with
      | Some m1 =>
          match GoStrings.Atoi m1 with
          | Some days => time_AddDate now 0 0 (GoInt.neg days)
          | None => now
          end
      | None => now
      end
    else if GoStrings.Contains timeText "week" then
      match FindStringSubmatch "week" timeText with
      | Some m1 =>
          match GoStrings.Atoi m1 with
          | Some weeks => time_AddDate now 0 0 (GoInt.mul (GoInt.neg weeks) 7)
          | None => now
          end
      | None => now
      end
    else now
  else now.

(** One row of [parseChapters]. *)
Definition parseChapterRow (now : Time) (s : Selection) : FictionChapter :=
  let titleLink := sel_Find (sel_Eq (sel_Find s "td") 0) "a" in
  let id :=
    match sel_Attr titleLink "href" with
    | Some href =>
        let parts := GoStrings.Split href "/" in
        if GoInt.len parts >? 5 then
          match GoStrings.Atoi (nth 5 parts "") with
          | Some chapterID => chapterID
          | None => 0
          end
        else 0
    | None => 0
    end in
  let timeText := sel_Text (sel_Find (sel_Eq (sel_Find s "td") 1) "time") in
  {| ch_ID := id;
     ch_Title := GoStrings.TrimSpace (sel_Text titleLink);
     ch_Release := Some (parseRelativeTime now timeText) |}.

(** [parseChapters]: [clock i] is the reading of [time.Now()] in row [i]. *)
Definition parseChapters (clock : nat -> Time) (doc : Selection)
  : list FictionChapter :=
  map (fun ir => parseChapterRow (clock (fst ir)) (snd ir))
      (combine (seq 0 (List.length (sel_Each (sel_Find doc "tbody tr"))))
               (sel_Each (sel_Find doc "tbody tr"))).

(** [parseChapter]. *)
Definition parseChapter (doc : Selection) : Chapter :=
  let notes := sel_Find doc "div.author-note" in
  {| Content :=
       match sel_Html (sel_Find doc "div.chapter-inner.chapter-content") with
       | Some content => GoStrings.TrimSpace content
       | None => ""
       end;
     PreNote :=
       if sel_Length notes >? 0
       then GoStrings.TrimSpace (sel_Text (sel_Find (sel_Eq notes 0) "p")) else "";
     PostNote :=
       if sel_Length notes >? 1
       then GoStrings.TrimSpace (sel_Text (sel_Find (sel_Eq notes 1) "p")) else "";
     Next :=
       match sel_Attr (sel_Parent (sel_Find doc "i.fa-chevron-double-right")) "href" with
       | Some nextHref => extractChapterID nextHref
       | None => -1
       end;
     Previous :=
       match sel_Attr (sel_Parent (sel_Find doc "i.fa-chevron-double-left")) "href" with
       | Some prevHref => extractChapterID prevHref
       | None => -1
       end |}.

(** The selector of the avatar image, an [img] whose [data-type]
    attribute is the quoted word avatar (byte 34 is the quote). *)
Definition avatar_selector : string :=
  String.append "img[data-type="
    (String (ascii_of_nat 34)
       (String.append "avatar" (String (ascii_of_nat 34) "]"))).

Definition attr_or_empty (s : Selection) (name : string) : string :=
  match sel_Attr s name with
  | Some v => v
  | None => ""
  end.

(** [parseFiction]; the error it returns is always nil. *)
Definition parseFiction (clock : nat -> Time) (doc : Selection) (id : Z) : Fiction :=
  let labels := sel_Find doc "span.bg-blue-hoki" in
  let author := sel_Eq (sel_Find doc ".portlet-body") 0 in
  {| ID := id;
     Type_ := if sel_Length labels >=? 2 then sel_Text (sel_Eq labels 0) else "";
     Title := sel_Text (sel_Find doc "div.fic-title h1");
     Image := attr_or_empty (sel_Find doc "div.fic-header img") "src";
     Status :=
       if sel_Length labels >=? 2
       then GoStrings.TrimSpace (sel_Text (sel_Eq labels 1)) else "";
     Tags :=
       map (fun s => GoStrings.TrimSpace (sel_Text s))
           (sel_Each (sel_Find doc "span.tags a.label"));
     Warnings :=
       filter (fun w => negb (String.eqb w ""))
              (map (fun s => GoStrings.TrimSpace (sel_Text s))
                   (sel_Each (sel_Find doc "ul.list-inline li")));
     Description :=
       GoStrings.TrimSpace
         (sel_Text (sel_Find doc "div.description > div.hidden-content"));
     Stats := parseStats doc zero_FictionStats;
     Author :=
       {| au_ID :=
            match sel_Attr (sel_Find author ".mt-card-content a") "href" with
            | Some href =>
                let parts := GoStrings.Split href "/" in
                if GoInt.len parts >? 2 then
                  match GoStrings.Atoi (nth 2 parts "") with
                  | Some authorID => authorID
                  | None => 0
                  end
                else 0
            | None => 0
            end;
          au_Name := GoStrings.TrimSpace (sel_Text (sel_Find author ".mt-card-content a"));
          au_Title := sel_Text (sel_Find author ".mt-card-desc");
          au_Avatar := attr_or_empty (sel_Find author avatar_selector) "src" |};
     Chapters := parseChapters clock doc |}.

End Extraction.

End Api.

(* ===================================================================== *)
(** * internal/ui/reader.go: text reflow *)
(* ===================================================================== *)

Module Reflow.

(** The line feed, and the blank line that separates paragraphs. *)
Definition LF : string := String (ascii_of_nat 10) EmptyString.
Definition LFLF : string := String.append LF LF.

Section Formatting.

(** [html.UnescapeString]. *)
Variable UnescapeString : string -> string.

(** [authorNote.Render] of the one [lipgloss] style of author notes. *)
Variable Render : string -> string.

Fixpoint has_gt (s : string) : bool :=
  match s with
  | EmptyString => false
  | String c s' => Ascii.eqb c ">"%char || has_gt s'
  end.

(** [tagRegex.ReplaceAllString(content, "")] for the expression <[^>]*> :
    a tag runs from a < to the first > behind it; a < with no > behind it
    stays. *)
Fixpoint strip_tags (s : string) (in_tag : bool) : string :=
  match s with
  | EmptyString => EmptyString
  | String c s' =>
      if in_tag then strip_tags s' (negb (Ascii.eqb c ">"%char))
      else if Ascii.eqb c "<"%char && has_gt s' then strip_tags s' true
      else String c (strip_tags s' false)
  end.

(** [ReplaceAllString(content, " ")] for the expression \s+ : every maximal
    run of white space becomes one space. *)
Fixpoint collapse_spaces (s : string) (in_run : bool) : string :=
  match s with
  | EmptyString => EmptyString
  | String c s' =>
      if GoStrings.re_space c then
        if in_run then collapse_spaces s' true
        else String " "%char (collapse_spaces s' true)
      else String c (collapse_spaces s' false)
  end.

(** The loop of [cleanHTML] over the pieces between sentence ends; [last]
    tells whether [i < len(paragraphs)-1] is false. *)
Fixpoint clean_paragraphs (paragraphs : list string) : list string :=
  match paragraphs with
  | [] => []
  | p :: rest =>
      let p := GoStrings.TrimSpace p in
      if String.eqb p EmptyString then clean_paragraphs rest
      else
        let p :=
          match rest with
          | [] => p
          | _ => if negb (GoStrings.HasSuffix p ".") then String.append p "." else p
          end in
        p :: clean_paragraphs rest
  end.

Definition cleanHTML (htmlContent : string) : string :=
  let content := UnescapeString htmlContent in
  let content := strip_tags content false in
  let content := collapse_spaces content false in
  let content := GoStrings.TrimSpace content in
  let paragraphs := GoStrings.Split content ". " in
  if GoInt.len paragraphs >? 1
  then GoStrings.Join (clean_paragraphs paragraphs) LFLF
  else content.

(** The loop of [wrapText] over the words of one paragraph: the lines
    completed so far and the line being filled. *)
Fixpoint wrap_words (width : Z) (words : list string) (lines : list string)
  (currentLine : string) : list string * string :=
  match words with
  | [] => (lines, currentLine)
  | word :: rest =>
      if GoInt.add (GoInt.add (GoInt.strlen currentLine) (GoInt.strlen word)) 1 <=? width
      then
        if String.eqb currentLine EmptyString
        then wrap_words width rest lines word
        else wrap_words width rest lines
               (String.append currentLine (String.append " " word))
      else
        if negb (String.eqb currentLine EmptyString)
        then wrap_words width rest (lines ++ [currentLine]) word
        else wrap_words width rest lines word
  end.

(** The body of the loop of [wrapText] over the paragraphs: [None] for a
    paragraph that is skipped. *)
Definition wrap_paragraph (width : Z) (paragraph : string) : option string :=
  if String.eqb (GoStrings.TrimSpace paragraph) EmptyString then None
  else
    let words := GoStrings.Fields paragraph in
    if GoInt.len words =? 0 then None
    else
      let (lines, currentLine) := wrap_words width words [] EmptyString in
      let lines :=
        if negb (String.eqb currentLine EmptyString)
        then lines ++ [currentLine] else lines in
      Some (GoStrings.Join lines LF).

Fixpoint wrap_paragraphs (width : Z) (paragraphs : list string) : list string :=
  match paragraphs with
  | [] => []
  | paragraph :: rest =>
      match wrap_paragraph width paragraph with
      | Some wrapped => wrapped :: wrap_paragraphs width rest
      | None => wrap_paragraphs width rest
      end
  end.

(** The width that [wrapText] wraps at. *)
Definition effective_width (width : Z) : Z :=
  if width <=? 20 then 40 else width.

Definition wrapText (text : string) (width : Z) : string :=
  let width := effective_width width in
  let paragraphs := GoStrings.Split text LFLF in
  GoStrings.Join (wrap_paragraphs width paragraphs) LFLF.

(** [formatChapterContent] for the chapter and the terminal width of the
    reader. *)
Definition formatChapterContent (currentChapter : option Api.Chapter) (termWidth : Z)
  : string :=
  match currentChapter with
  | None => "No chapter content available"
  | Some ch =>
      let pre :=
        if negb (String.eqb (Api.PreNote ch) EmptyString)
        then String.append (Render (String.append "Author's Note: " (Api.PreNote ch))) LFLF
        else EmptyString in
      let textWidth := GoInt.max (GoInt.sub termWidth 4) 40 in
      let chapterContent := wrapText (cleanHTML (Api.Content ch)) textWidth in
      let post :=
        if negb (String.eqb (Api.PostNote ch) EmptyString)
        then String.append LFLF (Render (String.append "Author's Note: " (Api.PostNote ch)))
        else EmptyString in
      String.append pre (String.append chapterContent post)
  end.

End Formatting.

End Reflow.

(* ===================================================================== *)
(** * Conversions between [int] and [float64] *)
(* ===================================================================== *)

Module Float64.

(** [float64(z)] for an [int]: the nearest binary64 number, ties to even. *)
Definition of_int (z : Z) : float :=
  if z =? GoInt.min_int then (-9223372036854775808)%float
  else if z <? 0 then PrimFloat.opp (PrimFloat.of_uint63 (Uint63.of_Z (- z)))
  else PrimFloat.of_uint63 (Uint63.of_Z z).

(** The integer part of a finite number [m * 2^e], with its sign; [None]
    for a NaN or an infinity. *)
Definition trunc_spec (x : spec_float) : option Z :=
  match x with
  | S754_zero _ => Some 0
  | S754_finite s m e =>
      let a := if 0 <=? e then Zpos m * 2 ^ e else Zpos m / 2 ^ (- e) in
      Some (if s then - a else a)
  | S754_infinity _ | S754_nan => None
  end.

Definition trunc (x : float) : option Z := trunc_spec (Prim2SF x).

(** [int(x)] for a [float64]: the fraction is discarded; when the integer
    part does not fit an [int] the language leaves the result to the
    implementation, here [indefinite x]. *)
Definition to_int (indefinite : float -> Z) (x : float) : Z :=
  match trunc x with
  | Some v =>
      if (GoInt.min_int <=? v) && (v <=? GoInt.max_int) then v else indefinite x
  | None => indefinite x
  end.

End Float64.

(* ===================================================================== *)
(** * internal/ui/reader.go: the reader *)
(* ===================================================================== *)

Module Reader.

Section Model.

Context {T : GoTime}.

(** The fields of [ReaderModel]; the HTTP [client] carries no state. *)
Record ReaderModel := {
  fictionID : string;
  fiction : option Api.Fiction;
  currentChapter : option Api.Chapter;
  chapterIndex : Z;
  startChapter : Z;
  loading : bool;
  err : option string;
  showHelp : bool;
  showTOC : bool;
  ready : bool;
  config : option Config.Config;
  content : list string;
  currentPage : Z;
  linesPerPage : Z;
  totalPages : Z;
  termWidth : Z;
  termHeight : Z;
  goToLastPage : bool;
  savedChapterProgress : float
}.

Definition set_fictionID (v : string) (m : ReaderModel) : ReaderModel :=
  {| fictionID := v; fiction := fiction m;
     currentChapter := currentChapter m; chapterIndex := chapterIndex m;
     startChapter := startChapter m; loading := loading m; err := err m;
     showHelp := showHelp m; showTOC := showTOC m; ready := ready m;
     config := config m; content := content m; currentPage := currentPage m;
     linesPerPage := linesPerPage m; totalPages := totalPages m;
     termWidth := termWidth m; termHeight := termHeight m;
     goToLastPage := goToLastPage m;
     savedChapterProgress := savedChapterProgress m |}.

Definition set_fiction (v : option Api.Fiction) (m : ReaderModel) : ReaderModel :=
  {| fictionID := fictionID m; fiction := v;
     currentChapter := currentChapter m; chapterIndex := chapterIndex m;
     startChapter := startChapter m; loading := loading m; err := err m;
     showHelp := showHelp m; showTOC := showTOC m; ready := ready m;
     config := config m; content := content m; currentPage := currentPage m;
     linesPerPage := linesPerPage m; totalPages := totalPages m;
     termWidth := termWidth m; termHeight := termHeight m;
     goToLastPage := goToLastPage m;
     savedChapterProgress := savedChapterProgress m |}.

Definition set_currentChapter (v : option Api.Chapter) (m : ReaderModel) : ReaderModel :=
  {| fictionID := fictionID m; fiction := fiction m; currentChapter := v;
     chapterIndex := chapterIndex m; startChapter := startChapter m;
     loading := loading m; err := err m; showHelp := showHelp m;
     showTOC := showTOC m; ready := ready m; config := config m;
     content := content m; currentPage := currentPage m;
     linesPerPage := linesPerPage m; totalPages := totalPages m;
     termWidth := termWidth m; termHeight := termHeight m;
     goToLastPage := goToLastPage m;
     savedChapterProgress := savedChapterProgress m |}.

Definition set_chapterIndex (v : Z) (m : ReaderModel) : ReaderModel :=
  {| fictionID := fictionID m; fiction := fiction m;
     currentChapter := currentChapter m; chapterIndex := v;
     startChapter := startChapter m; loading := loading m; err := err m;
     showHelp := showHelp m; showTOC := showTOC m; ready := ready m;
     config := config m; content := content m; currentPage := currentPage m;
     linesPerPage := linesPerPage m; totalPages := totalPages m;
     termWidth := termWidth m; termHeight := termHeight m;
     goToLastPage := goToLastPage m;
     savedChapterProgress := savedChapterProgress m |}.

Definition set_startChapter (v : Z) (m : ReaderModel) : ReaderModel :=
  {| fictionID := fictionID m; fiction := fiction m;
     currentChapter := currentChapter m; chapterIndex := chapterIndex m;
     startChapter := v; loading := loading m; err := err m;
     showHelp := showHelp m; showTOC := showTOC m; ready := ready m;
     config := config m; content := content m; currentPage := currentPage m;
     linesPerPage := linesPerPage m; totalPages := totalPages m;
     termWidth := termWidth m; termHeight := termHeight m;
     goToLastPage := goToLastPage m;
     savedChapterProgress := savedChapterProgress m |}.

Definition set_loading (v : bool) (m : ReaderModel) : ReaderModel :=
  {| fictionID := fictionID m; fiction := fiction m;
     currentChapter := currentChapter m; chapterIndex := chapterIndex m;
     startChapter := startChapter m; loading := v; err := err m;
     showHelp := showHelp m; showTOC := showTOC m; ready := ready m;
     config := config m; content := content m; currentPage := currentPage m;
     linesPerPage := linesPerPage m; totalPages := totalPages m;
     termWidth := termWidth m; termHeight := termHeight m;
     goToLastPage := goToLastPage m;
     savedChapterProgress := savedChapterProgress m |}.

Definition set_err (v : option string) (m : ReaderModel) : ReaderModel :=
  {| fictionID := fictionID m; fiction := fiction m;
     currentChapter := currentChapter m; chapterIndex := chapterIndex m;
     startChapter := startChapter m; loading := loading m; err := v;
     showHelp := showHelp m; showTOC := showTOC m; ready := ready m;
     config := config m; content := content m; currentPage := currentPage m;
     linesPerPage := linesPerPage m; totalPages := totalPages m;
     termWidth := termWidth m; termHeight := termHeight m;
     goToLastPage := goToLastPage m;
     savedChapterProgress := savedChapterProgress m |}.

Definition set_showHelp (v : bool) (m : ReaderModel) : ReaderModel :=
  {| fictionID := fictionID m; fiction := fiction m;
     currentChapter := currentChapter m; chapterIndex := chapterIndex m;
     startChapter := startChapter m; loading := loading m; err := err m;
     showHelp := v; showTOC := showTOC m; ready := ready m;
     config := config m; content := content m; currentPage := currentPage m;
     linesPerPage := linesPerPage m; totalPages := totalPages m;
     termWidth := termWidth m; termHeight := termHeight m;
     goToLastPage := goToLastPage m;
     savedChapterProgress := savedChapterProgress m |}.

Definition set_showTOC (v : bool) (m : ReaderModel) : ReaderModel :=
  {| fictionID := fictionID m; fiction := fiction m;
     currentChapter := currentChapter m; chapterIndex := chapterIndex m;
     startChapter := startChapter m; loading := loading m; err := err m;
     showHelp := showHelp m; showTOC := v; ready := ready m;
     config := config m; content := content m; currentPage := currentPage m;
     linesPerPage := linesPerPage m; totalPages := totalPages m;
     termWidth := termWidth m; termHeight := termHeight m;
     goToLastPage := goToLastPage m;
     savedChapterProgress := savedChapterProgress m |}.

Definition set_ready (v : bool) (m : ReaderModel) : ReaderModel :=
  {| fictionID := fictionID m; fiction := fiction m;
     currentChapter := currentChapter m; chapterIndex := chapterIndex m;
     startChapter := startChapter m; loading := loading m; err := err m;
     showHelp := showHelp m; showTOC := showTOC m; ready := v;
     config := config m; content := content m; currentPage := currentPage m;
     linesPerPage := linesPerPage m; totalPages := totalPages m;
     termWidth := termWidth m; termHeight := termHeight m;
     goToLastPage := goToLastPage m;
     savedChapterProgress := savedChapterProgress m |}.

Definition set_config (v : option Config.Config) (m : ReaderModel) : ReaderModel :=
  {| fictionID := fictionID m; fiction := fiction m;
     currentChapter := currentChapter m; chapterIndex := chapterIndex m;
     startChapter := startChapter m; loading := loading m; err := err m;
     showHelp := showHelp m; showTOC := showTOC m; ready := ready m;
     config := v; content := content m; currentPage := currentPage m;
     linesPerPage := linesPerPage m; totalPages := totalPages m;
     termWidth := termWidth m; termHeight := termHeight m;
     goToLastPage := goToLastPage m;
     savedChapterProgress := savedChapterProgress m |}.

Definition set_content (v : list string) (m : ReaderModel) : ReaderModel :=
  {| fictionID := fictionID m; fiction := fiction m;
     currentChapter := currentChapter m; chapterIndex := chapterIndex m;
     startChapter := startChapter m; loading := loading m; err := err m;
     showHelp := showHelp m; showTOC := showTOC m; ready := ready m;
     config := config m; content := v; currentPage := currentPage m;
     linesPerPage := linesPerPage m; totalPages := totalPages m;
     termWidth := termWidth m; termHeight := termHeight m;
     goToLastPage := goToLastPage m;
     savedChapterProgress := savedChapterProgress m |}.

Definition set_currentPage (v : Z) (m : ReaderModel) : ReaderModel :=
  {| fictionID := fictionID m; fiction := fiction m;
     currentChapter := currentChapter m; chapterIndex := chapterIndex m;
     startChapter := startChapter m; loading := loading m; err := err m;
     showHelp := showHelp m; showTOC := showTOC m; ready := ready m;
     config := config m; content := content m; currentPage := v;
     linesPerPage := linesPerPage m; totalPages := totalPages m;
     termWidth := termWidth m; termHeight := termHeight m;
     goToLastPage := goToLastPage m;
     savedChapterProgress := savedChapterProgress m |}.

Definition set_linesPerPage (v : Z) (m : ReaderModel) : ReaderModel :=
  {| fictionID := fictionID m; fiction := fiction m;
     currentChapter := currentChapter m; chapterIndex := chapterIndex m;
     startChapter := startChapter m; loading := loading m; err := err m;
     showHelp := showHelp m; showTOC := showTOC m; ready := ready m;
     config := config m; content := content m; currentPage := currentPage m;
     linesPerPage := v; totalPages := totalPages m; termWidth := termWidth m;
     termHeight := termHeight m; goToLastPage := goToLastPage m;
     savedChapterProgress := savedChapterProgress m |}.

Definition set_totalPages (v : Z) (m : ReaderModel) : ReaderModel :=
  {| fictionID := fictionID m; fiction := fiction m;
     currentChapter := currentChapter m; chapterIndex := chapterIndex m;
     startChapter := startChapter m; loading := loading m; err := err m;
     showHelp := showHelp m; showTOC := showTOC m; ready := ready m;
     config := config m; content := content m; currentPage := currentPage m;
     linesPerPage := linesPerPage m; totalPages := v;
     termWidth := termWidth m; termHeight := termHeight m;
     goToLastPage := goToLastPage m;
     savedChapterProgress := savedChapterProgress m |}.

Definition set_termWidth (v : Z) (m : ReaderModel) : ReaderModel :=
  {| fictionID := fictionID m; fiction := fiction m;
     currentChapter := currentChapter m; chapterIndex := chapterIndex m;
     startChapter := startChapter m; loading := loading m; err := err m;
     showHelp := showHelp m; showTOC := showTOC m; ready := ready m;
     config := config m; content := content m; currentPage := currentPage m;
     linesPerPage := linesPerPage m; totalPages := totalPages m;
     termWidth := v; termHeight := termHeight m;
     goToLastPage := goToLastPage m;
     savedChapterProgress := savedChapterProgress m |}.

Definition set_termHeight (v : Z) (m : ReaderModel) : ReaderModel :=
  {| fictionID := fictionID m; fiction := fiction m;
     currentChapter := currentChapter m; chapterIndex := chapterIndex m;
     startChapter := startChapter m; loading := loading m; err := err m;
     showHelp := showHelp m; showTOC := showTOC m; ready := ready m;
     config := config m; content := content m; currentPage := currentPage m;
     linesPerPage := linesPerPage m; totalPages := totalPages m;
     termWidth := termWidth m; termHeight := v;
     goToLastPage := goToLastPage m;
     savedChapterProgress := savedChapterProgress m |}.

Definition set_goToLastPage (v : bool) (m : ReaderModel) : ReaderModel :=
  {| fictionID := fictionID m; fiction := fiction m;
     currentChapter := currentChapter m; chapterIndex := chapterIndex m;
     startChapter := startChapter m; loading := loading m; err := err m;
     showHelp := showHelp m; showTOC := showTOC m; ready := ready m;
     config := config m; content := content m; currentPage := currentPage m;
     linesPerPage := linesPerPage m; totalPages := totalPages m;
     termWidth := termWidth m; termHeight := termHeight m; goToLastPage := v;
     savedChapterProgress := savedChapterProgress m |}.

Definition set_savedChapterProgress (v : float) (m : ReaderModel) : ReaderModel :=
  {| fictionID := fictionID m; fiction := fiction m;
     currentChapter := currentChapter m; chapterIndex := chapterIndex m;
     startChapter := startChapter m; loading := loading m; err := err m;
     showHelp := showHelp m; showTOC := showTOC m; ready := ready m;
     config := config m; content := content m; currentPage := currentPage m;
     linesPerPage := linesPerPage m; totalPages := totalPages m;
     termWidth := termWidth m; termHeight := termHeight m;
     goToLastPage := goToLastPage m; savedChapterProgress := v |}.

(** [html.UnescapeString] and the [lipgloss] rendering of an author note. *)
Variable UnescapeString : string -> string.
Variable Render : string -> string.

(** The result of [int(x)] for an [x] whose integer part is not an [int]. *)
Variable indefinite : float -> Z.

(** What [Update] reads from the outside: the messages of the event loop. *)
Inductive Msg :=
| WindowSizeMsg (Width Height : Z)
| KeyMsg (key : string)
| fictionLoadedMsg (f : Api.Fiction)
| chapterLoadedMsg (chapter : Api.Chapter) (index : Z)
| errorMsg (e : string)
| otherMsg.

(** The commands that [Update] and [Init] return. *)
Inductive Cmd :=
| cmd_nil
| cmd_Quit
| cmd_loadFiction
| cmd_loadChapter (index : Z)
| cmd_menuInit.

(** The model that [Update] returns: the reader itself or a new menu. *)
Inductive Model :=
| ReaderM (m : ReaderModel)
| MenuM.

(** [NewReaderModel], with the result of [getTerminalSize()] and the
    configuration that [config.Load()] returns (it is never nil). *)
Definition NewReaderModel (termSize : Z * Z) (cfg : Config.Config) (fictionID : string)
  : ReaderModel :=
  let (termWidth, termHeight) := termSize in
  let headerHeight := 4 in
  let footerHeight := 1 in
  {| fictionID := fictionID;
     fiction := None;
     currentChapter := None;
     chapterIndex := 0;
     startChapter := 0;
     loading := true;
     err := None;
     showHelp := false;
     showTOC := false;
     ready := true;
     config := Some cfg;
     content := [];
     currentPage := 0;
     linesPerPage :=
       GoInt.max (GoInt.sub (GoInt.sub termHeight headerHeight) footerHeight) 10;
     totalPages := 0;
     termWidth := termWidth;
     termHeight := termHeight;
     goToLastPage := false;
     savedChapterProgress := 0%float |}.

Definition SetStartChapter (chapterIndex : Z) (m : ReaderModel) : ReaderModel :=
  set_startChapter chapterIndex m.

(** The loop of [restoreReadingPosition] over the reading history; it
    breaks at the first entry of the fiction. *)
Fixpoint restore_from (history : list Config.ReadingEntry) (m : ReaderModel)
  : ReaderModel :=
  match history with
  | [] => m
  | entry :: rest =>
      if String.eqb (Config.FictionID entry) (fictionID m) then
        let m :=
          if startChapter m =? 0
          then set_startChapter (Config.CurrentChapter entry) m else m in
        if (startChapter m =? Config.CurrentChapter entry)
           && PrimFloat.ltb 0%float (Config.ChapterProgress entry)
        then set_savedChapterProgress (Config.ChapterProgress entry) m
        else m
      else restore_from rest m
  end.

Definition restoreReadingPosition (m : ReaderModel) : ReaderModel :=
  match config m with
  | None => m
  | Some cfg => restore_from (Config.ReadingHistory cfg) m
  end.

Definition Init (m : ReaderModel) : ReaderModel * Cmd :=
  (restoreReadingPosition m, cmd_loadFiction).

(** [s[i]] of a slice; [None] is the index-out-of-range panic. *)
Definition index {A : Type} (s : list A) (i : Z) : option A :=
  if (0 <=? i) && (i <? GoInt.len s) then nth_error s (Z.to_nat i) else None.

(** [updateContent]; [None] is the panic of a division by zero. *)
Definition updateContent (m : ReaderModel) : option ReaderModel :=
  match currentChapter m with
  | None => Some m
  | Some _ =>
      let formattedContent :=
        Reflow.formatChapterContent UnescapeString Render (currentChapter m) (termWidth m) in
      let m := set_content (GoStrings.Split formattedContent Reflow.LF) m in
      let pages :=
        if GoInt.len (content m) =? 0 then Some 1
        else GoInt.quo (GoInt.sub (GoInt.add (GoInt.len (content m)) (linesPerPage m)) 1)
                       (linesPerPage m) in
      match pages with
      | None => None
      | Some pages =>
          let m := set_totalPages pages m in
          Some (if currentPage m >=? totalPages m
                then set_currentPage (GoInt.max 0 (GoInt.sub (totalPages m) 1)) m
                else m)
      end
  end.

(** The progress through the chapter that [saveReadingProgress] stores. *)
Definition chapterProgress (m : ReaderModel) : float :=
  if totalPages m >? 0 then
    let p := PrimFloat.div (Float64.of_int (currentPage m)) (Float64.of_int (totalPages m)) in
    if PrimFloat.ltb 1%float p then 1%float else p
  else 0%float.

(** [saveReadingProgress], with the formatted reading [now] of the clock.
    [m.config.Save()] writes the configuration file, which is outside this
    model.  [None] is an index-out-of-range panic. *)
Definition saveReadingProgress (now : string) (m : ReaderModel) : option ReaderModel :=
  match fiction m, config m with
  | Some f, Some cfg =>
      let chapterTitle :=
        if chapterIndex m <? GoInt.len (Api.Chapters f)
        then option_map Api.ch_Title (index (Api.Chapters f) (chapterIndex m))
        else Some EmptyString in
      match chapterTitle with
      | None => None
      | Some chapterTitle =>
          let entry := {|
            Config.FictionID := fictionID m;
            Config.FictionTitle := Api.Title f;
            Config.Author := Api.au_Name (Api.Author f);
            Config.CurrentChapter := chapterIndex m;
            Config.ChapterTitle := chapterTitle;
            Config.ChapterProgress := chapterProgress m;
            Config.LastRead := now;
            Config.TotalChapters := GoInt.len (Api.Chapters f) |} in
          Some (set_config (Some (Config.UpdateReadingProgress entry cfg)) m)
      end
  | _, _ => Some m
  end.

Definition is_key (key : string) (names : list string) : bool :=
  existsb (String.eqb key) names.

(** The case "n", "b" of [Update]: next chapter. *)
Definition nextChapterKey (m : ReaderModel) : Model * Cmd :=
  match fiction m with
  | Some f =>
      if chapterIndex m <? GoInt.sub (GoInt.len (Api.Chapters f)) 1 then
        let m := set_chapterIndex (GoInt.add (chapterIndex m) 1) m in
        let m := set_loading true m in
        (ReaderM m, cmd_loadChapter (chapterIndex m))
      else (ReaderM m, cmd_nil)
  | None => (ReaderM m, cmd_nil)
  end.

(** The case "p" of [Update]: previous chapter, to its last page. *)
Definition prevChapterKey (m : ReaderModel) : Model * Cmd :=
  match fiction m with
  | Some f =>
      if chapterIndex m >? 0 then
        let m := set_chapterIndex (GoInt.sub (chapterIndex m) 1) m in
        let m := set_loading true m in
        let m := set_goToLastPage true m in
        (ReaderM m, cmd_loadChapter (chapterIndex m))
      else (ReaderM m, cmd_nil)
  | None => (ReaderM m, cmd_nil)
  end.

(** The case " ", "f", "down", "j", "right", "l" of [Update]: next page. *)
Definition nextPageKey (m : ReaderModel) : Model * Cmd :=
  if currentPage m <? GoInt.sub (totalPages m) 1 then
    (ReaderM (set_currentPage (GoInt.add (currentPage m) 1) m), cmd_nil)
  else
    match fiction m with
    | Some f =>
        if chapterIndex m <? GoInt.sub (GoInt.len (Api.Chapters f)) 1 then
          let m := set_chapterIndex (GoInt.add (chapterIndex m) 1) m in
          let m := set_loading true m in
          (ReaderM m, cmd_loadChapter (chapterIndex m))
        else (ReaderM m, cmd_nil)
    | None => (ReaderM m, cmd_nil)
    end.

(** The case "up", "k", "left", "h" of [Update]: previous page. *)
Definition prevPageKey (m : ReaderModel) : Model * Cmd :=
  if currentPage m >? 0 then
    (ReaderM (set_currentPage (GoInt.sub (currentPage m) 1) m), cmd_nil)
  else
    match fiction m with
    | Some f =>
        if chapterIndex m >? 0 then
          let m := set_chapterIndex (GoInt.sub (chapterIndex m) 1) m in
          let m := set_loading true m in
          let m := set_goToLastPage true m in
          (ReaderM m, cmd_loadChapter (chapterIndex m))
        else (ReaderM m, cmd_nil)
    | None => (ReaderM m, cmd_nil)
    end.

(** The case "0" ... "9" of [Update]: jump to a chapter of the table of
    contents. *)
Definition digitKey (key : string) (m : ReaderModel) : Model * Cmd :=
  match showTOC m, fiction m with
  | true, Some f =>
      match GoStrings.Atoi key with
      | Some chapterNum =>
          if (chapterNum >=? 1) && (chapterNum <=? GoInt.len (Api.Chapters f)) then
            let m := set_chapterIndex (GoInt.sub chapterNum 1) m in
            let m := set_loading true m in
            let m := set_showTOC false m in
            (ReaderM m, cmd_loadChapter (chapterIndex m))
          else (ReaderM m, cmd_nil)
      | None => (ReaderM m, cmd_nil)
      end
  | _, _ => (ReaderM m, cmd_nil)
  end.

(** The case [tea.KeyMsg] of [Update]. *)
Definition keyUpdate (now : string) (key : string) (m : ReaderModel)
  : option (Model * Cmd) :=
  if is_key key ["ctrl+c"; "q"] then
    option_map (fun m => (ReaderM m, cmd_Quit)) (saveReadingProgress now m)
  else if is_key key ["m"] then
    option_map (fun _ => (MenuM, cmd_menuInit)) (saveReadingProgress now m)
  else if is_key key ["?"] then
    Some (ReaderM (set_showHelp (negb (showHelp m)) m), cmd_nil)
  else if is_key key ["t"] then
    Some (ReaderM (match fiction m with
                   | Some _ => set_showTOC (negb (showTOC m)) m
                   | None => m
                   end), cmd_nil)
  else if is_key key ["n"; "b"] then Some (nextChapterKey m)
  else if is_key key ["p"] then Some (prevChapterKey m)
  else if is_key key [" "; "f"; "down"; "j"; "right"; "l"] then Some (nextPageKey m)
  else if is_key key ["up"; "k"; "left"; "h"] then Some (prevPageKey m)
  else if is_key key ["g"; "home"] then
    Some (ReaderM (set_currentPage 0 m), cmd_nil)
  else if is_key key ["G"; "end"] then
    Some (ReaderM (if totalPages m >? 0
                   then set_currentPage (GoInt.sub (totalPages m) 1) m
                   else m), cmd_nil)
  else if is_key key ["r"] then
    Some (ReaderM (set_err None (set_loading true m)), cmd_loadFiction)
  else if is_key key ["0"; "1"; "2"; "3"; "4"; "5"; "6"; "7"; "8"; "9"] then
    Some (digitKey key m)
  else Some (ReaderM m, cmd_nil).

(** The page that the case [chapterLoadedMsg] of [Update] lands on, after
    [updateContent]. *)
Definition setPagePosition (m : ReaderModel) : ReaderModel :=
  if goToLastPage m then
    let m :=
      if totalPages m >? 0
      then set_currentPage (GoInt.sub (totalPages m) 1) m else m in
    set_goToLastPage false m
  else if PrimFloat.ltb 0%float (savedChapterProgress m) then
    let m :=
      if totalPages m >? 0 then
        let targetPage :=
          Float64.to_int indefinite
            (PrimFloat.mul (Float64.of_int (totalPages m)) (savedChapterProgress m)) in
        let targetPage :=
          if targetPage >=? totalPages m
          then GoInt.sub (totalPages m) 1 else targetPage in
        set_currentPage targetPage m
      else m in
    set_savedChapterProgress 0%float m
  else set_currentPage 0 m.

(** [Update], with the formatted reading [now] of the clock; [None] is a
    run-time panic. *)
Definition Update (now : string) (m : ReaderModel) (msg : Msg) : option (Model * Cmd) :=
  match msg with
  | WindowSizeMsg Width Height =>
      let headerHeight := 4 in
      let footerHeight := 1 in
      let m := set_termWidth Width m in
      let m := set_termHeight Height m in
      let m :=
        set_linesPerPage
          (GoInt.max (GoInt.sub (GoInt.sub Height headerHeight) footerHeight) 10) m in
      let m := set_ready true m in
      match currentChapter m with
      | Some _ => option_map (fun m => (ReaderM m, cmd_nil)) (updateContent m)
      | None => Some (ReaderM m, cmd_nil)
      end
  | KeyMsg key => keyUpdate now key m
  | fictionLoadedMsg f =>
      let m := set_loading false m in
      let m := set_fiction (Some f) m in
      if GoInt.len (Api.Chapters f) >? 0 then
        let startIndex := startChapter m in
        let startIndex :=
          if startIndex >=? GoInt.len (Api.Chapters f)
          then GoInt.sub (GoInt.len (Api.Chapters f)) 1 else startIndex in
        let startIndex := if startIndex <? 0 then 0 else startIndex in
        Some (ReaderM m, cmd_loadChapter startIndex)
      else Some (ReaderM (set_err (Some "no chapters found") m), cmd_nil)
  | chapterLoadedMsg chapter index =>
      let m := set_loading false m in
      let m := set_currentChapter (Some chapter) m in
      let m := set_chapterIndex index m in
      match updateContent m with
      | None => None
      | Some m =>
          option_map (fun m => (ReaderM m, cmd_nil))
                     (saveReadingProgress now (setPagePosition m))
      end
  | errorMsg e =>
      Some (ReaderM (set_err (Some e) (set_loading false m)), cmd_nil)
  | otherMsg => Some (ReaderM m, cmd_nil)
  end.

(** The answers of the network: [client.GetFiction] and
    [client.GetChapter], a result or the text of an error. *)
Variable GetFiction : Z -> Api.Fiction + string.
Variable GetChapter : Z -> Api.Chapter + string.

(** The message that the command of [loadFiction] delivers. *)
Definition loadFiction (m : ReaderModel) : Msg :=
  match GoStrings.Atoi (fictionID m) with
  | None => errorMsg (String.append "invalid fiction ID: " (fictionID m))
  | Some id =>
      match GetFiction id with
      | inl f => fictionLoadedMsg f
      | inr e => errorMsg e
      end
  end.



(** The texts that [fmt.Sprintf] formats in [getCurrentPageContent]: the
    notice of a chapter without content, with the saved progress, and the
    notice of a page behind the end, with the page number, the page count
    and the line count. *)
Variable noContentText : float -> string.
Variable endOfChapterText : Z -> Z -> Z -> string.

(** [copy(dst, src)]: the first [min(len(dst), len(src))] elements of
    [src] over those of [dst]. *)
Definition copy {A : Type} (dst src : list A) : list A :=
  firstn (List.length dst) src ++ skipn (List.length src) dst.

(** The loop [for i := lo; i < hi; i++ { s[i] = x }] over indices of [s],
    with [n] iterations to go. *)
Fixpoint fill {A : Type} (s : list A) (i n : nat) (x : A) : list A :=
  match n with
  | O => s
  | S n' => fill (Config.assign s i x) (S i) n' x
  end.

(** [getCurrentPageContent]; [None] is a panic: [make] with a negative
    length or a slice expression out of bounds.  The memory that
    [make] may fail to find is outside this model. *)
Definition getCurrentPageContent (m : ReaderModel) : option string :=
  if GoInt.len (content m) =? 0 then
    match currentChapter m with
    | None => Some "Loading chapter content..."
    | Some _ => Some (noContentText (savedChapterProgress m))
    end
  else
    let start := GoInt.mul (currentPage m) (linesPerPage m) in
    let end_ := GoInt.add start (linesPerPage m) in
    if start >=? GoInt.len (content m) then
      Some (endOfChapterText (GoInt.add (currentPage m) 1) (totalPages m)
              (GoInt.len (content m)))
    else
      let end_ := if end_ >? GoInt.len (content m) then GoInt.len (content m) else end_ in
      if linesPerPage m <? 0 then None
      else
        match Config.slice (content m) start end_ with
        | None => None
        | Some src =>
            let pageContent := copy (repeat EmptyString (Z.to_nat (linesPerPage m))) src in
            let pageContent :=
              fill pageContent (Z.to_nat (GoInt.sub end_ start))
                   (Z.to_nat (linesPerPage m - GoInt.sub end_ start)) EmptyString in
            Some (GoStrings.Join pageContent Reflow.LF)
        end.

End Model.

End Reader.

(* ===================================================================== *)
(** * internal/ui/toc.go: the table of contents *)
(* ===================================================================== *)

Module Toc.

Section Model.

Context {T : GoTime}.

Record TOCModel := {
  fiction : option Api.Fiction;
  currentIndex : Z;
  selectedIndex : Z;
  scrollOffset : Z;
  viewHeight : Z;
  visible : bool
}.

Definition set_currentIndex (v : Z) (m : TOCModel) : TOCModel :=
  {| fiction := fiction m; currentIndex := v; selectedIndex := selectedIndex m;
     scrollOffset := scrollOffset m; viewHeight := viewHeight m;
     visible := visible m |}.

Definition set_selectedIndex (v : Z) (m : TOCModel) : TOCModel :=
  {| fiction := fiction m; currentIndex := currentIndex m; selectedIndex := v;
     scrollOffset := scrollOffset m; viewHeight := viewHeight m;
     visible := visible m |}.

Definition set_scrollOffset (v : Z) (m : TOCModel) : TOCModel :=
  {| fiction := fiction m; currentIndex := currentIndex m;
     selectedIndex := selectedIndex m; scrollOffset := v;
     viewHeight := viewHeight m; visible := visible m |}.

Definition set_visible (v : bool) (m : TOCModel) : TOCModel :=
  {| fiction := fiction m; currentIndex := currentIndex m;
     selectedIndex := selectedIndex m; scrollOffset := scrollOffset m;
     viewHeight := viewHeight m; visible := v |}.

(** What [Update] reads of a [tea.Msg]: the name of a key, or a message of
    another type. *)
Inductive Msg :=
| KeyMsg (key : string)
| otherMsg.

Definition NewTOCModel (fiction : option Api.Fiction) (currentIndex viewHeight : Z)
  : TOCModel :=
  {| fiction := fiction;
     currentIndex := currentIndex;
     selectedIndex := currentIndex;
     scrollOffset := 0;
     viewHeight := GoInt.max (GoInt.sub viewHeight 4) 10;
     visible := false |}.

(** [centerOnCurrentChapter]; the quotient by the constant 2 neither
    panics nor leaves the range of [int]. *)
Definition centerOnCurrentChapter (m : TOCModel) : TOCModel :=
  match fiction m with
  | None => m
  | Some f =>
      if GoInt.len (Api.Chapters f) =? 0 then m
      else
        let idealOffset := GoInt.sub (currentIndex m) (Z.quot (viewHeight m) 2) in
        set_scrollOffset
          (GoInt.max 0
             (GoInt.min idealOffset
                (GoInt.sub (GoInt.len (Api.Chapters f)) (viewHeight m)))) m
  end.

Definition SetVisible (visible : bool) (m : TOCModel) : TOCModel :=
  let m := set_visible visible m in
  match visible, fiction m with
  | true, Some _ => centerOnCurrentChapter m
  | _, _ => m
  end.

Definition SetCurrentChapter (index : Z) (m : TOCModel) : TOCModel :=
  let m := set_currentIndex index m in
  let m := set_selectedIndex index m in
  if visible m then centerOnCurrentChapter m else m.

(** [ensureVisible]; [None] is the panic of reading the chapters of a nil
    fiction. *)
Definition ensureVisible (m : TOCModel) : option TOCModel :=
  let m :=
    if selectedIndex m <? scrollOffset m
    then set_scrollOffset (selectedIndex m) m
    else if selectedIndex m >=? GoInt.add (scrollOffset m) (viewHeight m)
    then set_scrollOffset (GoInt.add (GoInt.sub (selectedIndex m) (viewHeight m)) 1) m
    else m in
  match fiction m with
  | None => None
  | Some f =>
      Some (set_scrollOffset
              (GoInt.max 0
                 (GoInt.min (scrollOffset m)
                    (GoInt.sub (GoInt.len (Api.Chapters f)) (viewHeight m)))) m)
  end.

Definition is_key (key : string) (names : list string) : bool :=
  existsb (String.eqb key) names.

(** [Update]: the model after the call, and the pair it returns, a chapter
    index or -1 and whether the table is to be closed. *)
Definition Update (m : TOCModel) (msg : Msg) : option (TOCModel * (Z * bool)) :=
  if negb (visible m) then Some (m, (-1, false))
  else
    match fiction m with
    | None => Some (m, (-1, false))
    | Some f =>
        match msg with
        | KeyMsg key =>
            if is_key key ["up"; "k"] then
              if selectedIndex m >? 0 then
                option_map (fun m => (m, (-1, false)))
                  (ensureVisible (set_selectedIndex (GoInt.sub (selectedIndex m) 1) m))
              else Some (m, (-1, false))
            else if is_key key ["down"; "j"] then
              if selectedIndex m <? GoInt.sub (GoInt.len (Api.Chapters f)) 1 then
                option_map (fun m => (m, (-1, false)))
                  (ensureVisible (set_selectedIndex (GoInt.add (selectedIndex m) 1) m))
              else Some (m, (-1, false))
            else if is_key key ["g"; "home"] then
              Some (set_scrollOffset 0 (set_selectedIndex 0 m), (-1, false))
            else if is_key key ["G"; "end"] then
              let m := set_selectedIndex (GoInt.sub (GoInt.len (Api.Chapters f)) 1) m in
              let m :=
                set_scrollOffset
                  (GoInt.max 0 (GoInt.sub (GoInt.len (Api.Chapters f)) (viewHeight m))) m in
              Some (m, (-1, false))
            else if is_key key ["enter"] then Some (m, (selectedIndex m, true))
            else if is_key key ["0"; "1"; "2"; "3"; "4"; "5"; "6"; "7"; "8"; "9"] then
              match GoStrings.Atoi key with
              | Some chapterNum =>
                  if (chapterNum >=? 1) && (chapterNum <=? GoInt.len (Api.Chapters f))
                  then Some (m, (GoInt.sub chapterNum 1, true))
                  else Some (m, (-1, false))
              | None => Some (m, (-1, false))
              end
            else if is_key key ["t"; "escape"] then Some (m, (-1, true))
            else Some (m, (-1, false))
        | otherMsg => Some (m, (-1, false))
        end
    end.

(** The rows that [View] lists: [start] and [end] of its loop over
    [m.fiction.Chapters[i]]. *)
Definition viewRange (m : TOCModel) (f : Api.Fiction) : Z * Z :=
  let start := scrollOffset m in
  (start, GoInt.min (GoInt.add start (viewHeight m)) (GoInt.len (Api.Chapters f))).

End Model.

End Toc.

(* ===================================================================== *)
(** * internal/ui: the menu *)
(* ===================================================================== *)

Module Menu.

Inductive MenuState :=
| MenuStateMain
| MenuStateHistory
| MenuStateNewBook
| MenuStateNewChapter.

Section Model.

Context {T : GoTime}.

(** [textinput.Model] of the bubbles library, and its [Focus]. *)
Context {TextInput : Type}.
Variable Focus : TextInput -> TextInput.

(** The fields of [MenuModel]; the HTTP [client] carries no state, and
    [config] is what [config.Load()] returned, which is never nil. *)
Record MenuModel := {
  state : MenuState;
  config : Config.Config;
  historyPage : Z;
  historyPageSize : Z;
  fictionInput : TextInput;
  chapterInput : TextInput;
  loading : bool;
  err : option string;
  selectedEntry : option Config.ReadingEntry
}.

Definition set_state (v : MenuState) (m : MenuModel) : MenuModel :=
  {| state := v; config := config m; historyPage := historyPage m;
     historyPageSize := historyPageSize m; fictionInput := fictionInput m;
     chapterInput := chapterInput m; loading := loading m; err := err m;
     selectedEntry := selectedEntry m |}.

Definition set_historyPage (v : Z) (m : MenuModel) : MenuModel :=
  {| state := state m; config := config m; historyPage := v;
     historyPageSize := historyPageSize m; fictionInput := fictionInput m;
     chapterInput := chapterInput m; loading := loading m; err := err m;
     selectedEntry := selectedEntry m |}.

Definition set_fictionInput (v : TextInput) (m : MenuModel) : MenuModel :=
  {| state := state m; config := config m; historyPage := historyPage m;
     historyPageSize := historyPageSize m; fictionInput := v;
     chapterInput := chapterInput m; loading := loading m; err := err m;
     selectedEntry := selectedEntry m |}.

(** The model that a handler returns: the menu itself, a new reader after
    its [Init] has run, or a new browser. *)
Inductive Model :=
| MenuM (m : MenuModel)
| ReaderM (r : Reader.ReaderModel)
| BrowseM.

Inductive Cmd :=
| cmd_nil
| cmd_Quit
| cmd_reader (c : Reader.Cmd)
| cmd_browseInit.

(** [NewMenuModel], with the configuration that [config.Load()] returns
    and the two inputs as it sets them up. *)
Definition NewMenuModel (cfg : Config.Config) (fictionInput chapterInput : TextInput)
  : MenuModel :=
  {| state := MenuStateMain;
     config := cfg;
     historyPage := 1;
     historyPageSize := 10;
     fictionInput := fictionInput;
     chapterInput := chapterInput;
     loading := false;
     err := None;
     selectedEntry := None |}.

(** [NewReaderModel(id)], [SetStartChapter(chapter)] and [Init()]: the
    reader that the menu hands over to, with the terminal size and the
    configuration that [NewReaderModel] reads. *)
Definition openReader (termSize : Z * Z) (loaded : Config.Config)
  (id : string) (chapter : Z) : Model * Cmd :=
  let readerModel := Reader.NewReaderModel termSize loaded id in
  let readerModel := Reader.SetStartChapter chapter readerModel in
  let (readerModel, cmd) := Reader.Init readerModel in
  (ReaderM readerModel, cmd_reader cmd).

Definition is_key (key : string) (names : list string) : bool :=
  existsb (String.eqb key) names.

(** [handleMainMenu]. *)
Definition handleMainMenu (termSize : Z * Z) (loaded : Config.Config)
  (key : string) (m : MenuModel) : Model * Cmd :=
  if is_key key ["ctrl+c"; "q"] then (MenuM m, cmd_Quit)
  else if is_key key ["c"] then
    match Config.GetLastReadEntry (config m) with
    | Some lastEntry =>
        openReader termSize loaded (Config.FictionID lastEntry)
                   (Config.CurrentChapter lastEntry)
    | None => (MenuM m, cmd_nil)
    end
  else if is_key key ["h"] then
    (MenuM (set_historyPage 1 (set_state MenuStateHistory m)), cmd_nil)
  else if is_key key ["n"] then
    (MenuM (set_fictionInput (Focus (fictionInput m)) (set_state MenuStateNewBook m)),
     cmd_nil)
  else if is_key key ["b"] then (BrowseM, cmd_browseInit)
  else (MenuM m, cmd_nil).

(** [handleHistoryMenu]; [None] is a panic of [GetReadingHistoryPage]. *)
Definition handleHistoryMenu (termSize : Z * Z) (loaded : Config.Config)
  (key : string) (m : MenuModel) : option (Model * Cmd) :=
  if is_key key ["ctrl+c"; "q"] then Some (MenuM m, cmd_Quit)
  else if is_key key ["esc"] then Some (MenuM (set_state MenuStateMain m), cmd_nil)
  else if is_key key ["left"; "h"] then
    Some (MenuM (if historyPage m >? 1
                 then set_historyPage (GoInt.sub (historyPage m) 1) m else m),
          cmd_nil)
  else if is_key key ["right"; "l"] then
    match Config.GetReadingHistoryPage (config m) (historyPage m) (historyPageSize m) with
    | None => None
    | Some (_, totalPages, hasNext, _) =>
        Some (MenuM (if hasNext && (historyPage m <? totalPages)
                     then set_historyPage (GoInt.add (historyPage m) 1) m else m),
              cmd_nil)
    end
  else if is_key key ["1"; "2"; "3"; "4"; "5"; "6"; "7"; "8"; "9"] then
    let num :=
      match GoStrings.Atoi key with
      | Some num => num
      | None => 0
      end in
    match Config.GetReadingHistoryPage (config m) (historyPage m) (historyPageSize m) with
    | None => None
    | Some (entries, _, _, _) =>
        if (num >? 0) && (num <=? GoInt.len entries) then
          match Reader.index entries (GoInt.sub num 1) with
          | None => None
          | Some entry =>
              Some (openReader termSize loaded (Config.FictionID entry)
                               (Config.CurrentChapter entry))
          end
        else Some (MenuM m, cmd_nil)
    end
  else Some (MenuM m, cmd_nil).

End Model.

End Menu.

(* ===================================================================== *)
(** * Small implementations of the library interfaces, for closed examples *)
(* ===================================================================== *)

Module Fixtures.

(** A document tree. *)
#[warnings="-register-all"]
Inductive node :=
| Element (tag : string) (attrs : list (string * string)) (children : list node)
| TextNode (text : string).

(** The proper descendants of a node, in document order. *)
Fixpoint descendants (n : node) : list node :=
  match n with
  | TextNode _ => []
  | Element _ _ children =>
      (fix go (l : list node) : list node :=
         match l with
         | [] => []
         | c :: rest => c :: descendants c ++ go rest
         end) children
  end.

Fixpoint lookup_attr (name : string) (attrs : list (string * string)) : option string :=
  match attrs with
  | [] => None
  | (k, v) :: rest => if String.eqb k name then Some v else lookup_attr name rest
  end.

(** A compound selector: an optional tag followed by classes, as in
    [div.stats-content], [.list-unstyled] and [li].  Selectors with
    combinators or attribute tests select nothing here. *)
Definition matches (selector : string) (n : node) : bool :=
  match n, GoStrings.Split selector "." with
  | Element tag attrs _, want_tag :: want_classes =>
      (String.eqb want_tag EmptyString || String.eqb want_tag tag)
      && forallb
           (fun c =>
              existsb (String.eqb c)
                (GoStrings.Fields
                   (match lookup_attr "class" attrs with
                    | Some v => v
                    | None => EmptyString
                    end)))
           want_classes
  | _, _ => false
  end.

Fixpoint node_text (n : node) : string :=
  match n with
  | TextNode t => t
  | Element _ _ children =>
      (fix go (l : list node) : string :=
         match l with
         | [] => EmptyString
         | c :: rest => String.append (node_text c) (go rest)
         end) children
  end.

#[export] Instance tree_query : GoQuery := {|
  Selection := list node;
  sel_Find := fun s selector =>
    flat_map (fun n => filter (matches selector) (descendants n)) s;
  sel_Eq := fun s i =>
    if (0 <=? i) && (i <? GoInt.len s)
    then match nth_error s (Z.to_nat i) with Some n => [n] | None => [] end
    else [];
  sel_Length := fun s => GoInt.len s;
  sel_Text := fun s => String.concat EmptyString (map node_text s);
  sel_Attr := fun s name =>
    match s with
    | Element _ attrs _ :: _ => lookup_attr name attrs
    | _ => None
    end;
  sel_Parent := fun _ => [];
  sel_Html := fun _ => None;
  sel_Each := fun s => map (fun n => [n]) s
|}.

(** Instants as nanoseconds on a time line without time zones, where a
    day has 24 hours; the program adds hours and whole days only. *)
#[export] Instance linear_time : GoTime := {|
  Time := Z;
  time_Add := fun t d => t + d;
  time_AddDate := fun t _ _ days => t + days * (24 * time_Hour)
|}.

Definition li (content : string) : node :=
  Element "li" [] [Element "span" [("data-content", content)] []].

Definition li_text (text : string) : node :=
  Element "li" [] [TextNode text].

Definition stats_document (ratings counts : list node) : list node :=
  [Element "html" []
     [Element "div" [("class", "stats-content")]
        [Element "ul" [("class", "list-unstyled")] ratings;
         Element "ul" [("class", "list-unstyled")] counts]]].

(** A ratings list of 8 items: the labels and values of four scores. *)
Definition eight_ratings : list node :=
  [li_text "Overall Score"; li "4.5 / 5"; li_text "Style Score"; li "4 / 5";
   li_text "Story Score"; li "5 / 5"; li_text "Character Score"; li "3.5 / 5"].

(** A ratings list of 10 items. *)
Definition ten_ratings : list node :=
  eight_ratings ++ [li_text "Grammar Score"; li "4 / 5"].

(** A [ParseFloat] that reads a few decimal numerals. *)
Definition sample_ParseFloat (s : string) : option float :=
  if String.eqb s "4.5" then Some 4.5%float
  else if String.eqb s "4" then Some 4%float
  else if String.eqb s "5" then Some 5%float
  else if String.eqb s "3.5" then Some 3.5%float
  else None.

(** Reading history entries for the examples. *)
Definition sample_entry (id : string) (chapter : Z) (progress : float)
  : Config.ReadingEntry :=
  {| Config.FictionID := id;
     Config.FictionTitle := String.append "Fiction " id;
     Config.Author := "An Author";
     Config.CurrentChapter := chapter;
     Config.ChapterTitle := "A Chapter";
     Config.ChapterProgress := progress;
     Config.LastRead := "2024-05-01 10:00";
     Config.TotalChapters := 40 |}.

Definition sample_config (history : list Config.ReadingEntry) : Config.Config :=
  Config.set_history Config.DefaultConfig history EmptyString.

(** A history of [n] entries with distinct identities. *)
Definition numbered_history (n : nat) : list Config.ReadingEntry :=
  map (fun i => sample_entry (String (ascii_of_nat (65 + i)) EmptyString)
                             (Z.of_nat i) 0%float)
      (seq 0 n).

Definition three_entries : list Config.ReadingEntry :=
  [sample_entry "101" 3 0.5%float; sample_entry "202" 7 0%float;
   sample_entry "303" 0 0.25%float].

(** Library functions for the examples: text without character entities
    and notes without styling, and the integer that the conversion of an
    unrepresentable [float64] gives on amd64. *)
Definition no_entities (s : string) : string := s.
Definition no_style (s : string) : string := s.
Definition amd64_indefinite (x : float) : Z := GoInt.min_int.

(** A chapter body of [n] one-word sentences; it is formatted to
    [2 * n - 1] lines. *)
Fixpoint sentences (n : nat) : string :=
  match n with
  | O => EmptyString
  | S O => "End."
  | S k => String.append "Line. " (sentences k)
  end.

Definition sample_chapter (n : nat) : Api.Chapter :=
  {| Api.Content := sentences n; Api.PreNote := EmptyString;
     Api.PostNote := EmptyString; Api.Next := -1; Api.Previous := -1 |}.

(** A fiction of two chapters. *)
Definition sample_fiction : Api.Fiction (T := linear_time) :=
  {| Api.ID := 7; Api.Type_ := "Original"; Api.Title := "A Fiction";
     Api.Image := EmptyString; Api.Status := "ONGOING"; Api.Tags := [];
     Api.Warnings := []; Api.Description := EmptyString;
     Api.Stats := Api.zero_FictionStats;
     Api.Author := {| Api.au_ID := 1; Api.au_Name := "An Author";
                      Api.au_Title := EmptyString; Api.au_Avatar := EmptyString |};
     Api.Chapters := [ {| Api.ch_ID := 11; Api.ch_Title := "One"; Api.ch_Release := None |};
                       {| Api.ch_ID := 12; Api.ch_Title := "Two"; Api.ch_Release := None |} ] |}.

(** The event loop on a list of messages, as long as the model is the
    reader; the commands that [Update] returns are dropped, the messages
    they would deliver are in the list. *)
Fixpoint play (now : string) (m : Reader.ReaderModel (T := linear_time))
  (msgs : list (Reader.Msg (T := linear_time))) : option Reader.ReaderModel :=
  match msgs with
  | [] => Some m
  | msg :: rest =>
      match Reader.Update no_entities no_style amd64_indefinite now m msg with
      | Some (Reader.ReaderM m', _) => play now m' rest
      | _ => None
      end
  end.

(** A reader of fiction 7 on an 80 by 24 terminal with an empty history. *)
Definition fresh_reader : Reader.ReaderModel (T := linear_time) :=
  fst (Reader.Init (Reader.NewReaderModel (80, 24) Config.DefaultConfig "7")).

(** The reader after a list of messages (the fresh reader if [Update]
    panics or leaves the reader on the way). *)
Definition after (msgs : list (Reader.Msg (T := linear_time)))
  : Reader.ReaderModel (T := linear_time) :=
  match play "2024-05-01 10:00" fresh_reader msgs with
  | Some m => m
  | None => fresh_reader
  end.


End Fixtures.

(* ===================================================================== *)
(** * Properties *)
(* ===================================================================== *)

(** ** Go's [int] *)

Module GoIntFacts.

Lemma wrap_in_range (z : Z) : GoInt.in_range z -> GoInt.wrap z = z.
Proof.
  unfold GoInt.in_range, GoInt.wrap, GoInt.min_int, GoInt.max_int.
  intros H.
  rewrite Z.mod_small; lia.
Qed.

Lemma wrap_is_in_range (z : Z) : GoInt.in_range (GoInt.wrap z).
Proof.
  unfold GoInt.in_range, GoInt.wrap, GoInt.min_int, GoInt.max_int.
  pose proof (Z.mod_pos_bound (z + 2 ^ 63) (2 ^ 64) ltac:(lia)).
  lia.
Qed.

Lemma len_nonneg {A : Type} (l : list A) : 0 <= GoInt.len l.
Proof. unfold GoInt.len. lia. Qed.

Lemma max_spec (a b : Z) : GoInt.max a b = Z.max a b.
Proof. unfold GoInt.max. destruct (Z.gtb_spec a b); lia. Qed.

End GoIntFacts.

(** ** Strings and numbers *)

Module GoStringsFacts.

(** What [strconv.Atoi] returns is an [int]. *)
Lemma Atoi_in_range (s : string) (v : Z) :
  GoStrings.Atoi s = Some v -> GoInt.in_range v.
Proof.
  unfold GoStrings.Atoi.
  match goal with
  | |- context [let (_, _) := ?x in _] => destruct x as [negative body]
  end.
  destruct body as [|c body]; [discriminate|].
  destruct (GoStrings.all_digits (String c body)); [|discriminate].
  match goal with
  | |- context [if ?b then _ else _] => destruct b eqn:B; [|discriminate]
  end.
  intros [= <-]. apply andb_true_iff in B. destruct B as [B1 B2].
  apply Z.leb_le in B1, B2. split; assumption.
Qed.

End GoStringsFacts.

(** ** The reading history *)

Module ConfigSpec.
Import Config.

(** The identities other than [id], in their order. *)
Definition others (id : string) (h : list ReadingEntry) : list ReadingEntry :=
  filter (fun e => negb (String.eqb (FictionID e) id)) h.

Lemma find_entry_None (id : string) (h : list ReadingEntry) :
  find_entry id h = None <-> ~ In id (map FictionID h).
Proof.
  induction h as [|e h IH]; simpl.
  - tauto.
  - destruct (String.eqb_spec (FictionID e) id) as [E|E].
    + split; [discriminate | intros H; exfalso; apply H; now left].
    + destruct (find_entry id h); simpl.
      * split; [discriminate|]. intros H. exfalso. apply H. right.
        apply Decidable.not_not; [|intros H'; apply IH in H'; discriminate].
        destruct (in_dec string_dec id (map FictionID h)); [now left|now right].
      * split; [|reflexivity]. intros _ [H|H]; [contradiction|].
        now apply IH in H.
Qed.

Lemma others_absent (id : string) (h : list ReadingEntry) :
  ~ In id (map FictionID h) -> others id h = h.
Proof.
  induction h as [|e h IH]; simpl; intros H; [reflexivity|].
  destruct (String.eqb_spec (FictionID e) id) as [E|E]; simpl.
  - exfalso. apply H. now left.
  - f_equal. apply IH. tauto.
Qed.

(** The entry found is the only one with that identity, and the update
    replaces it in place before it is moved to the front. *)
Lemma find_entry_Some (id : string) (h : list ReadingEntry) (i : nat) (x : ReadingEntry) :
  NoDup (map FictionID h) ->
  find_entry id h = Some i ->
  firstn i (assign h i x) ++ skipn (S i) (assign h i x) = others id h
  /\ assign h i x = firstn i h ++ x :: skipn (S i) h
  /\ List.length (assign h i x) = List.length h
  /\ (i < List.length h)%nat.
Proof.
  revert i. induction h as [|e h IH]; intros i ND F; cbn [find_entry] in F;
    [discriminate|].
  cbn [map] in ND. inversion ND as [|? ? NI ND']; subst.
  unfold others. cbn [filter]. fold (others id h).
  destruct (String.eqb_spec (FictionID e) id) as [E|E]; cbn [negb].
  - injection F as <-. subst id. simpl.
    rewrite others_absent by assumption. repeat split; lia.
  - destruct (find_entry id h) as [j|] eqn:Fj; [|discriminate].
    injection F as <-.
    destruct (IH j ND' eq_refl) as (H1 & H2 & H3 & H4).
    cbn [assign firstn List.length]. rewrite !skipn_cons. cbn [app].
    rewrite H1, <- H2. repeat split; lia.
Qed.

Lemma history_after_update (entry : ReadingEntry) (c : Config) :
  NoDup (map FictionID (ReadingHistory c)) ->
  ReadingHistory (UpdateReadingProgress entry c)
  = entry :: others (FictionID entry) (ReadingHistory c).
Proof.
  intros ND. unfold UpdateReadingProgress.
  destruct (find_entry (FictionID entry) (ReadingHistory c)) as [i|] eqn:F;
    unfold set_history; cbn [ReadingHistory].
  - destruct (find_entry_Some _ _ _ entry ND F) as (H1 & H2 & _ & _).
    destruct i as [|i]; cbn [Nat.eqb app].
    + rewrite <- H1, H2. reflexivity.
    + now rewrite H1.
  - apply find_entry_None in F. now rewrite others_absent.
Qed.

Lemma others_ids (id : string) (h : list ReadingEntry) :
  ~ In id (map FictionID (others id h)).
Proof.
  unfold others. rewrite in_map_iff. intros (e & E & H).
  apply filter_In in H. destruct H as [_ H].
  rewrite <- E, String.eqb_refl in H. discriminate.
Qed.

Lemma others_NoDup (id : string) (h : list ReadingEntry) :
  NoDup (map FictionID h) -> NoDup (map FictionID (others id h)).
Proof.
  induction h as [|e h IH]; simpl; intros ND; [constructor|].
  inversion ND as [|? ? NI ND']; subst.
  destruct (negb (String.eqb (FictionID e) id)); simpl; [|now apply IH].
  constructor; [|now apply IH].
  intros H. apply NI. rewrite in_map_iff in *.
  destruct H as (x & E & H). exists x. split; [assumption|].
  unfold others in H. now apply filter_In in H.
Qed.

Lemma others_length (id : string) (h : list ReadingEntry) :
  NoDup (map FictionID h) ->
  In id (map FictionID h) ->
  S (List.length (others id h)) = List.length h.
Proof.
  induction h as [|e h IH]; simpl; intros ND HI; [contradiction|].
  inversion ND as [|? ? NI ND']; subst.
  destruct (String.eqb_spec (FictionID e) id) as [E|E]; simpl.
  - subst id. now rewrite others_absent.
  - f_equal. apply IH; [assumption|]. destruct HI; [contradiction|assumption].
Qed.

(** C8.  [UpdateReadingProgress] upserts and promotes.  On a history with
    at most one entry per fiction, the history after the call starts with
    the new entry, has exactly one entry of that fiction and no identity
    twice, keeps every entry of another fiction, in the order they had,
    and is one entry longer exactly when the fiction had no entry. *)
Theorem UpdateReadingProgress_upsert_promote (entry : ReadingEntry) (c : Config) :
  NoDup (map FictionID (ReadingHistory c)) ->
  let id := FictionID entry in
  let h := ReadingHistory c in
  let h' := ReadingHistory (UpdateReadingProgress entry c) in
  nth_error h' 0 = Some entry
  /\ count_occ string_dec (map FictionID h') id = 1%nat
  /\ NoDup (map FictionID h')
  /\ others id h' = others id h
  /\ (forall e, In e h -> FictionID e <> id -> In e h')
  /\ (find_entry id h = None -> List.length h' = S (List.length h))
  /\ (find_entry id h <> None -> List.length h' = List.length h)
  /\ GetLastReadEntry (UpdateReadingProgress entry c) = Some entry.
Proof.
  intros ND id h h'.
  assert (E : h' = entry :: others id h) by (apply history_after_update; exact ND).
  pose proof (others_ids id h) as NI.
  assert (Hoo : others id (others id h) = others id h)
    by (apply others_absent; exact NI).
  rewrite E. repeat split.
  - cbn [map count_occ]. fold id.
    destruct (string_dec id id) as [_|N]; [|contradiction].
    f_equal. now apply count_occ_not_In.
  - cbn [map]. constructor; [exact NI | now apply others_NoDup].
  - unfold others at 1. cbn [filter]. fold id.
    rewrite String.eqb_refl. cbn [negb]. exact Hoo.
  - intros e He Hne. right. unfold others. apply filter_In. split; [exact He|].
    apply negb_true_iff. now apply String.eqb_neq.
  - intros F. apply find_entry_None in F. cbn [List.length].
    now rewrite others_absent.
  - intros F. cbn [List.length]. apply others_length; [exact ND|].
    apply Decidable.not_not; [|intros N; apply F; now apply find_entry_None].
    destruct (in_dec string_dec id (map FictionID h)); [now left|now right].
  - unfold GetLastReadEntry. fold h'. now rewrite E.
Qed.

(** The entry of fiction 202 moves from the middle of a history of three to
    its front. *)
Lemma UpdateReadingProgress_upsert_promote_witness :
  let entry := Fixtures.sample_entry "202" 8 0.5%float in
  let c := Fixtures.sample_config Fixtures.three_entries in
  NoDup (map FictionID (ReadingHistory c))
  /\ nth_error (ReadingHistory (UpdateReadingProgress entry c)) 0 = Some entry
  /\ List.length (ReadingHistory (UpdateReadingProgress entry c)) = 3%nat.
Proof.
  intros entry c.
  assert (ND : NoDup (map FictionID (ReadingHistory c))).
  { cbn. repeat constructor; cbn; intuition discriminate. }
  pose proof (UpdateReadingProgress_upsert_promote entry c ND) as H.
  cbv zeta in H. destruct H as (H0 & _ & _ & _ & _ & _ & H6 & _).
  split; [exact ND|]. split; [exact H0|].
  rewrite H6; [reflexivity|]. cbn. discriminate.
Defined.

(** C9.  Of a history of 25 entries, page 3 with 10 entries a page is the
    last 5 entries, of 3 pages, with a previous and without a next page. *)
Theorem history_page_3_of_25 (c : Config) :
  GoInt.len (ReadingHistory c) = 25 ->
  GetReadingHistoryPage c 3 10 = Some (skipn 20 (ReadingHistory c), 3, false, true)
  /\ List.length (skipn 20 (ReadingHistory c)) = 5%nat.
Proof.
  intros L.
  assert (L' : List.length (ReadingHistory c) = 25%nat)
    by (unfold GoInt.len in L; lia).
  split.
  - unfold GetReadingHistoryPage. rewrite L.
    change (25 =? 0) with false. cbv iota.
    change (GoInt.quo (GoInt.sub (GoInt.add 25 10) 1) 10) with (Some 3).
    cbv iota zeta.
    change (if 3 <? 1 then 1 else 3) with 3.
    change (if 3 >? 3 then 3 else 3) with 3.
    change (GoInt.mul (GoInt.sub 3 1) 10) with 20.
    change (GoInt.add 20 10) with 30.
    change (if 30 >? 25 then 25 else 30) with 25.
    unfold slice. rewrite L.
    change ((0 <=? 20) && (20 <=? 25) && (25 <=? 25)) with true. cbv iota.
    change (Z.to_nat (25 - 20)) with 5%nat.
    change (Z.to_nat 20) with 20%nat.
    rewrite firstn_all2 by (rewrite length_skipn; lia).
    reflexivity.
  - rewrite length_skipn. lia.
Qed.

Lemma history_page_3_of_25_witness :
  let c := Fixtures.sample_config (Fixtures.numbered_history 25) in
  GoInt.len (ReadingHistory c) = 25
  /\ option_map (fun r => (List.length (fst (fst (fst r))), snd (fst (fst r)),
                           snd (fst r), snd r))
                (GetReadingHistoryPage c 3 10)
     = Some (5%nat, 3, false, true).
Proof.
  intros c.
  assert (L : GoInt.len (ReadingHistory c) = 25) by reflexivity.
  split; [exact L|].
  destruct (history_page_3_of_25 c L) as [H1 H2].
  rewrite H1. cbn [option_map fst snd]. now rewrite H2.
Defined.

End ConfigSpec.

(** ** The extraction engine *)

Module ApiSpec.
Import Api.

(** The unit that [parseRelativeTime] settles on: the first of hour, day
    and week that occurs in the text. *)
Definition selected_unit (text : string) : option string :=
  if GoStrings.Contains text "hour" then Some "hour"
  else if GoStrings.Contains text "day" then Some "day"
  else if GoStrings.Contains text "week" then Some "week"
  else None.

(** The quantity read in front of a unit, when there is one and it is an
    [int]. *)
Definition quantity (unit text : string) : option Z :=
  match FindStringSubmatch unit text with
  | Some digits => GoStrings.Atoi digits
  | None => None
  end.

Lemma parseRelativeTime_no_ago {T : GoTime} (now : Time) (text : string) :
  GoStrings.Contains text "ago" = false -> parseRelativeTime now text = now.
Proof. intros H. unfold parseRelativeTime. now rewrite H. Qed.

Lemma parseRelativeTime_no_unit {T : GoTime} (now : Time) (text : string) :
  selected_unit text = None -> parseRelativeTime now text = now.
Proof.
  unfold selected_unit, parseRelativeTime. intros H.
  destruct (GoStrings.Contains text "ago"); [|reflexivity].
  destruct (GoStrings.Contains text "hour"); [discriminate|].
  destruct (GoStrings.Contains text "day"); [discriminate|].
  destruct (GoStrings.Contains text "week"); [discriminate|reflexivity].
Qed.

Lemma parseRelativeTime_no_quantity {T : GoTime} (now : Time) (text unit : string) :
  selected_unit text = Some unit -> quantity unit text = None ->
  parseRelativeTime now text = now.
Proof.
  unfold selected_unit, quantity, parseRelativeTime. intros U N.
  destruct (GoStrings.Contains text "ago"); [|reflexivity].
  destruct (GoStrings.Contains text "hour").
  { injection U as <-. destruct (FindStringSubmatch "hour" text); [|reflexivity].
    now rewrite N. }
  destruct (GoStrings.Contains text "day").
  { injection U as <-. destruct (FindStringSubmatch "day" text); [|reflexivity].
    now rewrite N. }
  destruct (GoStrings.Contains text "week"); [|discriminate].
  injection U as <-. destruct (FindStringSubmatch "week" text); [|reflexivity].
  now rewrite N.
Qed.

(** C7.  The relative-timestamp parser takes 3 hours, 2 days and 7 days off
    [now] for the three sample phrases, and returns [now] itself for a text
    without the word ago, without one of the units hour, day and week, or
    with no integer quantity in front of its unit (as for yesterday). *)
Theorem parseRelativeTime_contract {T : GoTime} (now : Time) :
  parseRelativeTime now "3 hours ago" = time_Add now (- (3 * time_Hour))
  /\ parseRelativeTime now "2 days ago" = time_AddDate now 0 0 (- 2)
  /\ parseRelativeTime now "1 week ago" = time_AddDate now 0 0 (- 7)
  /\ parseRelativeTime now "yesterday" = now
  /\ (forall text, GoStrings.Contains text "ago" = false ->
        parseRelativeTime now text = now)
  /\ (forall text, selected_unit text = None ->
        parseRelativeTime now text = now)
  /\ (forall text unit, selected_unit text = Some unit ->
        quantity unit text = None ->
        parseRelativeTime now text = now).
Proof.
  split; [reflexivity|]. split; [reflexivity|].
  split; [reflexivity|]. split; [reflexivity|].
  split; [|split].
  - intros text. apply parseRelativeTime_no_ago.
  - intros text. apply parseRelativeTime_no_unit.
  - intros text unit. apply parseRelativeTime_no_quantity.
Qed.

(** The three ways of falling back to [now], on a time line in
    nanoseconds: no ago, no unit, no number. *)
Lemma parseRelativeTime_contract_witness :
  let now := 1714557600000000000 in
  GoStrings.Contains "yesterday" "ago" = false
  /\ selected_unit "3 months ago" = None
  /\ selected_unit "a few days ago" = Some "day"
  /\ quantity "day" "a few days ago" = None
  /\ parseRelativeTime (T := Fixtures.linear_time) now "yesterday" = now
  /\ parseRelativeTime (T := Fixtures.linear_time) now "3 months ago" = now
  /\ parseRelativeTime (T := Fixtures.linear_time) now "a few days ago" = now
  /\ parseRelativeTime (T := Fixtures.linear_time) now "3 hours ago"
     = now - 10800000000000.
Proof.
  intros now.
  destruct (parseRelativeTime_contract (T := Fixtures.linear_time) now)
    as (H3 & _ & _ & _ & Hago & Hunit & Hqty).
  assert (A : GoStrings.Contains "yesterday" "ago" = false) by reflexivity.
  assert (B : selected_unit "3 months ago" = None) by reflexivity.
  assert (C : selected_unit "a few days ago" = Some "day") by reflexivity.
  assert (D : quantity "day" "a few days ago" = None) by reflexivity.
  split; [exact A|]. split; [exact B|]. split; [exact C|]. split; [exact D|].
  split; [exact (Hago _ A)|]. split; [exact (Hunit _ B)|].
  split; [exact (Hqty _ _ C D)|].
  rewrite H3. reflexivity.
Defined.

Lemma zero_is_not_minus_one : 0%float <> minus_one.
Proof.
  intros H.
  apply (f_equal (fun x => PrimFloat.ltb x 0%float)) in H.
  vm_compute in H. discriminate.
Qed.

(** A document whose ratings list has 8 items. *)
Definition short_document : Selection (GoQuery := Fixtures.tree_query) :=
  Fixtures.stats_document Fixtures.eight_ratings [].

(** C1, as stated, fails: with a ratings list of 8 items the five scores of
    the parsed work are 0.0, not the sentinel. *)
Lemma short_ratings_list_not_sentinel :
  ~ (sel_Length (ratingList short_document) < 10 ->
     let score :=
       Score (Stats (parseFiction (T := Fixtures.linear_time)
                       Fixtures.sample_ParseFloat (fun _ => 0) short_document 1)) in
     Overall score = minus_one /\ Style score = minus_one
     /\ Story score = minus_one /\ Character score = minus_one
     /\ Grammar score = minus_one).
Proof.
  intros H.
  assert (L : sel_Length (ratingList short_document) < 10) by (vm_compute; reflexivity).
  destruct (H L) as [HO _].
  apply zero_is_not_minus_one. exact HO.
Qed.

(** C1, amended.  When the ratings list has fewer than 10 items,
    [parseStats] leaves the five scores as they were, none of them filled
    in; in the statistics of a parsed work they are all the zero value
    0.0. *)
Theorem short_ratings_list_keeps_scores {Q : GoQuery} {T : GoTime}
  (ParseFloat : string -> option float) (doc : Selection) :
  sel_Length (ratingList doc) < 10 ->
  (forall stats, Score (parseStats ParseFloat doc stats) = Score stats)
  /\ (forall clock id,
        Score (Stats (parseFiction ParseFloat clock doc id))
        = {| Style := 0%float; Story := 0%float; Grammar := 0%float;
             Overall := 0%float; Character := 0%float |}).
Proof.
  intros L.
  assert (G : (sel_Length (ratingList doc) >=? 10) = false)
    by (rewrite Z.geb_leb; apply Z.leb_gt; lia).
  assert (K : forall stats, Score (parseStats ParseFloat doc stats) = Score stats).
  { intros stats. unfold parseStats. rewrite G.
    destruct (sel_Length (statsList doc) >=? 12); reflexivity. }
  split; [exact K|].
  intros clock id. unfold parseFiction. cbn [Stats]. now rewrite K.
Qed.

Lemma short_ratings_list_keeps_scores_witness :
  sel_Length (ratingList short_document) < 10
  /\ Overall (Score (parseStats Fixtures.sample_ParseFloat short_document
                       zero_FictionStats)) = 0%float.
Proof.
  assert (L : sel_Length (ratingList short_document) < 10) by (vm_compute; reflexivity).
  split; [exact L|].
  destruct (short_ratings_list_keeps_scores (T := Fixtures.linear_time)
              Fixtures.sample_ParseFloat short_document L) as [K _].
  rewrite K. reflexivity.
Defined.

End ApiSpec.

(** ** Text reflow *)

Module ReflowSpec.
Import Reflow.

Lemma effective_width_small (width : Z) : width <= 20 -> effective_width width = 40.
Proof. unfold effective_width. intros H. destruct (Z.leb_spec width 20); lia. Qed.

Lemma effective_width_large (width : Z) : 20 < width -> effective_width width = width.
Proof. unfold effective_width. intros H. destruct (Z.leb_spec width 20); lia. Qed.

(** A requested width of at most 20 columns wraps like 40 columns. *)
Lemma wrapText_small_width (text : string) (width : Z) :
  width <= 20 -> wrapText text width = wrapText text 40.
Proof. intros H. unfold wrapText. now rewrite effective_width_small. Qed.

(** The only caller of [wrapText] requests at least 40 columns, whatever
    the width of the terminal. *)
Lemma formatChapterContent_text_width (termWidth : Z) :
  40 <= GoInt.max (GoInt.sub termWidth 4) 40
  /\ effective_width (GoInt.max (GoInt.sub termWidth 4) 40)
     = GoInt.max (GoInt.sub termWidth 4) 40.
Proof.
  rewrite GoIntFacts.max_spec. split; [lia|].
  apply effective_width_large. lia.
Qed.



End ReflowSpec.

(** ** Binary64 arithmetic

    The primitive operations are specified by [SpecFloat]; the facts below
    follow one rounding step of that specification. *)

Module Float64Facts.

Lemma digits2_bounds (p : positive) :
  2 ^ (Zpos (digits2_pos p) - 1) <= Zpos p < 2 ^ Zpos (digits2_pos p).
Proof.
  induction p as [p IH|p IH|]; cbn [digits2_pos].
  - rewrite Pos2Z.inj_succ. change (Zpos p~1) with (2 * Zpos p + 1).
    replace (Z.succ (Zpos (digits2_pos p)) - 1) with (Z.succ (Zpos (digits2_pos p) - 1)) by lia.
    rewrite !Z.pow_succ_r by lia.
    destruct IH as [L U]. revert L U.
    generalize (2 ^ (Zpos (digits2_pos p) - 1)) (2 ^ Zpos (digits2_pos p)). lia.
  - rewrite Pos2Z.inj_succ. change (Zpos p~0) with (2 * Zpos p).
    replace (Z.succ (Zpos (digits2_pos p)) - 1) with (Z.succ (Zpos (digits2_pos p) - 1)) by lia.
    rewrite !Z.pow_succ_r by lia.
    destruct IH as [L U]. revert L U.
    generalize (2 ^ (Zpos (digits2_pos p) - 1)) (2 ^ Zpos (digits2_pos p)). lia.
  - cbn. lia.
Qed.

Lemma digits2_unique (p : positive) (d : Z) :
  2 ^ (d - 1) <= Zpos p < 2 ^ d -> Zpos (digits2_pos p) = d.
Proof.
  intros [L U]. pose proof (digits2_bounds p) as [L' U'].
  assert (0 < d).
  { destruct (Z.ltb_spec 0 d); [assumption|].
    assert (2 ^ d <= 1).
    { destruct (Z.eq_dec d 0) as [->|]; [cbn; lia|]. rewrite Z.pow_neg_r; lia. }
    lia. }
  destruct (Z.lt_trichotomy (Zpos (digits2_pos p)) d) as [C|[C|C]]; [|assumption|].
  - assert (2 ^ Zpos (digits2_pos p) <= 2 ^ (d - 1)) by (apply Z.pow_le_mono_r; lia). lia.
  - assert (2 ^ d <= 2 ^ (Zpos (digits2_pos p) - 1)) by (apply Z.pow_le_mono_r; lia). lia.
Qed.

Lemma iter_pos_nat {A : Type} (f : A -> A) (p : positive) (x : A) :
  iter_pos f p x = Nat.iter (Pos.to_nat p) f x.
Proof.
  revert x. induction p as [p IH|p IH|]; intros x; cbn [iter_pos].
  - rewrite !IH, Pos2Nat.inj_xI, <- Nat.iter_add.
    replace (Pos.to_nat p + Pos.to_nat p)%nat with (2 * Pos.to_nat p)%nat by lia.
    now rewrite Nat.iter_succ_r.
  - rewrite !IH, Pos2Nat.inj_xO, <- Nat.iter_add. f_equal. lia.
  - reflexivity.
Qed.

Lemma shr_1_nonneg (m : Z) (r s : bool) :
  0 <= m ->
  shr_1 {| shr_m := m; shr_r := r; shr_s := s |}
  = {| shr_m := m / 2; shr_r := Z.odd m; shr_s := r || s |}.
Proof.
  intros H. destruct m as [|p|p]; [reflexivity| |lia].
  destruct p as [p|p|]; cbn [shr_1].
  - f_equal. change (Zpos p~1) with (2 * Zpos p + 1). apply Z.div_unique with 1; lia.
  - f_equal. change (Zpos p~0) with (2 * Zpos p). apply Z.div_unique with 0; lia.
  - reflexivity.
Qed.

(** [j] right shifts of a mantissa that starts exact. *)
Lemma shr_iter (m : Z) (j : nat) :
  0 <= m ->
  let mrs := Nat.iter j shr_1 {| shr_m := m; shr_r := false; shr_s := false |} in
  shr_m mrs = m / 2 ^ Z.of_nat j
  /\ (m mod 2 ^ Z.of_nat j = 0 -> shr_r mrs = false /\ shr_s mrs = false).
Proof.
  intros Hm. induction j as [|j IH]; cbn zeta.
  - cbn. rewrite Z.div_1_r. auto.
  - cbn zeta in IH. destruct IH as [IHm IHx].
    rewrite Nat.iter_succ.
    destruct (Nat.iter j shr_1 _) as [mj rj sj] eqn:E. cbn [shr_m shr_r shr_s] in *.
    assert (0 <= mj) by (subst mj; apply Z.div_pos; [lia|apply Z.pow_pos_nonneg; lia]).
    rewrite shr_1_nonneg by assumption. cbn [shr_m shr_r shr_s].
    rewrite Nat2Z.inj_succ, Z.pow_succ_r by lia.
    assert (P : 0 < 2 ^ Z.of_nat j) by (apply Z.pow_pos_nonneg; lia).
    split.
    + subst mj. rewrite Z.div_div by lia. f_equal. lia.
    + intros D.
      assert (D' : m mod 2 ^ Z.of_nat j = 0).
      { apply Z.mod_divide in D; [|lia]. apply Z.mod_divide; [lia|].
        destruct D as [c ->]. exists (c * 2). lia. }
      destruct (IHx D') as [-> ->]. split; [|reflexivity].
      subst mj.
      apply Z.mod_divide in D; [|lia]. destruct D as [c ->].
      replace (c * (2 * 2 ^ Z.of_nat j)) with ((c * 2) * 2 ^ Z.of_nat j) by lia.
      rewrite Z.div_mul by lia. rewrite Z.mul_comm, Z.odd_mul. reflexivity.
Qed.

Lemma fexp_eq (e : Z) : fexp 53 1024 e = Z.max (e - 53) (-1074).
Proof. reflexivity. Qed.

(** The exponent that rounding a mantissa of [d] digits at exponent [E] settles on. *)
Definition round_exp (X : positive) (E : Z) : Z :=
  Z.max (fexp 53 1024 (Zpos (digits2_pos X) + E)) E.

Definition encode (s : bool) (m e : Z) : spec_float :=
  if m =? 0 then S754_zero s
  else if m <? 2 ^ 53 then
    if e <=? 971 then S754_finite s (Z.to_pos m) e else S754_infinity s
  else
    if e + 1 <=? 971 then S754_finite s (Z.to_pos (2 ^ 52)) (e + 1)
    else S754_infinity s.

Lemma round_nearest_even_cases (m : Z) (mrs : shr_record) :
  let m' := round_nearest_even m (loc_of_shr_record mrs) in
  m <= m' <= m + 1 /\ (shr_r mrs = false /\ shr_s mrs = false -> m' = m).
Proof.
  destruct mrs as [x [|] [|]]; cbn; (split; [|intros [A B]; try discriminate; reflexivity]);
    try destruct (Z.even m); lia.
Qed.

Lemma shr_no_shift (mrs : shr_record) (e n : Z) : n <= 0 -> shr mrs e n = (mrs, e).
Proof. intros H. destruct n; [reflexivity|lia|reflexivity]. Qed.

Lemma shr_shift (m e n : Z) :
  0 <= m -> 0 < n ->
  exists mrs,
    shr {| shr_m := m; shr_r := false; shr_s := false |} e n = (mrs, e + n)
    /\ shr_m mrs = m / 2 ^ n
    /\ (m mod 2 ^ n = 0 -> shr_r mrs = false /\ shr_s mrs = false).
Proof.
  intros Hm Hn. destruct n as [|p|p]; try lia.
  unfold shr. rewrite iter_pos_nat.
  pose proof (shr_iter m (Pos.to_nat p) Hm) as H. cbn zeta in H.
  rewrite positive_nat_Z in H.
  eexists. split; [reflexivity|exact H].
Qed.

Lemma Zdigits2_le (m d : Z) : 0 < m -> 0 <= d -> m < 2 ^ d -> Zdigits2 m <= d.
Proof.
  intros Hm Hd H. destruct m as [|p|p]; try lia. cbn [Zdigits2].
  pose proof (digits2_bounds p) as [L _].
  destruct (Z.le_gt_cases (Zpos (digits2_pos p)) d) as [C|C]; [assumption|].
  assert (2 ^ d <= 2 ^ (Zpos (digits2_pos p) - 1)) by (apply Z.pow_le_mono_r; lia).
  lia.
Qed.

Lemma round_aux_spec (s : bool) (X : positive) (E : Z) :
  let e1 := round_exp X E in
  let q := Zpos X / 2 ^ (e1 - E) in
  exists m2,
    q <= m2 <= q + 1
    /\ (Zpos X mod 2 ^ (e1 - E) = 0 -> m2 = q)
    /\ m2 <= 2 ^ 53
    /\ binary_round_aux 53 1024 s (Zpos X) E loc_Exact = encode s m2 e1.
Proof.
  intros e1 q.
  pose proof (digits2_bounds X) as [DL DU].
  set (d := Zpos (digits2_pos X)) in *.
  assert (Hd : 0 < d) by (unfold d; lia).
  unfold binary_round_aux, shr_fexp. cbn [Zdigits2 shr_record_of_loc]. fold d.
  destruct (Z.le_gt_cases (fexp 53 1024 (d + E) - E) 0) as [C|C].
  - (* no shift *)
    assert (He1 : e1 = E) by (unfold e1, round_exp; fold d; lia).
    assert (Hq : q = Zpos X) by (unfold q; rewrite He1, Z.sub_diag, Z.div_1_r; reflexivity).
    assert (d <= 53) by (rewrite fexp_eq in C; lia).
    assert (Zpos X < 2 ^ 53).
    { apply Z.lt_le_trans with (2 ^ d); [assumption|]. apply Z.pow_le_mono_r; lia. }
    exists (Zpos X). rewrite Hq, He1.
    split; [lia|]. split; [reflexivity|]. split; [lia|].
    rewrite shr_no_shift by assumption. cbn [shr_m loc_of_shr_record round_nearest_even].
    cbn [Zdigits2]. fold d. rewrite shr_no_shift by assumption. cbn [shr_m].
    unfold encode. change (Zpos X =? 0) with false. cbv iota.
    destruct (Z.ltb_spec (Zpos X) (2 ^ 53)); [|lia]. reflexivity.
  - (* a shift by [e1 - E] places *)
    assert (He1 : e1 = fexp 53 1024 (d + E)) by (unfold e1, round_exp; fold d; lia).
    assert (Hk : fexp 53 1024 (d + E) - E = e1 - E) by lia.
    rewrite Hk in *.
    destruct (shr_shift (Zpos X) E (e1 - E) ltac:(lia) C) as (mrs & -> & Hm & Hx).
    fold q in Hm.
    replace (E + (e1 - E)) with e1 by lia.
    destruct (round_nearest_even_cases (shr_m mrs) mrs) as [Hr Hr'].
    cbn zeta in Hr, Hr'. rewrite Hm in Hr, Hr' |- *.
    set (m2 := round_nearest_even q (loc_of_shr_record mrs)) in *.
    assert (P : 0 < 2 ^ (e1 - E)) by (apply Z.pow_pos_nonneg; lia).
    assert (Hq0 : 0 <= q) by (apply Z.div_pos; lia).
    assert (Hq53 : q < 2 ^ 53).
    { apply Z.div_lt_upper_bound; [lia|].
      apply Z.lt_le_trans with (2 ^ d); [assumption|].
      rewrite <- Z.pow_add_r by lia. apply Z.pow_le_mono_r; [lia|].
      rewrite He1, fexp_eq. lia. }
    assert (Hemin : -1074 <= e1) by (rewrite He1, fexp_eq; lia).
    exists m2. split; [exact Hr|]. split; [intros D; apply Hr'; now apply Hx|].
    split; [lia|].
    unfold encode.
    destruct (Z.eqb_spec m2 0) as [Z0|NZ].
    + rewrite Z0. cbn [Zdigits2 shr_record_of_loc].
      rewrite shr_no_shift by (rewrite fexp_eq; lia). reflexivity.
    + assert (0 < m2) by lia.
      destruct (Z.ltb_spec m2 (2 ^ 53)) as [Lt|Ge].
      * pose proof (Zdigits2_le m2 53 ltac:(lia) ltac:(lia) Lt).
        cbn [shr_record_of_loc].
        rewrite shr_no_shift by (rewrite fexp_eq; lia). cbn [shr_m].
        destruct m2 as [|p|p]; try lia. reflexivity.
      * assert (M : m2 = 2 ^ 53) by lia. rewrite M.
        change (Zdigits2 (2 ^ 53)) with 54.
        replace (fexp 53 1024 (54 + e1) - e1) with 1 by (rewrite fexp_eq; lia).
        cbn [shr_record_of_loc shr iter_pos shr_1 shr_m].
        replace (e1 + 1 <=? 1024 - 53) with (e1 + 1 <=? 971) by reflexivity.
        reflexivity.
Qed.

Lemma round_exp_cases (X : positive) (E : Z) :
  let e1 := round_exp X E in
  E <= e1
  /\ (e1 = E \/ e1 = -1074 \/ 2 ^ 52 <= Zpos X / 2 ^ (e1 - E)).
Proof.
  intros e1. unfold e1, round_exp. rewrite fexp_eq.
  pose proof (digits2_bounds X) as [DL _].
  set (d := Zpos (digits2_pos X)) in *.
  split; [lia|].
  destruct (Z.le_gt_cases (Z.max (d + E - 53) (-1074)) E) as [C|C]; [left; lia|].
  destruct (Z.le_gt_cases (d + E - 53) (-1074)) as [C'|C']; [right; left; lia|].
  right; right.
  replace (Z.max (Z.max (d + E - 53) (-1074)) E - E) with (d - 53) by lia.
  apply Z.div_le_lower_bound; [apply Z.pow_pos_nonneg; lia|].
  rewrite <- Z.pow_add_r by lia.
  replace (d - 53 + 52) with (d - 1) by lia. exact DL.
Qed.

(** The integer part of a finite float. *)
Definition floor_val (m e : Z) : Z :=
  if 0 <=? e then m * 2 ^ e else m / 2 ^ (- e).

Lemma floor_val_shift (e : Z) : floor_val (2 ^ 52) (e + 1) = floor_val (2 ^ 53) e.
Proof.
  unfold floor_val.
  destruct (Z.leb_spec 0 e) as [C|C].
  - destruct (Z.leb_spec 0 (e + 1)); [|lia].
    rewrite Z.pow_add_r by lia. change (2 ^ 53) with (2 ^ 52 * 2 ^ 1). lia.
  - destruct (Z.leb_spec 0 (e + 1)) as [C'|C'].
    + assert (e = -1) by lia. subst e. reflexivity.
    + replace (- e) with (1 + (- (e + 1))) by lia.
      rewrite Z.pow_add_r by lia.
      change (2 ^ 53) with (2 ^ 1 * 2 ^ 52).
      rewrite Z.div_mul_cancel_l; [reflexivity| |lia].
      apply Z.pow_nonzero; lia.
Qed.

Lemma trunc_encode (m e : Z) :
  0 <= m <= 2 ^ 53 -> e < 971 ->
  Float64.trunc_spec (encode false m e) = Some (floor_val m e).
Proof.
  intros Hm He. unfold encode.
  destruct (Z.eqb_spec m 0) as [->|NZ].
  - cbn [Float64.trunc_spec]. unfold floor_val. destruct (Z.leb_spec 0 e); [reflexivity|].
    now rewrite Z.div_0_l by (apply Z.pow_nonzero; lia).
  - destruct (Z.ltb_spec m (2 ^ 53)) as [Lt|Ge].
    + destruct (Z.leb_spec e 971); [|lia]. cbn [Float64.trunc_spec].
      rewrite Z2Pos.id by lia. reflexivity.
    + assert (m = 2 ^ 53) by lia. subst m.
      destruct (Z.leb_spec (e + 1) 971); [|lia]. cbn [Float64.trunc_spec].
      rewrite Z2Pos.id by lia. f_equal. apply floor_val_shift.
Qed.

(** The value [m2 * 2^e1] is at most [n], both scaled by [2^(-E)]. *)
Lemma floor_val_le (m2 e1 E n : Z) :
  0 <= m2 -> E <= e1 -> E <= 0 -> 0 <= n ->
  m2 * 2 ^ (e1 - E) <= n * 2 ^ (- E) ->
  0 <= floor_val m2 e1 <= n.
Proof.
  intros Hm HE HE0 Hn H. unfold floor_val.
  destruct (Z.leb_spec 0 e1) as [C|C].
  - assert (P : 0 < 2 ^ (- E)) by (apply Z.pow_pos_nonneg; lia).
    assert (P1 : 0 < 2 ^ e1) by (apply Z.pow_pos_nonneg; lia).
    replace (e1 - E) with (e1 + - E) in H by lia.
    rewrite Z.pow_add_r in H by lia.
    split; [nia|]. nia.
  - assert (P : 0 < 2 ^ (e1 - E)) by (apply Z.pow_pos_nonneg; lia).
    assert (P1 : 0 < 2 ^ (- e1)) by (apply Z.pow_pos_nonneg; lia).
    replace (- E) with (- e1 + (e1 - E)) in H by lia.
    rewrite Z.pow_add_r in H by lia.
    assert (m2 <= n * 2 ^ (- e1)) by nia.
    split; [apply Z.div_pos; lia|].
    apply Z.div_le_upper_bound; [lia|]. lia.
Qed.

Lemma valid_finite (s : bool) (m : positive) (e : Z) :
  valid_binary (S754_finite s m e) = true ->
  -1074 <= e <= 971 /\ Zpos m < 2 ^ 53.
Proof.
  cbn [SpecFloat.valid_binary]. unfold bounded, canonical_mantissa.
  intros H. apply andb_true_iff in H. destruct H as [C B].
  apply Z.eqb_eq in C. apply Z.leb_le in B. rewrite fexp_eq in C.
  change (emax - prec) with 971 in B.
  pose proof (digits2_bounds m) as [_ U].
  split; [lia|].
  apply Z.lt_le_trans with (1 := U). apply Z.pow_le_mono_r; lia.
Qed.

Lemma positive_at_most_one (f : float) :
  PrimFloat.ltb 0%float f = true -> PrimFloat.leb f 1%float = true ->
  exists my ey,
    Prim2SF f = S754_finite false my ey
    /\ -1074 <= ey <= -52 /\ Zpos my <= 2 ^ (- ey).
Proof.
  rewrite FloatAxioms.ltb_spec, FloatAxioms.leb_spec.
  assert (Z0 : Prim2SF 0%float = S754_zero false) by reflexivity.
  assert (O1 : Prim2SF 1%float = S754_finite false 4503599627370496 (-52)) by reflexivity.
  rewrite Z0, O1. clear Z0 O1.
  pose proof (Prim2SF_valid f) as V.
  destruct (Prim2SF f) as [s|s| |s m e]; unfold SFltb, SFleb; cbn [SFcompare];
    try discriminate.
  all: destruct s; try discriminate.
  intros _.
  destruct (valid_finite _ _ _ V) as [He Hm].
  intros H. exists m, e. split; [reflexivity|].
  destruct (Z.compare_spec e (-52)) as [C|C|C]; [| |discriminate].
  - subst e. split; [lia|].
    pose proof (Pos.compare_spec m 4503599627370496) as CS.
    unfold Pos.compare in CS.
    destruct CS as [C|C|C]; [| |discriminate].
    + subst m. apply Z.le_refl.
    + apply Pos2Z.pos_le_pos, Pos.lt_le_incl, C.
  - split; [lia|].
    apply Z.lt_le_incl, Z.lt_le_trans with (1 := Hm). apply Z.pow_le_mono_r; lia.
Qed.

Lemma iter_xO (p c : positive) : Zpos (Pos.iter xO p c) = Zpos p * 2 ^ Zpos c.
Proof.
  induction c as [|c IH] using Pos.peano_ind.
  - cbn [Pos.iter]. change (Zpos p~0) with (2 * Zpos p). change (2 ^ 1) with 2. lia.
  - rewrite Pos.iter_succ, Pos2Z.inj_succ, Z.pow_succ_r by lia.
    change (Zpos (Pos.iter xO p c)~0) with (2 * Zpos (Pos.iter xO p c)).
    rewrite IH. lia.
Qed.

Lemma of_int_exact (n : Z) :
  1 <= n < 2 ^ 53 ->
  exists mx ex,
    Prim2SF (Float64.of_int n) = S754_finite false mx ex
    /\ -52 <= ex <= 0 /\ Zpos mx = n * 2 ^ (- ex) /\ Zpos mx < 2 ^ 53.
Proof.
  intros Hn. unfold Float64.of_int.
  destruct (Z.eqb_spec n GoInt.min_int) as [C|_]; [unfold GoInt.min_int in C; lia|].
  destruct (Z.ltb_spec n 0) as [C|_]; [lia|].
  rewrite of_uint63_spec, Uint63.of_Z_spec.
  rewrite Z.mod_small by (change wB with (2 ^ 63); lia).
  destruct n as [|p|p]; try lia.
  cbn [binary_normalize]. unfold binary_round, shl_align.
  pose proof (digits2_bounds p) as [DL DU].
  set (d := Zpos (digits2_pos p)) in *.
  assert (Hd : 1 <= d <= 53).
  { split; [unfold d; lia|].
    destruct (Z.le_gt_cases d 53) as [C|C]; [assumption|].
    assert (2 ^ 53 <= 2 ^ (d - 1)) by (apply Z.pow_le_mono_r; lia). lia. }
  rewrite fexp_eq. replace (Z.max (d + 0 - 53) (-1074) - 0) with (d - 53) by lia.
  replace (Z.max (d + 0 - 53) (-1074)) with (d - 53) by lia.
  assert (K : exists mz,
             (match d - 53 with
              | Z.neg c => (Pos.iter xO p c, d - 53)
              | _ => (p, 0)
              end) = (mz, d - 53)
             /\ Zpos mz = Zpos p * 2 ^ (53 - d)).
  { destruct (d - 53) as [|c|c] eqn:Ec; try lia.
    - exists p. replace (53 - d) with 0 by lia. split; [reflexivity|lia].
    - exists (Pos.iter xO p c). split; [reflexivity|].
      rewrite iter_xO. f_equal. f_equal. lia. }
  destruct K as (mz & -> & Hmz).
  assert (P : 0 < 2 ^ (53 - d)) by (apply Z.pow_pos_nonneg; lia).
  assert (Dz : Zpos (digits2_pos mz) = 53).
  { apply digits2_unique. rewrite Hmz. split.
    - replace (53 - 1) with ((d - 1) + (53 - d)) by lia.
      rewrite Z.pow_add_r by lia. nia.
    - replace 53 with (d + (53 - d)) at 2 by lia.
      rewrite Z.pow_add_r by lia. nia. }
  change prec with 53. change emax with 1024.
  destruct (round_aux_spec false mz (d - 53)) as (m2 & Hq & Hx & _ & ->).
  assert (R : round_exp mz (d - 53) = d - 53)
    by (unfold round_exp; rewrite Dz, fexp_eq; lia).
  rewrite R in *. rewrite Z.sub_diag in *. change (2 ^ 0) with 1 in *.
  rewrite Z.div_1_r in *. rewrite (Hx (Z.mod_1_r _)).
  assert (Zpos mz < 2 ^ 53).
  { rewrite Hmz. replace 53 with (d + (53 - d)) at 2 by lia.
    rewrite Z.pow_add_r by lia. nia. }
  exists mz, (d - 53). split.
  - unfold encode. change (Zpos mz =? 0) with false. cbv iota.
    destruct (Z.ltb_spec (Zpos mz) (2 ^ 53)); [|lia].
    destruct (Z.leb_spec (d - 53) 971); [|lia]. reflexivity.
  - split; [lia|]. split; [|assumption].
    rewrite Hmz. f_equal. f_equal. lia.
Qed.

(** Rounding a product [X * 2^E] that is at most [mx * W * 2^E], where
    [mx] has at most 53 bits and [W] is a power of two. *)
Lemma rounded_value_le (X : positive) (E mx w m2 : Z) :
  let e1 := round_exp X E in
  let q := Zpos X / 2 ^ (e1 - E) in
  0 < mx < 2 ^ 53 -> 0 <= w ->
  Zpos X <= mx * 2 ^ w ->
  -1074 <= E + w ->
  q <= m2 <= q + 1 ->
  (Zpos X mod 2 ^ (e1 - E) = 0 -> m2 = q) ->
  m2 * 2 ^ (e1 - E) <= mx * 2 ^ w.
Proof.
  intros e1 q Hmx Hw HX Hex Hm2 Hexact.
  destruct (round_exp_cases X E) as [HE Hcases]. fold e1 in HE, Hcases. fold q in Hcases.
  set (k := e1 - E) in *.
  assert (Hk : 0 <= k) by (unfold k; lia).
  assert (PK : 0 < 2 ^ k) by (apply Z.pow_pos_nonneg; lia).
  assert (PW : 0 < 2 ^ w) by (apply Z.pow_pos_nonneg; lia).
  pose proof (Z.div_mod (Zpos X) (2 ^ k) ltac:(lia)) as DM. fold q in DM.
  pose proof (Z.mod_pos_bound (Zpos X) (2 ^ k) PK) as MB.
  destruct (Z.eq_dec m2 q) as [->|NE]; [nia|].
  assert (NX : Zpos X mod 2 ^ k <> 0) by (intros D; apply NE; now apply Hexact).
  assert (M : m2 = q + 1) by lia. subst m2.
  destruct (Z.le_gt_cases k w) as [C|C].
  - (* the bound is a multiple of [2^k] *)
    replace w with (k + (w - k)) by lia. rewrite Z.pow_add_r by lia.
    replace w with (k + (w - k)) in HX by lia. rewrite Z.pow_add_r in HX by lia.
    assert (PQ : 0 < 2 ^ (w - k)) by (apply Z.pow_pos_nonneg; lia).
    set (c := mx * 2 ^ (w - k)).
    assert (HX' : Zpos X <= c * 2 ^ k) by (unfold c; lia).
    assert (q < c) by nia.
    replace (mx * (2 ^ k * 2 ^ (w - k))) with (c * 2 ^ k) by (unfold c; lia).
    nia.
  - (* the rounded mantissa has 53 bits and a larger exponent *)
    exfalso.
    destruct Hcases as [H|[H|H]]; [unfold k in C; lia|unfold k in C; lia|].
    assert (2 ^ 53 * 2 ^ w <= 2 ^ 52 * 2 ^ k).
    { rewrite <- !Z.pow_add_r by lia. apply Z.pow_le_mono_r; lia. }
    nia.
Qed.

Lemma digits2_mul_le (mx my : positive) :
  Zpos mx < 2 ^ 53 -> Zpos my < 2 ^ 53 -> Zpos (digits2_pos (mx * my)) <= 106.
Proof.
  intros Hx Hy.
  apply (Zdigits2_le (Zpos (mx * my)) 106); [lia|lia|].
  rewrite Pos2Z.inj_mul. change (2 ^ 106) with (2 ^ 53 * 2 ^ 53). nia.
Qed.

(** The page that a saved fraction in (0, 1] restores lies in [0, n]. *)
Lemma restore_target_bounds (n : Z) (f : float) :
  1 <= n < 2 ^ 53 ->
  PrimFloat.ltb 0%float f = true -> PrimFloat.leb f 1%float = true ->
  exists t,
    Float64.trunc_spec (Prim2SF (PrimFloat.mul (Float64.of_int n) f)) = Some t
    /\ 0 <= t <= n.
Proof.
  intros Hn F0 F1.
  destruct (of_int_exact n Hn) as (mx & ex & Ex & Hex & Hmx & Bx).
  destruct (positive_at_most_one f F0 F1) as (my & ey & Ey & Hey & Hmy).
  rewrite FloatAxioms.mul_spec, Ex, Ey. unfold SF64mul. cbn [SFmul xorb].
  change prec with 53. change emax with 1024.
  destruct (round_aux_spec false (mx * my) (ex + ey)) as (m2 & Hq & Hx & H53 & ->).
  set (E := ex + ey) in *. set (X := (mx * my)%positive) in *.
  set (e1 := round_exp X E) in *.
  destruct (round_exp_cases X E) as [HE _]. fold e1 in HE.
  assert (PW : 0 < 2 ^ (- ey)) by (apply Z.pow_pos_nonneg; lia).
  assert (PX : 0 < 2 ^ (- ex)) by (apply Z.pow_pos_nonneg; lia).
  assert (By : Zpos my < 2 ^ 53).
  { destruct (Z.eq_dec ey (-52)) as [->|]; [change (2 ^ (- -52)) with (2 ^ 52) in Hmy; lia|].
    assert (2 ^ (- ey) <= 2 ^ 1074) by (apply Z.pow_le_mono_r; lia).
    pose proof (Prim2SF_valid f) as V. rewrite Ey in V.
    now destruct (valid_finite _ _ _ V). }
  assert (A : m2 * 2 ^ (e1 - E) <= Zpos mx * 2 ^ (- ey)).
  { apply (rounded_value_le X E (Zpos mx) (- ey) m2).
    - lia.
    - lia.
    - unfold X. rewrite Pos2Z.inj_mul. nia.
    - unfold E. lia.
    - exact Hq.
    - exact Hx. }
  assert (He1 : e1 < 971).
  { unfold e1, round_exp. rewrite fexp_eq.
    pose proof (digits2_mul_le mx my Bx By). fold X in H. unfold E. lia. }
  assert (Q0 : 0 <= Zpos X / 2 ^ (e1 - E)).
  { apply Z.div_pos; [lia|]. apply Z.pow_pos_nonneg; lia. }
  rewrite trunc_encode by lia.
  eexists. split; [reflexivity|].
  apply (floor_val_le m2 e1 E n); try lia.
  replace (- E) with (- ex + - ey) by (unfold E; lia).
  rewrite Z.pow_add_r by lia. rewrite Z.mul_assoc, <- Hmx. exact A.
Qed.


(** Among positive finite numbers, not being below is being at least. *)
Lemma finite_not_ltb_leb (m1 m2 : positive) (e1 e2 : Z) :
  SFltb (S754_finite false m2 e2) (S754_finite false m1 e1) = false ->
  SFleb (S754_finite false m1 e1) (S754_finite false m2 e2) = true.
Proof.
  unfold SFltb, SFleb. cbn [SFcompare].
  rewrite (Z.compare_antisym e1 e2).
  destruct (e1 ?= e2); cbn [CompOpp]; try discriminate; try reflexivity.
  pose proof (Pos.compare_cont_antisym m1 m2 Eq) as A. cbn [CompOpp] in A.
  rewrite <- A.
  destruct (Pos.compare_cont Eq m1 m2); cbn [CompOpp];
    [reflexivity|reflexivity|discriminate].
Qed.

(** For a positive [f], not being above 1 is being at most 1. *)
Lemma not_above_one (f : float) :
  PrimFloat.ltb 0%float f = true ->
  PrimFloat.ltb 1%float f = false ->
  PrimFloat.leb f 1%float = true.
Proof.
  rewrite !FloatAxioms.ltb_spec, FloatAxioms.leb_spec.
  assert (Z0 : Prim2SF 0%float = S754_zero false) by reflexivity.
  assert (O1 : Prim2SF 1%float = S754_finite false 4503599627370496 (-52)) by reflexivity.
  rewrite Z0, O1. clear Z0 O1.
  generalize 4503599627370496%positive (-52). intros c e1.
  destruct (Prim2SF f) as [s|s| |s m e].
  - destruct s; discriminate.
  - destruct s; discriminate.
  - discriminate.
  - destruct s; [discriminate|]. intros _. apply finite_not_ltb_leb.
Qed.

(** [int(float64(n) * f)] for a page count [n] and a fraction [f] in
    (0, 1]: the conversion is defined and lies between 0 and [n]. *)
Lemma to_int_restore (indefinite : float -> Z) (n : Z) (f : float) :
  1 <= n < 2 ^ 53 ->
  PrimFloat.ltb 0%float f = true -> PrimFloat.leb f 1%float = true ->
  exists t,
    Float64.trunc (PrimFloat.mul (Float64.of_int n) f) = Some t
    /\ Float64.to_int indefinite (PrimFloat.mul (Float64.of_int n) f) = t
    /\ 0 <= t <= n.
Proof.
  intros Hn F0 F1.
  destruct (restore_target_bounds n f Hn F0 F1) as (t & Ht & B).
  exists t. unfold Float64.to_int, Float64.trunc. rewrite Ht.
  split; [reflexivity|]. split; [|exact B].
  destruct (Z.leb_spec GoInt.min_int t) as [_|C];
    [|unfold GoInt.min_int in C; lia].
  destruct (Z.leb_spec t GoInt.max_int) as [_|C];
    [reflexivity|unfold GoInt.max_int in C; lia].
Qed.
End Float64Facts.

(** ** The reader *)

Module ReaderSpec.
Import Reader.

(** Unfolds the arithmetic of [int] where the result is in range. *)
Ltac in_range_lia :=
  unfold GoInt.in_range, GoInt.min_int, GoInt.max_int in *; lia.

Ltac unwrap :=
  unfold GoInt.add, GoInt.sub, GoInt.mul, GoInt.neg;
  repeat match goal with
         | |- context [GoInt.wrap ?z] =>
             rewrite (GoIntFacts.wrap_in_range z) by in_range_lia
         end.

Ltac unwrap_in H :=
  unfold GoInt.add, GoInt.sub, GoInt.mul, GoInt.neg in H;
  repeat match type of H with
         | context [GoInt.wrap ?z] =>
             rewrite (GoIntFacts.wrap_in_range z) in H by in_range_lia
         end.

Section Restore.

Context {T : GoTime}.

(** The entry that [restoreReadingPosition] stops at. *)
Definition first_entry (id : string) (history : list Config.ReadingEntry)
  : option Config.ReadingEntry :=
  find (fun e => String.eqb (Config.FictionID e) id) history.

Lemma restore_from_found (history : list Config.ReadingEntry) (m : ReaderModel)
  (entry : Config.ReadingEntry) :
  first_entry (fictionID m) history = Some entry ->
  startChapter (restore_from history m)
  = if startChapter m =? 0 then Config.CurrentChapter entry else startChapter m.
Proof.
  induction history as [|e history IH]; cbn [first_entry find restore_from];
    [discriminate|].
  destruct (String.eqb (Config.FictionID e) (fictionID m)).
  - intros [= ->].
    destruct (startChapter m =? 0);
      match goal with
      | |- context [if ?b then _ else _] => destruct b
      end; reflexivity.
  - exact IH.
Qed.

Lemma restore_from_explicit (history : list Config.ReadingEntry) (m : ReaderModel) :
  startChapter m <> 0 -> startChapter (restore_from history m) = startChapter m.
Proof.
  intros N. apply Z.eqb_neq in N.
  induction history as [|e history IH]; cbn [restore_from]; [reflexivity|].
  destruct (String.eqb (Config.FictionID e) (fictionID m)); [|exact IH].
  rewrite N.
  match goal with
  | |- context [if ?b then _ else _] => destruct b
  end; reflexivity.
Qed.

(** C10.  A requested start chapter 0 is what a new reader has anyway; if
    the start chapter is 0 and the history has an entry of the fiction,
    restoring the position replaces it by the chapter of that entry; a
    start chapter other than 0 is kept. *)
Theorem restoreReadingPosition_start_chapter :
  (forall termSize cfg id,
      SetStartChapter 0 (NewReaderModel termSize cfg id)
      = NewReaderModel termSize cfg id)
  /\ (forall m cfg entry,
        config m = Some cfg ->
        first_entry (fictionID m) (Config.ReadingHistory cfg) = Some entry ->
        startChapter m = 0 ->
        startChapter (restoreReadingPosition m) = Config.CurrentChapter entry
        /\ startChapter (fst (Init m)) = Config.CurrentChapter entry)
  /\ (forall m,
        startChapter m <> 0 ->
        startChapter (restoreReadingPosition m) = startChapter m).
Proof.
  split; [|split].
  - intros [w h] cfg id. reflexivity.
  - intros m cfg entry C F Z0. cbn [Init fst]. unfold restoreReadingPosition.
    rewrite C, (restore_from_found _ _ _ F), Z0. now split.
  - intros m N. unfold restoreReadingPosition.
    destruct (config m); [|reflexivity]. now apply restore_from_explicit.
Qed.

End Restore.

(** A reader opened on fiction 202 with start chapter 0, and one opened
    with start chapter 2, over a history that has fiction 202 at chapter 7. *)
Lemma restoreReadingPosition_start_chapter_witness :
  let cfg := Fixtures.sample_config Fixtures.three_entries in
  let m0 := SetStartChapter (T := Fixtures.linear_time) 0
              (NewReaderModel (80, 24) cfg "202") in
  let m2 := SetStartChapter (T := Fixtures.linear_time) 2
              (NewReaderModel (80, 24) cfg "202") in
  startChapter (restoreReadingPosition m0) = 7
  /\ startChapter (restoreReadingPosition m2) = 2.
Proof.
  intros cfg m0 m2.
  destruct (restoreReadingPosition_start_chapter (T := Fixtures.linear_time))
    as (_ & H0 & H2).
  split.
  - assert (C : config m0 = Some cfg) by reflexivity.
    assert (F : first_entry (fictionID m0) (Config.ReadingHistory cfg)
                = Some (Fixtures.sample_entry "202" 7 0%float)) by reflexivity.
    assert (Z0 : startChapter m0 = 0) by reflexivity.
    destruct (H0 m0 cfg _ C F Z0) as [H _]. exact H.
  - assert (N : startChapter m2 <> 0) by (cbn; lia).
    exact (H2 m2 N).
Defined.

(** *** Pagination *)

Lemma split_go_nonempty (sep s : string) (skip : nat) (cur : string) :
  GoStrings.split_go sep s skip cur <> [].
Proof.
  revert skip cur. induction s as [|c s IH]; intros skip cur; cbn [GoStrings.split_go].
  - discriminate.
  - destruct skip; [|apply IH].
    destruct (GoStrings.HasPrefix (String c s) sep); [discriminate|apply IH].
Qed.

(** [strings.Split] returns at least one piece. *)
Lemma Split_len (s sep : string) : 1 <= GoInt.len (GoStrings.Split s sep).
Proof.
  unfold GoStrings.Split, GoInt.len.
  pose proof (split_go_nonempty sep s 0 EmptyString) as H.
  destruct (GoStrings.split_go sep s 0 EmptyString); [contradiction|].
  cbn [List.length]. lia.
Qed.

(** The number of pages of [L] lines at [p] lines a page. *)
Definition ceil_div (L p : Z) : Z := L / p + (if L mod p =? 0 then 0 else 1).

Lemma ceil_div_formula (L p : Z) :
  0 <= L -> 1 <= p -> (L + p - 1) / p = ceil_div L p.
Proof.
  intros HL Hp. unfold ceil_div.
  pose proof (Z.div_mod L p ltac:(lia)) as DM.
  pose proof (Z.mod_pos_bound L p ltac:(lia)) as MB.
  destruct (Z.eqb_spec (L mod p) 0) as [E|E].
  - symmetry. apply Z.div_unique with (p - 1); lia.
  - symmetry. apply Z.div_unique with (L mod p - 1); lia.
Qed.

Lemma ceil_div_bounds (L p : Z) :
  1 <= L -> 1 <= p -> 1 <= ceil_div L p <= L.
Proof.
  intros HL Hp. unfold ceil_div.
  pose proof (Z.div_mod L p ltac:(lia)) as DM.
  pose proof (Z.mod_pos_bound L p ltac:(lia)) as MB.
  assert (0 <= L / p) by (apply Z.div_pos; lia).
  destruct (Z.eqb_spec (L mod p) 0) as [E|E].
  - assert (L / p <> 0) by nia. nia.
  - nia.
Qed.

(** The page count that [updateContent] computes, without overflow. *)
Lemma quo_pages (L p : Z) :
  1 <= L <= 2 ^ 53 -> 1 <= p <= 2 ^ 62 ->
  GoInt.quo (GoInt.sub (GoInt.add L p) 1) p = Some (ceil_div L p).
Proof.
  intros HL Hp. unfold GoInt.quo.
  destruct (Z.eqb_spec p 0); [lia|].
  unwrap.
  rewrite Z.quot_div_nonneg by lia.
  rewrite ceil_div_formula by lia.
  pose proof (ceil_div_bounds L p ltac:(lia) ltac:(lia)).
  unwrap. reflexivity.
Qed.

(** Reads the fields of a reader that was built by the field updates. *)
Ltac fields := cbn [fictionID fiction currentChapter chapterIndex startChapter loading err showHelp showTOC ready config content currentPage linesPerPage totalPages termWidth termHeight goToLastPage savedChapterProgress set_fictionID set_fiction set_currentChapter set_chapterIndex set_startChapter set_loading set_err set_showHelp set_showTOC set_ready set_config set_content set_currentPage set_linesPerPage set_totalPages set_termWidth set_termHeight set_goToLastPage set_savedChapterProgress].
Ltac fields_in H := cbn [fictionID fiction currentChapter chapterIndex startChapter loading err showHelp showTOC ready config content currentPage linesPerPage totalPages termWidth termHeight goToLastPage savedChapterProgress set_fictionID set_fiction set_currentChapter set_chapterIndex set_startChapter set_loading set_err set_showHelp set_showTOC set_ready set_config set_content set_currentPage set_linesPerPage set_totalPages set_termWidth set_termHeight set_goToLastPage set_savedChapterProgress] in H.

Section Machine.

Context {T : GoTime}.
Variable UnescapeString : string -> string.
Variable Render : string -> string.
Variable indefinite : float -> Z.

(** The lines that a chapter is formatted to at a terminal width. *)
Definition chapterLines (ch : Api.Chapter) (width : Z) : list string :=
  GoStrings.Split
    (Reflow.formatChapterContent UnescapeString Render (Some ch) width) Reflow.LF.

(** The pagination property: the page count of the lines at the page
    height, and a current page among the pages. *)
Definition pagination (m : ReaderModel) : Prop :=
  totalPages m = Z.max 1 (ceil_div (GoInt.len (content m)) (linesPerPage m))
  /\ 0 <= currentPage m < totalPages m.

(** What holds of a reader throughout: a page height as [Update] and
    [NewReaderModel] compute it, a chapter index that is an index, and a
    saved fraction that is not above 1. *)
Definition wf (m : ReaderModel) : Prop :=
  1 <= linesPerPage m <= 2 ^ 62
  /\ 0 <= chapterIndex m <= GoInt.max_int
  /\ PrimFloat.ltb 1%float (savedChapterProgress m) = false.

Definition loaded (m : ReaderModel) : Prop := currentChapter m <> None.

Definition Inv (m : ReaderModel) : Prop :=
  wf m
  /\ (loaded m -> 1 <= GoInt.len (content m) < 2 ^ 53 /\ pagination m).

(** The messages that the event loop can deliver: a terminal height and a
    chapter index that are far from the ends of [int], and chapters of
    fewer than 2^53 lines. *)
Definition msg_ok (m : ReaderModel) (msg : Msg) : Prop :=
  match msg with
  | WindowSizeMsg Width Height =>
      - 2 ^ 62 <= Height <= 2 ^ 62
      /\ (forall ch, currentChapter m = Some ch ->
                     GoInt.len (chapterLines ch Width) < 2 ^ 53)
  | chapterLoadedMsg chapter index =>
      0 <= index <= GoInt.max_int
      /\ GoInt.len (chapterLines chapter (termWidth m)) < 2 ^ 53
  | _ => True
  end.

(** [updateContent] on a loaded reader: the lines of the chapter at the
    terminal width, their page count, and a current page pulled back into
    the pages. *)
Lemma updateContent_loaded (m : ReaderModel) (ch : Api.Chapter) :
  currentChapter m = Some ch ->
  1 <= linesPerPage m <= 2 ^ 62 ->
  GoInt.len (chapterLines ch (termWidth m)) < 2 ^ 53 ->
  let lines := chapterLines ch (termWidth m) in
  let pages := ceil_div (GoInt.len lines) (linesPerPage m) in
  let m1 := set_totalPages pages (set_content lines m) in
  updateContent UnescapeString Render m
  = Some (if currentPage m >=? pages
          then set_currentPage (Z.max 0 (pages - 1)) m1 else m1)
  /\ 1 <= GoInt.len lines
  /\ 1 <= pages <= GoInt.len lines.
Proof.
  intros C Hp HL lines pages m1.
  pose proof (Split_len
                (Reflow.formatChapterContent UnescapeString Render (Some ch) (termWidth m))
                Reflow.LF) as L1.
  fold (chapterLines ch (termWidth m)) in L1. fold lines in L1, HL.
  pose proof (ceil_div_bounds (GoInt.len lines) (linesPerPage m) L1 ltac:(lia)) as B.
  fold pages in B.
  split; [|split; assumption].
  unfold updateContent. rewrite C. fields.
  fold (chapterLines ch (termWidth m)). fold lines.
  destruct (Z.eqb_spec (GoInt.len lines) 0) as [E|_]; [lia|].
  rewrite quo_pages by lia. fold pages. fields. fold m1.
  rewrite GoIntFacts.max_spec. unwrap. reflexivity.
Qed.

(** [saveReadingProgress] returns when the chapter index is not negative,
    and changes the configuration only. *)
Lemma saveReadingProgress_returns (now : string) (m : ReaderModel) :
  0 <= chapterIndex m ->
  exists cfg, saveReadingProgress now m = Some (set_config cfg m).
Proof.
  intros H. unfold saveReadingProgress.
  destruct (fiction m) as [f|]; [|exists (config m); now destruct m].
  destruct (config m) as [cfg|] eqn:C; [|exists None; destruct m; cbn in C; now subst].
  destruct (Z.ltb_spec (chapterIndex m) (GoInt.len (Api.Chapters f))) as [Lt|Ge].
  - unfold index.
    destruct (Z.leb_spec 0 (chapterIndex m)); [|lia].
    destruct (Z.ltb_spec (chapterIndex m) (GoInt.len (Api.Chapters f))); [|lia].
    cbn [andb].
    destruct (nth_error (Api.Chapters f) (Z.to_nat (chapterIndex m))) eqn:N.
    + cbn [option_map]. eexists. reflexivity.
    + apply nth_error_None in N. unfold GoInt.len in Lt. lia.
  - eexists. reflexivity.
Qed.

(** The three landings of [setPagePosition]. *)
Lemma setPagePosition_last (m : ReaderModel) :
  goToLastPage m = true -> 1 <= totalPages m <= GoInt.max_int ->
  setPagePosition indefinite m
  = set_goToLastPage false (set_currentPage (totalPages m - 1) m).
Proof.
  intros G H. unfold setPagePosition. rewrite G.
  destruct (Z.gtb_spec (totalPages m) 0); [|lia]. unwrap. reflexivity.
Qed.

Lemma setPagePosition_first (m : ReaderModel) :
  goToLastPage m = false ->
  PrimFloat.ltb 0%float (savedChapterProgress m) = false ->
  setPagePosition indefinite m = set_currentPage 0 m.
Proof. intros G F. unfold setPagePosition. now rewrite G, F. Qed.

Lemma setPagePosition_restore (m : ReaderModel) :
  goToLastPage m = false ->
  PrimFloat.ltb 0%float (savedChapterProgress m) = true ->
  PrimFloat.leb (savedChapterProgress m) 1%float = true ->
  1 <= totalPages m < 2 ^ 53 ->
  exists t,
    Float64.trunc
      (PrimFloat.mul (Float64.of_int (totalPages m)) (savedChapterProgress m))
    = Some t
    /\ 0 <= t <= totalPages m
    /\ setPagePosition indefinite m
       = set_savedChapterProgress 0%float
           (set_currentPage (Z.max 0 (Z.min t (totalPages m - 1))) m).
Proof.
  intros G F0 F1 H. unfold setPagePosition. rewrite G, F0.
  destruct (Float64Facts.to_int_restore indefinite _ _ H F0 F1) as (t & Ht & Hi & B).
  exists t. split; [exact Ht|]. split; [exact B|].
  destruct (Z.gtb_spec (totalPages m) 0); [|lia].
  rewrite Hi. unwrap.
  destruct (Z.geb_spec t (totalPages m)); do 2 f_equal; lia.
Qed.

(** Whatever the directive, [setPagePosition] lands on a page of the
    chapter and touches nothing but the page and the two directives. *)
Lemma setPagePosition_lands (m : ReaderModel) :
  1 <= totalPages m < 2 ^ 53 ->
  PrimFloat.ltb 1%float (savedChapterProgress m) = false ->
  exists page f,
    setPagePosition indefinite m
    = set_savedChapterProgress f (set_goToLastPage false (set_currentPage page m))
    /\ 0 <= page < totalPages m
    /\ PrimFloat.ltb 1%float f = false.
Proof.
  intros H F1.
  destruct (goToLastPage m) eqn:G.
  - exists (totalPages m - 1), (savedChapterProgress m).
    rewrite (setPagePosition_last m G) by (unfold GoInt.max_int; lia).
    split; [destruct m; reflexivity|]. split; [lia|exact F1].
  - destruct (PrimFloat.ltb 0%float (savedChapterProgress m)) eqn:F0.
    + destruct (setPagePosition_restore m G F0
                  (Float64Facts.not_above_one _ F0 F1) H) as (t & _ & B & ->).
      exists (Z.max 0 (Z.min t (totalPages m - 1))), 0%float.
      split; [destruct m; cbn in G; subst; reflexivity|]. split; [lia|reflexivity].
    + exists 0, (savedChapterProgress m).
      rewrite setPagePosition_first by assumption.
      split; [destruct m; cbn in G; subst; reflexivity|]. split; [lia|exact F1].
Qed.

(** The reader when a chapter has arrived and [updateContent] has run,
    before the page is set. *)
Definition arrived (m : ReaderModel) (ch : Api.Chapter) (index : Z) : ReaderModel :=
  let lines := chapterLines ch (termWidth m) in
  set_totalPages (ceil_div (GoInt.len lines) (linesPerPage m))
    (set_content lines
       (set_chapterIndex index
          (set_currentChapter (Some ch) (set_loading false m)))).

(** The case [chapterLoadedMsg] of [Update] returns: the chapter is
    formatted and paged, the page is set by [setPagePosition], and the
    progress is saved. *)
Lemma chapterLoaded_returns (now : string) (m : ReaderModel) (ch : Api.Chapter)
  (index : Z) :
  1 <= linesPerPage m <= 2 ^ 62 -> 0 <= index ->
  GoInt.len (chapterLines ch (termWidth m)) < 2 ^ 53 ->
  exists page cfg,
    Update UnescapeString Render indefinite now m (chapterLoadedMsg ch index)
    = Some (ReaderM
              (set_config cfg
                 (setPagePosition indefinite
                    (set_currentPage page (arrived m ch index)))),
            cmd_nil)
    /\ 1 <= totalPages (arrived m ch index) <= GoInt.len (content (arrived m ch index))
    /\ 1 <= GoInt.len (content (arrived m ch index)).
Proof.
  intros Hp Hi HL. cbn [Update].
  set (m0 := set_chapterIndex index
               (set_currentChapter (Some ch) (set_loading false m))).
  destruct (updateContent_loaded m0 ch eq_refl Hp HL) as (U & L1 & B).
  cbn zeta in U. rewrite U.
  change (set_totalPages _ (set_content _ m0)) with (arrived m ch index).
  change (termWidth m0) with (termWidth m) in *.
  change (linesPerPage m0) with (linesPerPage m) in *.
  assert (E : exists page,
             (if currentPage m0 >=?
                   ceil_div (GoInt.len (chapterLines ch (termWidth m))) (linesPerPage m)
              then set_currentPage
                     (Z.max 0 (ceil_div (GoInt.len (chapterLines ch (termWidth m)))
                                        (linesPerPage m) - 1))
                     (arrived m ch index)
              else arrived m ch index)
             = set_currentPage page (arrived m ch index)).
  { match goal with |- context [if ?c then _ else _] => destruct c end.
    - eexists. reflexivity.
    - exists (currentPage m). destruct m; reflexivity. }
  destruct E as (page & ->).
  set (m2 := setPagePosition indefinite (set_currentPage page (arrived m ch index))).
  assert (Hc : 0 <= chapterIndex m2).
  { unfold m2, setPagePosition.
    repeat match goal with |- context [if ?c then _ else _] => destruct c end;
      exact Hi. }
  destruct (saveReadingProgress_returns now m2 Hc) as (cfg & ->).
  exists page, cfg. cbn [option_map]. split; [reflexivity|].
  split; assumption.
Qed.

Definition Inv_model (model : Model) : Prop :=
  match model with
  | ReaderM m => Inv m
  | MenuM => True
  end.

(** A change of the reader that keeps the lines, the page height, the page
    count, the chapter and the saved fraction keeps the invariant, if the
    chapter index stays an index and the page stays a page. *)
Lemma Inv_update (m m' : ReaderModel) :
  Inv m ->
  linesPerPage m' = linesPerPage m ->
  content m' = content m ->
  totalPages m' = totalPages m ->
  currentChapter m' = currentChapter m ->
  savedChapterProgress m' = savedChapterProgress m ->
  0 <= chapterIndex m' <= GoInt.max_int ->
  (loaded m -> 0 <= currentPage m < totalPages m ->
   0 <= currentPage m' < totalPages m) ->
  Inv m'.
Proof.
  intros [(Hp & Hc & Hf) HL] Ep Ec Et Eh Es Hi Hpage.
  split.
  - unfold wf. rewrite Ep, Es. auto.
  - unfold loaded, pagination in *. rewrite Eh, Ec, Ep, Et. intros L.
    destruct (HL L) as (B & Ht & Hcp).
    split; [exact B|]. split; [exact Ht|]. now apply Hpage.
Qed.

(** Once loaded, the page count is the line count at most. *)
Lemma Inv_pages (m : ReaderModel) :
  Inv m -> loaded m -> 1 <= totalPages m < 2 ^ 53.
Proof.
  intros [(Hp & _) HL] L. destruct (HL L) as (B & Ht & _).
  pose proof (ceil_div_bounds _ (linesPerPage m) (proj1 B) (proj1 Hp)).
  rewrite Ht. lia.
Qed.

Lemma keyUpdate_keeps_Inv (now key : string) (m : ReaderModel) :
  Inv m ->
  exists model cmd, keyUpdate now key m = Some (model, cmd) /\ Inv_model model.
Proof.
  intros I. pose proof I as [(Hp & Hc & Hf) HL].
  unfold keyUpdate.
  destruct (is_key key ["ctrl+c"; "q"]).
  { destruct (saveReadingProgress_returns now m (proj1 Hc)) as (cfg & ->).
    do 2 eexists. split; [reflexivity|]. cbn [Inv_model].
    apply (Inv_update m); fields; auto. }
  destruct (is_key key ["m"]).
  { destruct (saveReadingProgress_returns now m (proj1 Hc)) as (cfg & ->).
    do 2 eexists. split; [reflexivity|exact Logic.I]. }
  destruct (is_key key ["?"]).
  { do 2 eexists. split; [reflexivity|]. apply (Inv_update m); fields; auto. }
  destruct (is_key key ["t"]).
  { do 2 eexists. split; [reflexivity|]. cbn [Inv_model].
    destruct (fiction m); [apply (Inv_update m); fields; auto|exact I]. }
  destruct (is_key key ["n"; "b"]).
  { unfold nextChapterKey. destruct (fiction m) as [f|];
      [|do 2 eexists; split; [reflexivity|exact I]].
    destruct (Z.ltb_spec (chapterIndex m) (GoInt.sub (GoInt.len (Api.Chapters f)) 1))
      as [Lt|_]; [|do 2 eexists; split; [reflexivity|exact I]].
    pose proof (GoIntFacts.wrap_is_in_range (GoInt.len (Api.Chapters f) - 1)) as R.
    unfold GoInt.sub in Lt. unfold GoInt.in_range in R.
    do 2 eexists. split; [reflexivity|].
    apply (Inv_update m); fields; auto. unwrap. lia. }
  destruct (is_key key ["p"]).
  { unfold prevChapterKey. destruct (fiction m) as [f|];
      [|do 2 eexists; split; [reflexivity|exact I]].
    destruct (Z.gtb_spec (chapterIndex m) 0) as [Gt|_];
      [|do 2 eexists; split; [reflexivity|exact I]].
    do 2 eexists. split; [reflexivity|].
    apply (Inv_update m); fields; auto. unwrap. lia. }
  destruct (is_key key [" "; "f"; "down"; "j"; "right"; "l"]).
  { unfold nextPageKey.
    destruct (Z.ltb_spec (currentPage m) (GoInt.sub (totalPages m) 1)) as [Lt|_].
    - do 2 eexists. split; [reflexivity|].
      apply (Inv_update m); fields; auto.
      intros L Hcp. pose proof (Inv_pages m I L) as B.
      unwrap_in Lt. unwrap. lia.
    - destruct (fiction m) as [f|];
        [|do 2 eexists; split; [reflexivity|exact I]].
      destruct (Z.ltb_spec (chapterIndex m) (GoInt.sub (GoInt.len (Api.Chapters f)) 1))
        as [Lt|_]; [|do 2 eexists; split; [reflexivity|exact I]].
      pose proof (GoIntFacts.wrap_is_in_range (GoInt.len (Api.Chapters f) - 1)) as R.
      unfold GoInt.sub in Lt. unfold GoInt.in_range in R.
      do 2 eexists. split; [reflexivity|].
      apply (Inv_update m); fields; auto. unwrap. lia. }
  destruct (is_key key ["up"; "k"; "left"; "h"]).
  { unfold prevPageKey.
    destruct (Z.gtb_spec (currentPage m) 0) as [Gt|_].
    - do 2 eexists. split; [reflexivity|].
      apply (Inv_update m); fields; auto.
      intros L Hcp. pose proof (Inv_pages m I L) as B. unwrap. lia.
    - destruct (fiction m) as [f|];
        [|do 2 eexists; split; [reflexivity|exact I]].
      destruct (Z.gtb_spec (chapterIndex m) 0) as [Gt|_];
        [|do 2 eexists; split; [reflexivity|exact I]].
      do 2 eexists. split; [reflexivity|].
      apply (Inv_update m); fields; auto. unwrap. lia. }
  destruct (is_key key ["g"; "home"]).
  { do 2 eexists. split; [reflexivity|].
    apply (Inv_update m); fields; auto. lia. }
  destruct (is_key key ["G"; "end"]).
  { do 2 eexists. split; [reflexivity|]. cbn [Inv_model].
    destruct (Z.gtb_spec (totalPages m) 0) as [Gt|_]; [|exact I].
    apply (Inv_update m); fields; auto.
    intros L Hcp. pose proof (Inv_pages m I L) as B. unwrap. lia. }
  destruct (is_key key ["r"]).
  { do 2 eexists. split; [reflexivity|]. apply (Inv_update m); fields; auto. }
  destruct (is_key key ["0"; "1"; "2"; "3"; "4"; "5"; "6"; "7"; "8"; "9"]).
  { unfold digitKey. destruct (showTOC m);
      [|do 2 eexists; split; [reflexivity|exact I]].
    destruct (fiction m) as [f|];
      [|do 2 eexists; split; [reflexivity|exact I]].
    destruct (GoStrings.Atoi key) as [chapterNum|] eqn:A;
      [|do 2 eexists; split; [reflexivity|exact I]].
    destruct (Z.geb_spec chapterNum 1) as [G1|_]; cbn [andb];
      [|do 2 eexists; split; [reflexivity|exact I]].
    destruct (chapterNum <=? GoInt.len (Api.Chapters f));
      [|do 2 eexists; split; [reflexivity|exact I]].
    pose proof (GoStringsFacts.Atoi_in_range _ _ A) as R.
    unfold GoInt.in_range in R.
    do 2 eexists. split; [reflexivity|].
    apply (Inv_update m); fields; auto. unwrap. unfold GoInt.max_int in *. lia. }
  do 2 eexists. split; [reflexivity|exact I].
Qed.

(** Every message keeps the invariant, and [Update] returns. *)
Lemma Update_keeps_Inv (now : string) (m : ReaderModel) (msg : Msg) :
  Inv m -> msg_ok m msg ->
  exists model cmd,
    Update UnescapeString Render indefinite now m msg = Some (model, cmd)
    /\ Inv_model model.
Proof.
  intros I OK. pose proof I as [(Hp & Hc & Hf) HL].
  destruct msg as [W H|key|f|ch index|e|].
  - (* resize *)
    destruct OK as [HH Hlines]. cbn [Update].
    set (m1 := set_ready true
                 (set_linesPerPage (GoInt.max (GoInt.sub (GoInt.sub H 4) 1) 10)
                    (set_termHeight H (set_termWidth W m)))).
    assert (Hp1 : 1 <= linesPerPage m1 <= 2 ^ 62).
    { unfold m1. fields. rewrite GoIntFacts.max_spec. unwrap. lia. }
    change (currentChapter m1) with (currentChapter m).
    destruct (currentChapter m) as [ch|] eqn:C.
    + assert (C1 : currentChapter m1 = Some ch) by exact C.
      assert (L1 : GoInt.len (chapterLines ch (termWidth m1)) < 2 ^ 53)
        by (apply Hlines; reflexivity).
      destruct (updateContent_loaded m1 ch C1 Hp1 L1) as (U & B1 & B2).
      cbn zeta in U. rewrite U. cbn [option_map].
      do 2 eexists. split; [reflexivity|]. cbn [Inv_model].
      assert (Lm : loaded m) by (unfold loaded; rewrite C; discriminate).
      destruct (HL Lm) as (_ & _ & Hcp).
      set (pages := ceil_div (GoInt.len (chapterLines ch (termWidth m1)))
                             (linesPerPage m1)) in *.
      destruct (Z.geb_spec (currentPage m1) pages) as [Ge|Lt].
      * split; [split; [exact Hp1|split; assumption]|].
        intros _. fields. split; [lia|]. unfold pagination. fields. lia.
      * split; [split; [exact Hp1|split; assumption]|].
        intros _. fields. split; [lia|]. unfold pagination. fields.
        change (currentPage m1) with (currentPage m) in *. lia.
    + do 2 eexists. split; [reflexivity|]. cbn [Inv_model].
      split; [split; [exact Hp1|split; assumption]|].
      intros L. exfalso. apply L. exact C.
  - apply keyUpdate_keeps_Inv. exact I.
  - (* the fiction has arrived *)
    cbn [Update].
    destruct (GoInt.len (Api.Chapters f) >? 0);
      do 2 eexists; (split; [reflexivity|]); apply (Inv_update m); fields; auto.
  - (* a chapter has arrived *)
    destruct OK as [Hi Hlines].
    destruct (chapterLoaded_returns now m ch index Hp (proj1 Hi) Hlines)
      as (page & cfg & -> & Bp & Bl).
    do 2 eexists. split; [reflexivity|]. cbn [Inv_model].
    set (m1 := set_currentPage page (arrived m ch index)) in *.
    assert (Hl53 : GoInt.len (content (arrived m ch index)) < 2 ^ 53) by exact Hlines.
    assert (Ht : 1 <= totalPages m1 < 2 ^ 53) by (unfold m1; fields; lia).
    destruct (setPagePosition_lands m1 Ht Hf) as (page' & f' & -> & Bp' & Bf).
    subst m1. unfold arrived in *.
    fields_in Bp. fields_in Bl. fields_in Bp'. fields_in Hl53.
    split.
    + unfold wf. fields. auto.
    + intros _. unfold pagination. fields. lia.
  - do 2 eexists. split; [reflexivity|]. apply (Inv_update m); fields; auto.
  - do 2 eexists. split; [reflexivity|exact I].
Qed.

(** The saved fractions of a configuration are not above 1. *)
Definition history_ok (cfg : Config.Config) : Prop :=
  Forall (fun e => PrimFloat.ltb 1%float (Config.ChapterProgress e) = false)
         (Config.ReadingHistory cfg).

Lemma restore_from_wf (history : list Config.ReadingEntry) (m : ReaderModel) :
  Forall (fun e => PrimFloat.ltb 1%float (Config.ChapterProgress e) = false) history ->
  wf m -> currentChapter m = None ->
  wf (restore_from history m) /\ currentChapter (restore_from history m) = None.
Proof.
  intros F W C. induction F as [|e history He F IH]; cbn [restore_from]; [auto|].
  destruct (String.eqb (Config.FictionID e) (fictionID m)); [|exact IH].
  destruct W as (Hp & Hc & Hf).
  repeat match goal with |- context [if ?c then _ else _] => destruct c end;
    unfold wf; fields; auto.
Qed.

(** A new reader, after [Init], satisfies the invariant. *)
Lemma Init_Inv (termSize : Z * Z) (cfg : Config.Config) (id : string) :
  - 2 ^ 62 <= snd termSize <= 2 ^ 62 -> history_ok cfg ->
  Inv (fst (Init (NewReaderModel termSize cfg id))).
Proof.
  destruct termSize as [w h]. cbn [snd]. intros Hh Hcfg.
  cbn [Init fst]. unfold restoreReadingPosition.
  assert (W : wf (NewReaderModel (w, h) cfg id)).
  { unfold wf, NewReaderModel. fields. rewrite GoIntFacts.max_spec. unwrap.
    split; [lia|]. split; [unfold GoInt.max_int; lia|reflexivity]. }
  change (config (NewReaderModel (w, h) cfg id)) with (Some cfg).
  destruct (restore_from_wf _ _ Hcfg W eq_refl) as [W' C'].
  split; [exact W'|]. intros L. exfalso. apply L. exact C'.
Qed.

(** C3, amended.  A new reader satisfies the invariant; every message keeps
    it and [Update] returns; and under the invariant, once a chapter is
    loaded, the page count is max(1, ceil(L / linesPerPage)) for the [L]
    lines of the content and the current page is one of the pages. *)
Theorem pagination_once_loaded :
  (forall termSize cfg id,
      - 2 ^ 62 <= snd termSize <= 2 ^ 62 -> history_ok cfg ->
      Inv (fst (Init (NewReaderModel termSize cfg id))))
  /\ (forall now m msg,
        Inv m -> msg_ok m msg ->
        exists model cmd,
          Update UnescapeString Render indefinite now m msg = Some (model, cmd)
          /\ forall m', model = ReaderM m' ->
               Inv m'
               /\ (currentChapter m' <> None ->
                   0 < linesPerPage m'
                   /\ totalPages m'
                      = Z.max 1 (ceil_div (GoInt.len (content m')) (linesPerPage m'))
                   /\ 0 <= currentPage m' < totalPages m')).
Proof.
  split; [exact Init_Inv|].
  intros now m msg I OK.
  destruct (Update_keeps_Inv now m msg I OK) as (model & cmd & U & IM).
  exists model, cmd. split; [exact U|].
  intros m' ->. cbn [Inv_model] in IM. split; [exact IM|].
  intros L. destruct IM as [(Hp & _) HL]. destruct (HL L) as (_ & Ht & Hcp).
  split; [lia|]. split; assumption.
Qed.

(** *** Turning pages across chapters *)

Definition next_page_keys : list string := [" "; "f"; "down"; "j"; "right"; "l"].
Definition prev_page_keys : list string := ["up"; "k"; "left"; "h"].

Lemma is_key_In (key : string) (names : list string) :
  is_key key names = true -> In key names.
Proof.
  unfold is_key. intros H. apply existsb_exists in H.
  destruct H as (x & Hx & E). apply String.eqb_eq in E. now subst.
Qed.

Lemma next_page_dispatch (now key : string) (m : ReaderModel) :
  is_key key next_page_keys = true ->
  Update UnescapeString Render indefinite now m (KeyMsg key) = Some (nextPageKey m).
Proof.
  intros H. apply is_key_In in H. cbn [Update].
  repeat (destruct H as [<-|H]; [reflexivity|]). contradiction.
Qed.

Lemma prev_page_dispatch (now key : string) (m : ReaderModel) :
  is_key key prev_page_keys = true ->
  Update UnescapeString Render indefinite now m (KeyMsg key) = Some (prevPageKey m).
Proof.
  intros H. apply is_key_In in H. cbn [Update].
  repeat (destruct H as [<-|H]; [reflexivity|]). contradiction.
Qed.

(** What the arrival of a chapter leaves of the reader, whatever the
    landing page. *)
Lemma chapterLoaded_chapter (now : string) (m : ReaderModel) (ch : Api.Chapter)
  (index : Z) :
  1 <= linesPerPage m <= 2 ^ 62 -> 0 <= index ->
  GoInt.len (chapterLines ch (termWidth m)) < 2 ^ 53 ->
  exists page cfg,
    Update UnescapeString Render indefinite now m (chapterLoadedMsg ch index)
    = Some (ReaderM
              (set_config cfg
                 (setPagePosition indefinite
                    (set_currentPage page (arrived m ch index)))),
            cmd_nil)
    /\ 1 <= ceil_div (GoInt.len (chapterLines ch (termWidth m))) (linesPerPage m)
       < 2 ^ 53.
Proof.
  intros Hp Hi HL.
  destruct (chapterLoaded_returns now m ch index Hp Hi HL) as (page & cfg & U & B & _).
  exists page, cfg. split; [exact U|].
  unfold arrived in B. fields_in B. lia.
Qed.


(** The next-page key on the last page.  On a reader that satisfies the
    invariant and shows the last page of a chapter, the key on a chapter
    that is not the last one moves to the next chapter index and asks for
    that chapter; when the chapter arrives at a reader that has neither
    the go-to-last-page flag set nor a saved fraction, the reader is on
    page 0 of it.  On the last chapter the key changes nothing. *)
Theorem advance_at_last_page (now key : string) (m : ReaderModel) :
  is_key key next_page_keys = true ->
  Inv m -> currentChapter m <> None ->
  currentPage m = totalPages m - 1 ->
  (forall f,
      fiction m = Some f ->
      GoInt.len (Api.Chapters f) <= GoInt.max_int ->
      chapterIndex m < GoInt.len (Api.Chapters f) - 1 ->
      let m1 := set_loading true (set_chapterIndex (chapterIndex m + 1) m) in
      Update UnescapeString Render indefinite now m (KeyMsg key)
      = Some (ReaderM m1, cmd_loadChapter (chapterIndex m + 1))
      /\ forall now' ch,
           GoInt.len (chapterLines ch (termWidth m)) < 2 ^ 53 ->
           goToLastPage m = false ->
           PrimFloat.ltb 0%float (savedChapterProgress m) = false ->
           exists m2,
             Update UnescapeString Render indefinite now' m1
               (chapterLoadedMsg ch (chapterIndex m + 1))
             = Some (ReaderM m2, cmd_nil)
             /\ chapterIndex m2 = chapterIndex m + 1
             /\ currentChapter m2 = Some ch
             /\ currentPage m2 = 0)
  /\ (forall f,
        fiction m = Some f ->
        GoInt.len (Api.Chapters f) <= GoInt.max_int ->
        GoInt.len (Api.Chapters f) - 1 <= chapterIndex m ->
        Update UnescapeString Render indefinite now m (KeyMsg key)
        = Some (ReaderM m, cmd_nil)).
Proof.
  intros K I L Hlast. rewrite (next_page_dispatch now key m K).
  pose proof (Inv_pages m I L) as Bt. pose proof I as [(Hp & Hc & Hf) _].
  unfold nextPageKey.
  destruct (Z.ltb_spec (currentPage m) (GoInt.sub (totalPages m) 1)) as [Lt|_];
    [unwrap_in Lt; lia|].
  split.
  - intros f Ef Hlen Hidx.
    set (m1 := set_loading true (set_chapterIndex (chapterIndex m + 1) m)).
    rewrite Ef.
    pose proof (GoIntFacts.len_nonneg (Api.Chapters f)) as LN.
    destruct (Z.ltb_spec (chapterIndex m) (GoInt.sub (GoInt.len (Api.Chapters f)) 1))
      as [_|Ge]; [|unwrap_in Ge; lia].
    fields. unwrap. split; [reflexivity|].
    intros now' ch HL G F0.
    destruct (chapterLoaded_chapter now' m1 ch (chapterIndex m + 1) Hp
                ltac:(lia) HL) as (page & cfg & U & B).
    rewrite setPagePosition_first in U by assumption.
    eexists. split; [exact U|]. fields. auto.
  - intros f Ef Hlen Hidx. rewrite Ef.
    pose proof (GoIntFacts.len_nonneg (Api.Chapters f)) as LN.
    destruct (Z.ltb_spec (chapterIndex m) (GoInt.sub (GoInt.len (Api.Chapters f)) 1))
      as [Lt|_]; [unwrap_in Lt; lia|reflexivity].
Qed.

(** C6.  On page 0, a previous-page key on a chapter that is not the first
    one moves to the previous chapter index, sets the go-to-last-page flag
    and asks for that chapter; when the chapter arrives, the reader is on
    its last page.  On the first chapter the key changes nothing. *)
Theorem retreat_at_first_page (now key : string) (m : ReaderModel) :
  is_key key prev_page_keys = true ->
  currentPage m = 0 ->
  (forall f,
      fiction m = Some f ->
      0 < chapterIndex m <= GoInt.max_int ->
      let m1 := set_goToLastPage true
                  (set_loading true (set_chapterIndex (chapterIndex m - 1) m)) in
      Update UnescapeString Render indefinite now m (KeyMsg key)
      = Some (ReaderM m1, cmd_loadChapter (chapterIndex m - 1))
      /\ forall now' ch,
           1 <= linesPerPage m <= 2 ^ 62 ->
           GoInt.len (chapterLines ch (termWidth m)) < 2 ^ 53 ->
           exists m2,
             Update UnescapeString Render indefinite now' m1
               (chapterLoadedMsg ch (chapterIndex m - 1))
             = Some (ReaderM m2, cmd_nil)
             /\ chapterIndex m2 = chapterIndex m - 1
             /\ currentChapter m2 = Some ch
             /\ content m2 = chapterLines ch (termWidth m)
             /\ totalPages m2 = ceil_div (GoInt.len (content m2)) (linesPerPage m)
             /\ currentPage m2 = totalPages m2 - 1
             /\ goToLastPage m2 = false)
  /\ (chapterIndex m <= 0 ->
      Update UnescapeString Render indefinite now m (KeyMsg key)
      = Some (ReaderM m, cmd_nil)).
Proof.
  intros K Hp0. rewrite (prev_page_dispatch now key m K).
  unfold prevPageKey.
  destruct (Z.gtb_spec (currentPage m) 0) as [Gt|_]; [lia|].
  split.
  - intros f Ef Hidx.
    set (m1 := set_goToLastPage true
                 (set_loading true (set_chapterIndex (chapterIndex m - 1) m))).
    rewrite Ef.
    destruct (Z.gtb_spec (chapterIndex m) 0) as [_|Le]; [|lia].
    fields. unwrap. split; [reflexivity|].
    intros now' ch Hp HL.
    destruct (chapterLoaded_chapter now' m1 ch (chapterIndex m - 1) Hp
                ltac:(lia) HL) as (page & cfg & U & B).
    rewrite setPagePosition_last in U
      by (try reflexivity; unfold arrived; fields; unfold GoInt.max_int; lia).
    eexists. split; [exact U|]. unfold arrived. fields. auto 10.
  - intros Hidx.
    destruct (fiction m); [|reflexivity].
    destruct (Z.gtb_spec (chapterIndex m) 0) as [Gt|_]; [lia|reflexivity].
Qed.

End Machine.

(** *** Closed examples *)

Ltac by_computation :=
  vm_compute; first [reflexivity | discriminate | (intro; discriminate)].

(** [Update] for the examples. *)
Definition sample_Update :=
  Update (T := Fixtures.linear_time)
    Fixtures.no_entities Fixtures.no_style Fixtures.amd64_indefinite.

(** C3, as stated, fails: a resize before any chapter is loaded leaves a
    positive page height with 0 pages and the current page 0, which is not
    below the page count. *)
Lemma pagination_fails_before_first_chapter :
  exists m',
    sample_Update "2024-05-01 10:00" Fixtures.fresh_reader (WindowSizeMsg 100 40)
    = Some (ReaderM m', cmd_nil)
    /\ 0 < linesPerPage m'
    /\ ~ (totalPages m'
          = Z.max 1 (ceil_div (GoInt.len (content m')) (linesPerPage m'))
          /\ 0 <= currentPage m' < totalPages m').
Proof.
  eexists. split; [reflexivity|]. split; [by_computation|].
  intros [H _]. vm_compute in H. discriminate.
Qed.

(** A chapter of 12 sentences arrives at a fresh reader: 23 lines on pages
    of 19 lines. *)
Lemma pagination_once_loaded_witness :
  let msg := chapterLoadedMsg (T := Fixtures.linear_time) (Fixtures.sample_chapter 12) 0 in
  (- 2 ^ 62 <= snd (80, 24) <= 2 ^ 62)
  /\ history_ok Config.DefaultConfig
  /\ msg_ok Fixtures.no_entities Fixtures.no_style Fixtures.fresh_reader msg
  /\ exists model cmd,
       sample_Update "2024-05-01 10:00" Fixtures.fresh_reader msg = Some (model, cmd)
       /\ forall m', model = ReaderM m' ->
            currentChapter m' <> None ->
            totalPages m'
            = Z.max 1 (ceil_div (GoInt.len (content m')) (linesPerPage m'))
            /\ 0 <= currentPage m' < totalPages m'.
Proof.
  intros msg.
  assert (H1 : - 2 ^ 62 <= snd (80, 24) <= 2 ^ 62) by (cbn [snd]; lia).
  assert (H2 : history_ok Config.DefaultConfig) by constructor.
  assert (H3 : msg_ok Fixtures.no_entities Fixtures.no_style Fixtures.fresh_reader msg).
  { split; [split; by_computation|by_computation]. }
  split; [exact H1|]. split; [exact H2|]. split; [exact H3|].
  destruct (pagination_once_loaded (T := Fixtures.linear_time)
              Fixtures.no_entities Fixtures.no_style Fixtures.amd64_indefinite)
    as [HInit HStep].
  pose proof (HInit (80, 24) Config.DefaultConfig "7" H1 H2) as I0.
  destruct (HStep "2024-05-01 10:00" Fixtures.fresh_reader msg I0 H3)
    as (model & cmd & U & K).
  exists model, cmd. split; [exact U|].
  intros m' E L. destruct (K m' E) as [_ P]. destruct (P L) as (_ & Ht & Hc).
  split; assumption.
Defined.


(** The messages that leave the go-to-last-page flag set: chapter 1 is
    shown, a previous-page key asks for chapter 0, the load fails, and a
    next-page key reaches the last page of the lines that are shown. *)
Definition failed_retreat : list (Msg (T := Fixtures.linear_time)) :=
  [fictionLoadedMsg Fixtures.sample_fiction;
   chapterLoadedMsg (Fixtures.sample_chapter 1) 0;
   KeyMsg "n";
   chapterLoadedMsg (Fixtures.sample_chapter 12) 1;
   KeyMsg "up";
   errorMsg "request timed out";
   KeyMsg "right"].

(** C5, on the code: a failing run.  A previous-page key on page 0 sets
    the go-to-last-page flag and lowers the chapter index; the load of
    that chapter fails, and the case [errorMsg] of [Update] leaves both as
    they are.  The reader is then on the last page (page 1 of 2) of
    chapter index 0 of 2; a next-page key moves to chapter index 1, and
    when that chapter arrives the reader is on its last page, page 1, not
    on page 0. *)
Lemma advance_lands_on_last_page_after_failed_retreat :
  let m := Fixtures.after failed_retreat in
  Fixtures.play "2024-05-01 10:00" Fixtures.fresh_reader failed_retreat = Some m
  /\ option_map (fun f => GoInt.len (Api.Chapters f)) (fiction m) = Some 2
  /\ chapterIndex m = 0
  /\ currentPage m = totalPages m - 1
  /\ exists m1 m2,
       sample_Update "2024-05-01 10:01" m (KeyMsg "right")
       = Some (ReaderM m1, cmd_loadChapter 1)
       /\ sample_Update "2024-05-01 10:02" m1
            (chapterLoadedMsg (Fixtures.sample_chapter 12) 1)
          = Some (ReaderM m2, cmd_nil)
       /\ chapterIndex m2 = 1
       /\ totalPages m2 = 2
       /\ currentPage m2 = 1
       /\ currentPage m2 <> 0.
Proof.
  intros m. split; [by_computation|]. split; [by_computation|].
  split; [by_computation|]. split; [by_computation|].
  eexists. eexists. split; [vm_compute; reflexivity|].
  split; [vm_compute; reflexivity|].
  split; [reflexivity|]. split; [reflexivity|]. split; [reflexivity|].
  cbn. discriminate.
Qed.

(** The last (and only) page of chapter index 0 of 2, with no directive
    pending. *)
Lemma advance_at_last_page_witness :
  let m := Fixtures.after [fictionLoadedMsg Fixtures.sample_fiction;
                           chapterLoadedMsg (Fixtures.sample_chapter 1) 0] in
  let ch := Fixtures.sample_chapter 12 in
  is_key "right" next_page_keys = true
  /\ Inv m
  /\ currentChapter m <> None
  /\ currentPage m = totalPages m - 1
  /\ fiction m = Some Fixtures.sample_fiction
  /\ chapterIndex m < GoInt.len (Api.Chapters Fixtures.sample_fiction) - 1
  /\ goToLastPage m = false
  /\ PrimFloat.ltb 0%float (savedChapterProgress m) = false
  /\ exists m1 m2,
       sample_Update "2024-05-01 10:01" m (KeyMsg "right")
       = Some (ReaderM m1, cmd_loadChapter (chapterIndex m + 1))
       /\ sample_Update "2024-05-01 10:02" m1
            (chapterLoadedMsg ch (chapterIndex m + 1))
          = Some (ReaderM m2, cmd_nil)
       /\ chapterIndex m2 = chapterIndex m + 1
       /\ currentPage m2 = 0.
Proof.
  intros m ch.
  assert (K : is_key "right" next_page_keys = true) by reflexivity.
  assert (I : Inv m).
  { split; [split; [split; by_computation|split; [split; by_computation|reflexivity]]|].
    intros _. split; [split; by_computation|].
    split; [by_computation|split; by_computation]. }
  assert (L : currentChapter m <> None) by (vm_compute; discriminate).
  assert (P : currentPage m = totalPages m - 1) by reflexivity.
  assert (F : fiction m = Some Fixtures.sample_fiction) by reflexivity.
  assert (X : chapterIndex m < GoInt.len (Api.Chapters Fixtures.sample_fiction) - 1)
    by by_computation.
  assert (G : goToLastPage m = false) by reflexivity.
  assert (S0 : PrimFloat.ltb 0%float (savedChapterProgress m) = false) by reflexivity.
  repeat (split; [assumption|]).
  destruct (advance_at_last_page (T := Fixtures.linear_time)
              Fixtures.no_entities Fixtures.no_style Fixtures.amd64_indefinite
              "2024-05-01 10:01" "right" m K I L P) as [Adv _].
  destruct (Adv Fixtures.sample_fiction F ltac:(by_computation) X) as [U Land].
  assert (HL : GoInt.len (chapterLines Fixtures.no_entities Fixtures.no_style ch
                            (termWidth m)) < 2 ^ 53) by by_computation.
  destruct (Land "2024-05-01 10:02" ch HL G S0) as (m2 & U2 & C2 & _ & P2).
  eexists. exists m2. split; [exact U|]. split; [exact U2|]. split; assumption.
Defined.

(** Page 0 of chapter index 1 of 2: a previous-page key, and the arrival
    of a chapter of 2 pages. *)
Lemma retreat_at_first_page_witness :
  let m := Fixtures.after [fictionLoadedMsg Fixtures.sample_fiction;
                           chapterLoadedMsg (Fixtures.sample_chapter 1) 0;
                           KeyMsg "n";
                           chapterLoadedMsg (Fixtures.sample_chapter 1) 1] in
  let ch := Fixtures.sample_chapter 12 in
  is_key "left" prev_page_keys = true
  /\ currentPage m = 0
  /\ fiction m = Some Fixtures.sample_fiction
  /\ 0 < chapterIndex m <= GoInt.max_int
  /\ exists m1 m2,
       sample_Update "2024-05-01 10:01" m (KeyMsg "left")
       = Some (ReaderM m1, cmd_loadChapter (chapterIndex m - 1))
       /\ sample_Update "2024-05-01 10:02" m1
            (chapterLoadedMsg ch (chapterIndex m - 1))
          = Some (ReaderM m2, cmd_nil)
       /\ chapterIndex m2 = chapterIndex m - 1
       /\ currentPage m2 = totalPages m2 - 1.
Proof.
  intros m ch.
  assert (K : is_key "left" prev_page_keys = true) by reflexivity.
  assert (P : currentPage m = 0) by reflexivity.
  assert (F : fiction m = Some Fixtures.sample_fiction) by reflexivity.
  assert (X : 0 < chapterIndex m <= GoInt.max_int) by (split; by_computation).
  repeat (split; [assumption|]).
  destruct (retreat_at_first_page (T := Fixtures.linear_time)
              Fixtures.no_entities Fixtures.no_style Fixtures.amd64_indefinite
              "2024-05-01 10:01" "left" m K P) as [Ret _].
  destruct (Ret Fixtures.sample_fiction F X) as [U Land].
  assert (Hp : 1 <= linesPerPage m <= 2 ^ 62) by (split; by_computation).
  assert (HL : GoInt.len (chapterLines Fixtures.no_entities Fixtures.no_style ch
                            (termWidth m)) < 2 ^ 53) by by_computation.
  destruct (Land "2024-05-01 10:02" ch Hp HL) as (m2 & U2 & C2 & _ & _ & _ & P2 & _).
  eexists. exists m2. split; [exact U|]. split; [exact U2|]. split; assumption.
Defined.

End ReaderSpec.

(* ===================================================================== *)
(** * A reader for the closed examples *)
(* ===================================================================== *)

Module Examples.
Import Reader ReaderSpec.

(** The reader of the examples: the first chapter of the fiction of two
    chapters has arrived, 23 lines on 2 pages of 19 lines. *)
Definition reading : ReaderModel (T := Fixtures.linear_time) :=
  Eval vm_compute in
    Fixtures.after [fictionLoadedMsg Fixtures.sample_fiction;
                    chapterLoadedMsg (Fixtures.sample_chapter 12) 0].

Lemma reading_Inv : Inv reading.
Proof.
  split; [split; [split; by_computation|split; [split; by_computation|reflexivity]]|].
  intros _. split; [split; by_computation|].
  split; [by_computation|split; by_computation].
Qed.

Lemma reading_loaded : currentChapter reading <> None.
Proof. vm_compute. discriminate. Qed.

Definition sample_noContent (progress : float) : string := "No content available".
Definition sample_endOfChapter (page pages lines : Z) : string := "End of chapter".


(** The reader of the examples after the key [n]: it shows the second
    chapter. *)
Definition reading_second : ReaderModel (T := Fixtures.linear_time) :=
  Eval vm_compute in
    Fixtures.after [fictionLoadedMsg Fixtures.sample_fiction;
                    chapterLoadedMsg (Fixtures.sample_chapter 12) 0;
                    KeyMsg "n";
                    chapterLoadedMsg (Fixtures.sample_chapter 12) 1].

End Examples.

(* ===================================================================== *)
(** * Lists *)
(* ===================================================================== *)

Module ListFacts.

Lemma firstn_plus {A : Type} (a b : nat) (l : list A) :
  firstn (a + b) l = firstn a l ++ firstn b (skipn a l).
Proof.
  revert l. induction a as [|a IH]; intros l; [reflexivity|].
  destruct l as [|x l]; [cbn; now rewrite firstn_nil|].
  cbn [Nat.add firstn skipn app]. now rewrite IH.
Qed.

(** The first [t] chunks of [n] elements of a list, one behind the other. *)
Lemma concat_chunks {A : Type} (n t : nat) (l : list A) :
  List.concat (map (fun k => firstn n (skipn (k * n) l)) (seq 0 t)) = firstn (t * n) l.
Proof.
  induction t as [|t IH]; [reflexivity|].
  rewrite seq_S, map_app, concat_app, IH. cbn [map List.concat Nat.add].
  rewrite app_nil_r.
  replace (S t * n)%nat with (t * n + n)%nat by lia.
  now rewrite firstn_plus.
Qed.

Lemma In_firstn {A : Type} (n : nat) (l : list A) (x : A) :
  In x (firstn n l) -> In x l.
Proof.
  intros H. rewrite <- (firstn_skipn n l). apply in_or_app. now left.
Qed.

Lemma In_skipn {A : Type} (n : nat) (l : list A) (x : A) :
  In x (skipn n l) -> In x l.
Proof.
  intros H. rewrite <- (firstn_skipn n l). apply in_or_app. now right.
Qed.

(** [s[i] = x] touches index [i] only. *)
Lemma assign_firstn {A : Type} (l : list A) (i : nat) (x : A) :
  firstn i (Config.assign l i x) = firstn i l.
Proof.
  revert i. induction l as [|a l IH]; intros [|i]; cbn; try reflexivity.
  now rewrite IH.
Qed.

Lemma assign_skipn {A : Type} (l : list A) (i : nat) (x : A) :
  skipn (S i) (Config.assign l i x) = skipn (S i) l.
Proof.
  revert i. induction l as [|a l IH]; intros [|i]; try reflexivity.
  cbn [Config.assign]. rewrite !skipn_cons. apply IH.
Qed.

Lemma assign_same {A : Type} (l1 l2 : list A) (x : A) :
  Config.assign (l1 ++ x :: l2) (List.length l1) x = l1 ++ x :: l2.
Proof. induction l1 as [|a l1 IH]; cbn; [reflexivity | now rewrite IH]. Qed.

Lemma assign_split {A : Type} (l : list A) (i : nat) (x y : A) :
  nth_error l i = Some y ->
  Config.assign l i x = firstn i l ++ x :: skipn (S i) l.
Proof.
  revert i. induction l as [|a l IH]; intros [|i] H; try discriminate.
  - reflexivity.
  - cbn [Config.assign firstn app]. rewrite skipn_cons. f_equal. now apply IH.
Qed.

Lemma nth_error_split {A : Type} (l : list A) (i : nat) (y : A) :
  nth_error l i = Some y -> l = firstn i l ++ y :: skipn (S i) l.
Proof.
  revert i. induction l as [|a l IH]; intros [|i] H; try discriminate.
  - cbn in H. now injection H as ->.
  - cbn [firstn app]. rewrite skipn_cons. f_equal. now apply IH.
Qed.

End ListFacts.

(* ===================================================================== *)
(** * Strings: [strings.Split], [strings.Join] *)
(* ===================================================================== *)

Module StringFacts.
Import GoStrings.

Notation "a +++ b" := (String.append a b) (at level 60, right associativity).

Lemma sapp_nil_r (s : string) : s +++ "" = s.
Proof. induction s as [|c s IH]; cbn; [reflexivity | now rewrite IH]. Qed.

Lemma sapp_assoc (a b c : string) : (a +++ b) +++ c = a +++ (b +++ c).
Proof. induction a as [|x a IH]; cbn; [reflexivity | now rewrite IH]. Qed.

Lemma slength_app (a b : string) :
  String.length (a +++ b) = (String.length a + String.length b)%nat.
Proof. induction a as [|x a IH]; cbn; [reflexivity | now rewrite IH]. Qed.

Lemma rev_onto_app (a b acc : string) :
  rev_onto (a +++ b) acc = rev_onto b (rev_onto a acc).
Proof. revert acc. induction a as [|x a IH]; intros acc; cbn; [reflexivity | apply IH]. Qed.

Lemma rev_onto_spec (s acc : string) : rev_onto s acc = rev s +++ acc.
Proof.
  unfold rev. revert acc. induction s as [|x s IH]; intros acc; cbn; [reflexivity|].
  rewrite IH, (IH (String x "")), sapp_assoc. reflexivity.
Qed.

Lemma rev_onto_rev_onto (s a b : string) :
  rev_onto (rev_onto s a) b = rev_onto a (s +++ b).
Proof.
  revert a. induction s as [|x s IH]; intros a; cbn; [reflexivity|].
  now rewrite IH.
Qed.

Lemma rev_involutive (s : string) : rev (rev s) = s.
Proof. unfold rev. rewrite rev_onto_rev_onto. cbn. apply sapp_nil_r. Qed.

Lemma rev_app (a b : string) : rev (a +++ b) = rev b +++ rev a.
Proof.
  unfold rev at 1. rewrite rev_onto_app, rev_onto_spec. reflexivity.
Qed.

Lemma rev_length (s : string) : String.length (rev s) = String.length s.
Proof.
  unfold rev.
  assert (H : forall acc, String.length (rev_onto s acc)
                          = (String.length s + String.length acc)%nat).
  { induction s as [|x s IH]; intros acc; cbn; [reflexivity|].
    rewrite IH. cbn. lia. }
  rewrite H. cbn. lia.
Qed.

Lemma rev_empty (s : string) : rev s = "" -> s = "".
Proof.
  intros H. apply (f_equal String.length) in H. rewrite rev_length in H.
  destruct s; [reflexivity|discriminate].
Qed.

Lemma drop_app_length (a b : string) : drop (String.length a) (a +++ b) = b.
Proof. induction a as [|x a IH]; cbn; [now destruct b | exact IH]. Qed.

Lemma drop_drop (n k : nat) (s : string) : drop n (drop k s) = drop (k + n) s.
Proof.
  revert s. induction k as [|k IH]; intros s; [reflexivity|].
  destruct s as [|c s]; cbn; [now destruct n | apply IH].
Qed.

Lemma drop_length (n : nat) (s : string) :
  String.length (drop n s) = (String.length s - n)%nat.
Proof.
  revert s. induction n as [|n IH]; intros s; cbn; [lia|].
  destruct s as [|c s]; cbn; [reflexivity | apply IH].
Qed.

Lemma drop_nil (n : nat) : drop n "" = "".
Proof. now destruct n. Qed.

(** *** [strings.HasPrefix] *)

Lemma HasPrefix_app (s prefix : string) :
  HasPrefix s prefix = true <-> exists rest, s = prefix +++ rest.
Proof.
  revert s. induction prefix as [|p prefix IH]; intros s.
  - split; [intros _; now exists s | intros _; now destruct s].
  - destruct s as [|c s]; cbn.
    + split; [discriminate | intros (rest & H); discriminate].
    + rewrite andb_true_iff, IH. split.
      * intros (E & rest & ->). apply Ascii.eqb_eq in E. subst. now exists rest.
      * intros (rest & [= -> ->]). split; [apply Ascii.eqb_refl | now exists rest].
Qed.

(** *** [strings.Split] and [strings.Join] *)

Lemma split_go_skip (sep s : string) (k : nat) (cur : string) :
  split_go sep s k cur = split_go sep (drop k s) O cur.
Proof.
  revert k. induction s as [|c s IH]; intros k.
  - now rewrite drop_nil.
  - destruct k as [|k]; [reflexivity|]. cbn [split_go drop]. apply IH.
Qed.

Lemma Join_cons (e : string) (rest : list string) (sep : string) :
  rest <> [] -> Join (e :: rest) sep = e +++ sep +++ Join rest sep.
Proof. destruct rest; [contradiction|reflexivity]. Qed.

(** Joining the pieces with the separator gives back the string. *)
Lemma Join_split_go (sep : string) (n : nat) :
  sep <> "" ->
  forall s cur, (String.length s <= n)%nat ->
  Join (split_go sep s O cur) sep = rev cur +++ s.
Proof.
  intros NE. induction n as [|n IH]; intros s cur Hn.
  - destruct s; [|cbn in Hn; lia]. cbn. now rewrite sapp_nil_r.
  - destruct s as [|c s]; [cbn; now rewrite sapp_nil_r|].
    cbn [split_go].
    destruct (HasPrefix (String c s) sep) eqn:P.
    + rewrite Join_cons by apply ReaderSpec.split_go_nonempty.
      rewrite split_go_skip.
      apply HasPrefix_app in P. destruct P as (rest & P).
      destruct sep as [|c' sep']; [contradiction|].
      cbn in P. injection P as <- ->. cbn [String.length Nat.pred].
      rewrite drop_app_length.
      rewrite IH by (cbn in Hn; rewrite slength_app in Hn; lia).
      cbn. reflexivity.
    + rewrite IH by (cbn in Hn; lia).
      change (rev (String c cur)) with (rev_onto cur (String c "")).
      rewrite rev_onto_spec, sapp_assoc. reflexivity.
Qed.

Lemma Join_Split (s sep : string) : sep <> "" -> Join (Split s sep) sep = s.
Proof.
  intros NE. unfold Split.
  now rewrite (Join_split_go sep (String.length s) NE s "" (Nat.le_refl _)).
Qed.

Lemma HasPrefix_nil (s : string) : HasPrefix s "" = true.
Proof. now destruct s. Qed.

Lemma HasPrefix_byte (x c : ascii) (s : string) :
  HasPrefix (String x s) (String c "") = Ascii.eqb x c.
Proof. cbn. now rewrite HasPrefix_nil, andb_true_r. Qed.

(** Splitting at one byte. *)
Lemma split_go_byte_app (c : ascii) (a b cur : string) :
  split_go (String c "") (a +++ String c b) O cur
  = split_go (String c "") a O cur ++ split_go (String c "") b O "".
Proof.
  revert cur. induction a as [|x a IH]; intros cur.
  - cbn [String.append split_go]. rewrite HasPrefix_byte, Ascii.eqb_refl. reflexivity.
  - cbn [String.append split_go]. rewrite !HasPrefix_byte.
    destruct (Ascii.eqb x c); cbn [Nat.pred String.length app]; now rewrite IH.
Qed.

Lemma Split_byte_app (c : ascii) (a b : string) :
  Split (a +++ String c b) (String c "")
  = Split a (String c "") ++ Split b (String c "").
Proof. apply split_go_byte_app. Qed.

Definition has_byte (c : ascii) (s : string) : Prop :=
  In c (list_ascii_of_string s).

Lemma has_byte_app (c : ascii) (a b : string) :
  has_byte c (a +++ b) <-> has_byte c a \/ has_byte c b.
Proof.
  unfold has_byte. induction a as [|x a IH]; cbn; [tauto|]. rewrite IH. tauto.
Qed.

Lemma rev_cons (c : ascii) (s : string) : rev (String c s) = rev s +++ String c "".
Proof. unfold rev at 1. cbn [rev_onto]. apply rev_onto_spec. Qed.

Lemma split_go_no_byte (c : ascii) (s cur : string) :
  ~ has_byte c s -> split_go (String c "") s O cur = [rev cur +++ s].
Proof.
  revert cur. induction s as [|x s IH]; intros cur N.
  - cbn [split_go]. now rewrite sapp_nil_r.
  - cbn [split_go]. rewrite HasPrefix_byte.
    destruct (Ascii.eqb_spec x c) as [->|Ne].
    + exfalso. apply N. now left.
    + assert (N' : ~ has_byte c s) by (intros H; apply N; now right).
      rewrite (IH _ N'), rev_cons, sapp_assoc. reflexivity.
Qed.

Lemma Split_no_byte (c : ascii) (s : string) :
  ~ has_byte c s -> Split s (String c "") = [s].
Proof. intros N. unfold Split. now rewrite split_go_no_byte by exact N. Qed.

(** The pieces of a joined list, split at one byte that its elements do
    not have, are the elements. *)
Lemma Split_Join_byte (c : ascii) (l : list string) :
  l <> [] -> Forall (fun e => ~ has_byte c e) l ->
  Split (Join l (String c "")) (String c "") = l.
Proof.
  intros NE F. induction F as [|e l He F IH]; [contradiction|].
  destruct l as [|e' l].
  - cbn [Join]. now apply Split_no_byte.
  - rewrite Join_cons by discriminate.
    change (e +++ String c "" +++ Join (e' :: l) (String c ""))
      with (e +++ String c (Join (e' :: l) (String c ""))).
    rewrite Split_byte_app, Split_no_byte by exact He.
    rewrite IH by discriminate. reflexivity.
Qed.

End StringFacts.

(* ===================================================================== *)
(** * Strings: [strings.Fields], [strings.TrimSpace] *)
(* ===================================================================== *)

Module FieldsFacts.
Import GoStrings.
Import StringFacts.

(** *** White space *)

(** [space_width] by the tests it makes on the first byte. *)
Lemma space_width_cases (c0 : ascii) (s1 : string) :
  space_width (String c0 s1)
  = if asciiSpace c0 then 1%nat
    else if byte_of c0 =? 194 then
      match s1 with
      | String c1 _ =>
          if (byte_of c1 =? 133) || (byte_of c1 =? 160) then 2%nat else O
      | _ => O
      end
    else if byte_of c0 =? 225 then
      match s1 with
      | String c1 (String c2 _) =>
          if (byte_of c1 =? 154) && (byte_of c2 =? 128) then 3%nat else O
      | _ => O
      end
    else if byte_of c0 =? 226 then
      match s1 with
      | String c1 (String c2 _) =>
          if (byte_of c1 =? 128)
             && (((128 <=? byte_of c2) && (byte_of c2 <=? 138))
                 || (byte_of c2 =? 168) || (byte_of c2 =? 169) || (byte_of c2 =? 175))
          then 3%nat
          else if (byte_of c1 =? 129) && (byte_of c2 =? 159) then 3%nat else O
      | _ => O
      end
    else if byte_of c0 =? 227 then
      match s1 with
      | String c1 (String c2 _) =>
          if (byte_of c1 =? 128) && (byte_of c2 =? 128) then 3%nat else O
      | _ => O
      end
    else O.
Proof.
  destruct c0 as [b0 b1 b2 b3 b4 b5 b6 b7].
  destruct b0, b1, b2, b3, b4, b5, b6, b7; reflexivity.
Qed.

Lemma asciiSpace_low (c : ascii) : asciiSpace c = true -> byte_of c < 128.
Proof.
  unfold asciiSpace. intros H. apply orb_true_iff in H.
  destruct H as [H|H].
  - apply andb_true_iff in H. destruct H as [_ H]. apply Z.leb_le in H. lia.
  - apply Z.eqb_eq in H. lia.
Qed.

Ltac tests :=
  repeat match goal with
         | |- context [Z.eqb ?a ?b] => destruct (Z.eqb_spec a b)
         | |- context [Z.leb ?a ?b] => destruct (Z.leb_spec a b)
         | H : context [Z.eqb ?a ?b] |- _ => destruct (Z.eqb_spec a b)
         | H : context [Z.leb ?a ?b] |- _ => destruct (Z.leb_spec a b)
         end;
  cbn [andb orb] in *; try reflexivity; try discriminate; try lia.

(** White space at the head of a string is white space at the head of
    every string that continues it. *)
Lemma space_width_app (x y : string) (k : nat) :
  space_width x = S k -> space_width (x +++ y) = S k.
Proof.
  destruct x as [|c0 s1]; [discriminate|].
  cbn [String.append]. rewrite !space_width_cases.
  destruct (asciiSpace c0); [auto|].
  destruct s1 as [|c1 [|c2 s3]]; cbn [String.append]; tests;
    destruct y as [|d1 [|d2 y]]; tests.
Qed.

Lemma space_width_prefix (x y : string) :
  space_width (x +++ y) = O -> x <> "" -> space_width x = O.
Proof.
  intros H N. destruct (space_width x) as [|k] eqn:E; [reflexivity|].
  rewrite (space_width_app x y k E) in H. discriminate.
Qed.

(** An ASCII white space behind a string does not make white space of
    the head of the string. *)
Lemma space_width_before_space (x : string) (c : ascii) (b : string) :
  asciiSpace c = true -> x <> "" ->
  space_width (x +++ String c b) = space_width x.
Proof.
  intros A N. pose proof (asciiSpace_low c A) as Lc.
  destruct x as [|c0 s1]; [contradiction|].
  cbn [String.append]. rewrite !space_width_cases.
  destruct (asciiSpace c0); [reflexivity|].
  destruct s1 as [|c1 [|c2 s3]]; cbn [String.append]; tests;
    destruct b as [|d2 b]; tests.
Qed.

(** The bytes of a white space are bytes of the string. *)
Lemma space_width_length (s : string) : (space_width s <= String.length s)%nat.
Proof.
  destruct s as [|c0 s1]; [reflexivity|]. rewrite space_width_cases.
  destruct (asciiSpace c0); [cbn; lia|].
  destruct s1 as [|c1 [|c2 s3]]; tests; cbn; lia.
Qed.

Lemma space_width_ascii (c : ascii) (s : string) :
  space_width (String c s) = O -> asciiSpace c = false.
Proof. rewrite space_width_cases. destruct (asciiSpace c); [discriminate|reflexivity]. Qed.

(** *** [strings.Fields] *)

(** What [fields_go] does with the field it is reading when it meets
    white space or the end. *)
Definition flush (cur : string) (rest : list string) : list string :=
  match cur with
  | EmptyString => rest
  | _ => rev cur :: rest
  end.

Lemma flush_app (cur : string) (l1 l2 : list string) :
  flush cur (l1 ++ l2) = flush cur l1 ++ l2.
Proof. now destruct cur. Qed.

Lemma fields_go_eq (s : string) (skip : nat) (cur : string) :
  fields_go s skip cur
  = match s with
    | EmptyString => flush cur []
    | String c s' =>
        match skip with
        | S k => fields_go s' k cur
        | O =>
            match space_width s with
            | O => fields_go s' O (String c cur)
            | S k => flush cur (fields_go s' k EmptyString)
            end
        end
    end.
Proof. destruct s; reflexivity. Qed.

Lemma fields_go_skip (s : string) (k : nat) (cur : string) :
  fields_go s k cur = fields_go (drop k s) O cur.
Proof.
  revert k. induction s as [|c s IH]; intros k.
  - now rewrite drop_nil.
  - destruct k as [|k]; [reflexivity|].
    rewrite fields_go_eq. cbn [drop]. apply IH.
Qed.

(** The fields of a string with an ASCII white space in it are the
    fields before it and the fields behind it. *)
Lemma fields_go_space (c : ascii) (b : string) :
  asciiSpace c = true ->
  forall a k cur,
    (k <= String.length a)%nat ->
    fields_go (a +++ String c b) k cur = fields_go a k cur ++ Fields b.
Proof.
  intros A. induction a as [|x a IH]; intros k cur Hk.
  - assert (k = O) by (cbn in Hk; lia). subst k.
    cbn [String.append]. rewrite !fields_go_eq.
    rewrite space_width_cases, A. unfold Fields.
    now rewrite <- flush_app.
  - cbn [String.append]. rewrite (fields_go_eq (String x _)), (fields_go_eq (String x a)).
    destruct k as [|k]; [|apply IH; cbn in Hk; lia].
    change (String x (a +++ String c b)) with (String x a +++ String c b).
    rewrite (space_width_before_space (String x a) c b A) by discriminate.
    pose proof (space_width_length (String x a)) as L.
    destruct (space_width (String x a)) as [|w].
    + apply IH. lia.
    + rewrite IH by (cbn in L; lia). apply flush_app.
Qed.

Lemma Fields_space (c : ascii) (a b : string) :
  asciiSpace c = true -> Fields (a +++ String c b) = Fields a ++ Fields b.
Proof. intros A. apply (fields_go_space c b A a O ""). lia. Qed.

(** *** Words *)

(** The bytes of the field that is being read, the last one first, each
    followed by what follows it in the input: none of them starts a
    white space. *)
Fixpoint pending (cur : string) (s : string) : Prop :=
  match cur with
  | EmptyString => True
  | String c cur' => space_width (String c s) = O /\ pending cur' (String c s)
  end.

Lemma pending_prefix (cur y z : string) : pending cur (y +++ z) -> pending cur y.
Proof.
  revert y. induction cur as [|c cur IH]; intros y; cbn [pending]; [auto|].
  intros [H1 H2]. split.
  - now apply (space_width_prefix (String c y) z).
  - apply (IH (String c y)). exact H2.
Qed.

(** A word: it is not empty and no white space starts in it. *)
Definition word (w : string) : Prop :=
  exists cur, cur <> "" /\ w = rev cur /\ pending cur "".

Lemma fields_go_pending (cur y acc : string) :
  pending cur y ->
  fields_go (rev_onto cur y) O acc = fields_go y O (cur +++ acc).
Proof.
  revert y acc. induction cur as [|c cur IH]; intros y acc; cbn [pending rev_onto].
  - reflexivity.
  - intros [H1 H2]. rewrite (IH _ _ H2).
    rewrite fields_go_eq, H1. reflexivity.
Qed.

(** A word is its own single field. *)
Lemma Fields_word (w : string) : word w -> Fields w = [w].
Proof.
  intros (cur & N & -> & P). unfold Fields, rev.
  rewrite (fields_go_pending cur "" "" P), sapp_nil_r.
  rewrite fields_go_eq. destruct cur; [contradiction|reflexivity].
Qed.

Lemma flush_words (cur : string) (rest : list string) (s : string) :
  pending cur s -> Forall word rest -> Forall word (flush cur rest).
Proof.
  intros P F. destruct cur as [|c cur]; [exact F|].
  cbn [flush]. constructor; [|exact F].
  exists (String c cur). split; [discriminate|]. split; [reflexivity|].
  apply (pending_prefix _ "" s). exact P.
Qed.

Lemma fields_go_words (n : nat) :
  forall s cur, (String.length s <= n)%nat -> pending cur s ->
  Forall word (fields_go s O cur).
Proof.
  induction n as [|n IH]; intros s cur Hn P.
  - destruct s; [|cbn in Hn; lia]. rewrite fields_go_eq.
    now apply (flush_words cur [] "").
  - destruct s as [|c s]; [rewrite fields_go_eq; now apply (flush_words cur [] "")|].
    rewrite fields_go_eq.
    pose proof (space_width_length (String c s)) as L.
    destruct (space_width (String c s)) as [|k] eqn:W.
    + apply IH; [cbn in Hn; lia|]. cbn [pending]. split; [exact W|exact P].
    + apply (flush_words cur _ (String c s)); [exact P|].
      rewrite fields_go_skip. apply IH; [|exact Logic.I].
      rewrite drop_length. cbn in Hn. lia.
Qed.

(** The fields of a string are words. *)
Lemma Fields_words (s : string) : Forall word (Fields s).
Proof. apply (fields_go_words (String.length s)); [lia|exact Logic.I]. Qed.

Lemma pending_no_space (cur s : string) (c : ascii) :
  pending cur s -> has_byte c cur -> asciiSpace c = false.
Proof.
  revert s. induction cur as [|x cur IH]; intros s; cbn [pending]; [contradiction|].
  intros [H1 H2] [<-|H].
  - now apply space_width_ascii in H1.
  - now apply (IH _ H2).
Qed.

Lemma has_byte_rev (c : ascii) (s : string) : has_byte c (rev s) <-> has_byte c s.
Proof.
  unfold rev. assert (H : forall acc, has_byte c (rev_onto s acc)
                                      <-> has_byte c s \/ has_byte c acc).
  { induction s as [|x s IH]; intros acc; cbn [rev_onto].
    - unfold has_byte at 2. cbn. tauto.
    - rewrite IH. unfold has_byte. cbn. tauto. }
  rewrite H. unfold has_byte at 3. cbn. tauto.
Qed.

(** A word has no ASCII white space. *)
Lemma word_no_space (w : string) (c : ascii) :
  word w -> has_byte c w -> asciiSpace c = false.
Proof.
  intros (cur & _ & -> & P) H. apply (proj1 (has_byte_rev c cur)) in H.
  exact (pending_no_space cur "" c P H).
Qed.


(** *** Lengths *)

Lemma fields_go_lengths (n : nat) :
  forall s cur, (String.length s <= n)%nat ->
  Forall (fun w => (String.length w <= String.length cur + String.length s)%nat)
         (fields_go s O cur).
Proof.
  induction n as [|n IH]; intros s cur Hn.
  - destruct s; [|cbn in Hn; lia]. rewrite fields_go_eq.
    destruct cur; cbn [flush]; constructor; [|constructor].
    rewrite rev_length. cbn [String.length]. lia.
  - destruct s as [|c s].
    { rewrite fields_go_eq. destruct cur; cbn [flush]; constructor; [|constructor].
      rewrite rev_length. cbn [String.length]. lia. }
    rewrite fields_go_eq.
    destruct (space_width (String c s)) as [|k] eqn:W.
    + specialize (IH s (String c cur) ltac:(cbn in Hn; lia)).
      eapply Forall_impl; [|exact IH]. cbn beta. cbn [String.length]. intros w Hw. lia.
    + cbn [String.length]. rewrite fields_go_skip.
      assert (F : Forall (fun w => (String.length w
                                    <= String.length cur + String.length (String c s))%nat)
                         (fields_go (drop k s) O "")).
      { specialize (IH (drop k s) "" ltac:(rewrite drop_length; cbn in Hn; lia)).
        eapply Forall_impl; [|exact IH]. cbn beta. cbn [String.length]. intros w Hw.
        rewrite drop_length in Hw. lia. }
      destruct cur as [|x cur]; cbn [flush]; [exact F|].
      constructor; [|exact F]. rewrite rev_length. cbn [String.length]. lia.
Qed.

(** A field is no longer than the string. *)
Lemma Fields_lengths (s : string) :
  Forall (fun w => (String.length w <= String.length s)%nat) (Fields s).
Proof.
  exact (fields_go_lengths (String.length s) s "" (Nat.le_refl _)).
Qed.

Lemma split_go_lengths (sep : string) :
  forall s k cur,
  Forall (fun p => (String.length p <= String.length cur + String.length s)%nat)
         (split_go sep s k cur).
Proof.
  induction s as [|c s IH]; intros k cur; cbn [split_go].
  - constructor; [|constructor]. rewrite rev_length. cbn [String.length]. lia.
  - destruct k as [|k].
    + destruct (HasPrefix (String c s) sep).
      * constructor; [rewrite rev_length; cbn [String.length]; lia|].
        eapply Forall_impl; [|apply IH]. cbn beta. cbn [String.length]. intros p Hp. lia.
      * eapply Forall_impl; [|apply IH]. cbn beta. cbn [String.length]. intros p Hp. lia.
    + eapply Forall_impl; [|apply IH]. cbn beta. cbn [String.length]. intros p Hp. lia.
Qed.

(** A piece is no longer than the string. *)
Lemma Split_lengths (s sep : string) :
  Forall (fun p => (String.length p <= String.length s)%nat) (Split s sep).
Proof. exact (split_go_lengths sep s O ""). Qed.

(** *** [strings.TrimSpace] *)

Lemma trim_left_all_space (fuel : nat) (s : string) :
  trim_left space_width fuel s = "" -> Fields s = [].
Proof.
  revert s. induction fuel as [|fuel IH]; intros s; cbn [trim_left].
  - now intros ->.
  - destruct (space_width s) as [|w] eqn:W; [now intros ->|].
    intros H. apply IH in H.
    destruct s as [|c s]; [discriminate|].
    unfold Fields in *. rewrite fields_go_eq, W. cbn [flush].
    rewrite fields_go_skip. exact H.
Qed.

Lemma trim_left_stops (fuel : nat) (s : string) :
  (String.length s <= fuel)%nat ->
  trim_left space_width fuel s = "" \/ space_width (trim_left space_width fuel s) = O.
Proof.
  revert s. induction fuel as [|fuel IH]; intros s Hn; cbn [trim_left].
  - destruct s; [now left | cbn in Hn; lia].
  - destruct (space_width s) as [|w] eqn:W; [now right|].
    apply IH. rewrite drop_length.
    pose proof (space_width_length s). lia.
Qed.

(** A white space read from the end is a white space. *)
Lemma space_width_rev_spec (r : string) (w : nat) :
  space_width_rev r = S w ->
  exists e, r = rev e +++ drop (S w) r /\ space_width e = S w
            /\ String.length e = S w.
Proof.
  destruct r as [|c0 r1]; [discriminate|]. cbn [space_width_rev].
  destruct (asciiSpace c0) eqn:A.
  { intros [= <-]. exists (String c0 ""). split; [reflexivity|].
    split; [now rewrite space_width_cases, A|reflexivity]. }
  destruct r1 as [|c1 r2]; [discriminate|].
  destruct (Nat.eqb_spec (space_width (String c1 (String c0 ""))) 2) as [E|_].
  { intros [= <-]. exists (String c1 (String c0 "")). split; [reflexivity|].
    split; [exact E|reflexivity]. }
  destruct r2 as [|c2 r3]; [discriminate|].
  destruct (Nat.eqb_spec (space_width (String c2 (String c1 (String c0 "")))) 3) as [E|_];
    [|discriminate].
  intros [= <-]. exists (String c2 (String c1 (String c0 ""))).
  split; [reflexivity|]. split; [exact E|reflexivity].
Qed.

Lemma trim_right_all (fuel : nat) (r : string) :
  trim_left space_width_rev fuel r = "" ->
  r = "" \/ (0 < space_width (rev r))%nat.
Proof.
  revert r. induction fuel as [|fuel IH]; intros r; cbn [trim_left].
  - now left.
  - destruct (space_width_rev r) as [|w] eqn:W; [now left|].
    intros H. right.
    destruct (space_width_rev_spec r w W) as (e & Er & We & _).
    rewrite Er, rev_app, rev_involutive.
    destruct (IH _ H) as [E|P].
    + rewrite E. cbn [rev rev_onto String.append]. rewrite We. lia.
    + destruct (space_width (rev (drop (S w) r))) as [|k] eqn:K; [lia|].
      rewrite (space_width_app _ e k K). lia.
Qed.

(** A string that [TrimSpace] leaves nothing of has no fields. *)
Lemma TrimSpace_empty_Fields (s : string) : TrimSpace s = "" -> Fields s = [].
Proof.
  unfold TrimSpace. intros H. apply rev_empty in H.
  set (l := trim_left space_width (String.length s) s) in *.
  apply (trim_left_all_space (String.length s)). fold l.
  destruct (trim_right_all _ _ H) as [E|P].
  - now apply rev_empty in E.
  - rewrite rev_involutive in P.
    destruct (trim_left_stops (String.length s) s (Nat.le_refl _)) as [E|Z0];
      [exact E|]. fold l in Z0. lia.
Qed.

End FieldsFacts.

(* ===================================================================== *)
(** * internal/config/config.go: the pages of the history *)
(* ===================================================================== *)

Module HistoryPages.
Import Config.
Import ReaderSpec.
Import ListFacts.

(** The entries of a page, [[]] where [GetReadingHistoryPage] panics. *)
Definition page_entries (c : Config) (page pageSize : Z) : list ReadingEntry :=
  match GetReadingHistoryPage c page pageSize with
  | Some (entries, _, _, _) => entries
  | None => []
  end.

Lemma ceil_div_covers (L p : Z) :
  1 <= L -> 1 <= p -> (ceil_div L p - 1) * p < L <= ceil_div L p * p.
Proof.
  intros HL Hp. unfold ceil_div.
  pose proof (Z.div_mod L p ltac:(lia)) as DM.
  pose proof (Z.mod_pos_bound L p ltac:(lia)) as MB.
  destruct (Z.eqb_spec (L mod p) 0) as [E|E]; nia.
Qed.

(** [GetReadingHistoryPage] on a history that is not empty, for a positive
    page size: it returns, the request is pulled into the pages, and the
    page is the run of [pageSize] entries that starts behind the pages
    before it. *)
Lemma history_page_spec (c : Config) (page pageSize : Z) :
  ReadingHistory c <> [] ->
  1 <= pageSize <= 2 ^ 62 ->
  GoInt.len (ReadingHistory c) < 2 ^ 62 ->
  let h := ReadingHistory c in
  let tp := ceil_div (GoInt.len h) pageSize in
  let p := Z.max 1 (Z.min page tp) in
  GetReadingHistoryPage c page pageSize
  = Some (firstn (Z.to_nat pageSize) (skipn (Z.to_nat ((p - 1) * pageSize)) h),
          tp, p <? tp, p >? 1)
  /\ 1 <= tp <= GoInt.len h
  /\ (p - 1) * pageSize < GoInt.len h.
Proof.
  intros NE Hp HL.
  assert (L1 : 1 <= GoInt.len (ReadingHistory c)).
  { unfold GoInt.len. destruct (ReadingHistory c); [contradiction|].
    cbn [List.length]. lia. }
  intros h tp p. fold h in L1, HL.
  pose proof (ceil_div_bounds (GoInt.len h) pageSize L1 ltac:(lia)) as B.
  pose proof (ceil_div_covers (GoInt.len h) pageSize L1 ltac:(lia)) as Cv.
  fold tp in B, Cv.
  assert (P1 : 1 <= p <= tp) by lia.
  assert (S1 : (p - 1) * pageSize < GoInt.len h) by nia.
  split; [|split; assumption].
  unfold GetReadingHistoryPage. fold h.
  destruct (Z.eqb_spec (GoInt.len h) 0) as [E|_]; [lia|].
  unfold GoInt.quo. destruct (Z.eqb_spec pageSize 0) as [E|_]; [lia|].
  unwrap. rewrite Z.quot_div_nonneg by lia.
  rewrite ceil_div_formula by lia. fold tp. unwrap.
  set (p1 := if page <? 1 then 1 else page).
  set (p2 := if p1 >? tp then tp else p1).
  assert (E2 : p2 = p).
  { subst p2 p1 p. destruct (Z.ltb_spec page 1);
      match goal with |- context [?a >? ?b] => destruct (Z.gtb_spec a b) end; lia. }
  rewrite E2. clearbody p. clear p1 p2 E2.
  assert (0 <= (p - 1) * pageSize) by nia.
  unwrap.
  set (e := if (p - 1) * pageSize + pageSize >? GoInt.len h
            then GoInt.len h else (p - 1) * pageSize + pageSize).
  assert (Ee : e = Z.min ((p - 1) * pageSize + pageSize) (GoInt.len h)).
  { subst e. match goal with |- context [?a >? ?b] => destruct (Z.gtb_spec a b) end; lia. }
  unfold slice. fold h.
  destruct (Z.leb_spec 0 ((p - 1) * pageSize)); [|lia].
  destruct (Z.leb_spec ((p - 1) * pageSize) e); [|lia].
  destruct (Z.leb_spec e (GoInt.len h)); [|lia].
  cbn [andb]. do 4 f_equal.
  rewrite Ee.
  destruct (Z.le_gt_cases ((p - 1) * pageSize + pageSize) (GoInt.len h)) as [Le|Gt].
  - f_equal. lia.
  - rewrite Z.min_r by lia.
    rewrite !firstn_all2; [reflexivity| |];
      rewrite length_skipn; unfold GoInt.len in *; lia.
Qed.

(** Every page has between one and [pageSize] entries, and the flags
    tell whether there is a page behind and a page before. *)
Theorem history_page_returns (c : Config) (page pageSize : Z) :
  ReadingHistory c <> [] ->
  1 <= pageSize <= 2 ^ 62 ->
  GoInt.len (ReadingHistory c) < 2 ^ 62 ->
  exists entries totalPages hasNext hasPrev,
    GetReadingHistoryPage c page pageSize = Some (entries, totalPages, hasNext, hasPrev)
    /\ totalPages = ceil_div (GoInt.len (ReadingHistory c)) pageSize
    /\ 1 <= GoInt.len entries <= pageSize
    /\ (forall e, In e entries -> In e (ReadingHistory c))
    /\ (hasNext = true <-> page < totalPages /\ 1 < totalPages)
    /\ (hasPrev = true <-> 1 < page /\ 1 < totalPages)
    /\ (page <= 1 -> GetReadingHistoryPage c page pageSize
                     = GetReadingHistoryPage c 1 pageSize)
    /\ (totalPages <= page -> GetReadingHistoryPage c page pageSize
                              = GetReadingHistoryPage c totalPages pageSize).
Proof.
  intros NE Hp HL.
  destruct (history_page_spec c page pageSize NE Hp HL) as (E & B & S1).
  cbv zeta in E, B, S1. rewrite E.
  set (tp := ceil_div (GoInt.len (ReadingHistory c)) pageSize) in *.
  set (p := Z.max 1 (Z.min page tp)) in *.
  do 4 eexists. split; [reflexivity|]. split; [reflexivity|].
  split; [|split; [|split; [|split; [|split]]]].
  - unfold GoInt.len in *. rewrite length_firstn, length_skipn. lia.
  - intros e He. now apply In_firstn, In_skipn in He.
  - rewrite Z.ltb_lt. lia.
  - rewrite Z.gtb_gt. lia.
  - intros P1.
    destruct (history_page_spec c 1 pageSize NE Hp HL) as (E1 & _ & _).
    cbv zeta in E1. rewrite E1. fold tp.
    replace (Z.max 1 (Z.min 1 tp)) with p by lia. reflexivity.
  - intros P1.
    destruct (history_page_spec c tp pageSize NE Hp HL) as (E1 & _ & _).
    cbv zeta in E1. rewrite E1. fold tp.
    replace (Z.max 1 (Z.min tp tp)) with p by lia. reflexivity.
Qed.

(** The pages 1, 2, ... up to the last, one behind the other, are the
    history. *)
Theorem history_pages_cover (c : Config) (pageSize : Z) :
  1 <= pageSize <= 2 ^ 62 ->
  GoInt.len (ReadingHistory c) < 2 ^ 62 ->
  let totalPages := ceil_div (GoInt.len (ReadingHistory c)) pageSize in
  List.concat (map (fun k => page_entries c (Z.of_nat k + 1) pageSize)
              (seq 0 (Z.to_nat totalPages)))
  = ReadingHistory c.
Proof.
  intros Hp HL.
  destruct (Nat.eq_dec (List.length (ReadingHistory c)) 0) as [Z0|NZ].
  { unfold GoInt.len. rewrite Z0. apply length_zero_iff_nil in Z0. now rewrite Z0. }
  assert (NE : ReadingHistory c <> []).
  { intros E. apply NZ. now rewrite E. }
  assert (L1 : 1 <= GoInt.len (ReadingHistory c)) by (unfold GoInt.len; lia).
  intros tp.
  pose proof (ceil_div_bounds _ pageSize L1 ltac:(lia)) as B.
  pose proof (ceil_div_covers _ pageSize L1 ltac:(lia)) as Cv.
  fold tp in B, Cv.
  transitivity (firstn (Z.to_nat tp * Z.to_nat pageSize) (ReadingHistory c));
    [|apply firstn_all2; unfold GoInt.len in *; nia].
  rewrite <- concat_chunks.
  f_equal. apply map_ext_in. intros k Hk. apply in_seq in Hk.
  unfold page_entries.
  destruct (history_page_spec c (Z.of_nat k + 1) pageSize NE Hp HL) as (E & _ & _).
  cbv zeta in E. rewrite E. fold tp.
  replace (Z.max 1 (Z.min (Z.of_nat k + 1) tp)) with (Z.of_nat k + 1) by lia.
  do 2 f_equal. nia.
Qed.

(** A page size of zero or less: the call panics, unless the history is
    empty, which is answered before the page size is looked at. *)
Theorem history_page_size_not_positive (c : Config) (page pageSize : Z) :
  - 2 ^ 31 <= pageSize <= 0 ->
  GoInt.len (ReadingHistory c) < 2 ^ 31 ->
  GetReadingHistoryPage c page pageSize
  = match ReadingHistory c with
    | [] => Some ([], 0, false, false)
    | _ :: _ => None
    end.
Proof.
  intros Hp HL. unfold GetReadingHistoryPage.
  destruct (ReadingHistory c) as [|e0 h0] eqn:Eh; [reflexivity|].
  rewrite <- Eh in *.
  assert (L1 : 1 <= GoInt.len (ReadingHistory c)).
  { rewrite Eh. unfold GoInt.len. cbn [List.length]. lia. }
  clear Eh e0 h0.
  set (total := GoInt.len (ReadingHistory c)) in *.
  destruct (Z.eqb_spec total 0) as [E|_]; [lia|].
  unfold GoInt.quo. destruct (Z.eqb_spec pageSize 0) as [E|N]; [reflexivity|].
  assert (2 ^ 31 = 2147483648) by reflexivity.
  unwrap.
  set (tp := Z.quot (total + pageSize - 1) pageSize).
  assert (Bt : Z.abs tp * Z.abs pageSize <= 2 ^ 32).
  { subst tp. rewrite <- Z.quot_abs by exact N.
    pose proof (Z.mul_quot_le (Z.abs (total + pageSize - 1)) (Z.abs pageSize)
                  ltac:(lia) ltac:(lia)).
    lia. }
  assert (Bt' : Z.abs tp <= 2 ^ 32) by nia.
  assert (2 ^ 32 = 4294967296) by reflexivity.
  unwrap.
  set (p1 := if page <? 1 then 1 else page).
  set (p2 := if p1 >? tp then tp else p1).
  assert (B2 : Z.abs p2 <= Z.abs tp).
  { subst p2 p1. destruct (Z.ltb_spec page 1);
      match goal with |- context [?a >? ?b] => destruct (Z.gtb_spec a b) end; lia. }
  clearbody p2. clear p1.
  assert (Z.abs ((p2 - 1) * pageSize) <= 2 ^ 32 + 2 ^ 31).
  { replace ((p2 - 1) * pageSize) with (p2 * pageSize - pageSize) by ring.
    assert (Z.abs (p2 * pageSize) <= 2 ^ 32); [|lia].
    rewrite Z.abs_mul.
    apply Z.le_trans with (Z.abs tp * Z.abs pageSize); [|exact Bt].
    apply Z.mul_le_mono_nonneg_r; lia. }
  unwrap.
  unfold slice. fold total.
  match goal with |- context [?a >? ?b] => destruct (Z.gtb_spec a b) end.
  - destruct (Z.leb_spec ((p2 - 1) * pageSize) total); [lia|].
    now rewrite andb_false_r.
  - destruct (Z.leb_spec ((p2 - 1) * pageSize) ((p2 - 1) * pageSize + pageSize)); [lia|].
    now rewrite andb_false_r.
Qed.

(** *** Closed examples *)

Import Config ReaderSpec.

(** A history of 25 entries, 10 a page: a request for page 7 is answered
    with the last of 3 pages. *)
Lemma history_page_returns_witness :
  let c := Fixtures.sample_config (Fixtures.numbered_history 25) in
  ReadingHistory c <> []
  /\ 1 <= 10 <= 2 ^ 62
  /\ GoInt.len (ReadingHistory c) < 2 ^ 62
  /\ exists entries hasNext hasPrev,
       GetReadingHistoryPage c 7 10 = Some (entries, 3, hasNext, hasPrev)
       /\ 1 <= GoInt.len entries <= 10
       /\ GetReadingHistoryPage c 7 10 = GetReadingHistoryPage c 3 10.
Proof.
  intros c.
  assert (NE : ReadingHistory c <> []) by (vm_compute; discriminate).
  assert (Hp : 1 <= 10 <= 2 ^ 62) by lia.
  assert (HL : GoInt.len (ReadingHistory c) < 2 ^ 62) by (vm_compute; reflexivity).
  split; [exact NE|]. split; [exact Hp|]. split; [exact HL|].
  destruct (history_page_returns c 7 10 NE Hp HL)
    as (entries & totalPages & hasNext & hasPrev & E & Et & Bl & _ & _ & _ & _ & Last).
  assert (T3 : totalPages = 3) by (rewrite Et; reflexivity).
  subst totalPages.
  exists entries, hasNext, hasPrev.
  split; [exact E|]. split; [exact Bl|]. apply Last. lia.
Defined.

(** The 3 pages of a history of 25 entries, one behind the other. *)
Lemma history_pages_cover_witness :
  let c := Fixtures.sample_config (Fixtures.numbered_history 25) in
  1 <= 10 <= 2 ^ 62
  /\ GoInt.len (ReadingHistory c) < 2 ^ 62
  /\ page_entries c 1 10 ++ page_entries c 2 10 ++ page_entries c 3 10
     = ReadingHistory c.
Proof.
  intros c.
  assert (Hp : 1 <= 10 <= 2 ^ 62) by lia.
  assert (HL : GoInt.len (ReadingHistory c) < 2 ^ 62) by (vm_compute; reflexivity).
  split; [exact Hp|]. split; [exact HL|].
  pose proof (history_pages_cover c 10 Hp HL) as H. cbv zeta in H.
  change (Z.to_nat (ceil_div (GoInt.len (ReadingHistory c)) 10)) with 3%nat in H.
  cbn [seq map List.concat Z.of_nat Pos.of_succ_nat Pos.succ Z.add Pos.add] in H.
  rewrite app_nil_r in H. exact H.
Defined.

(** A page size of 0 on a history of 25 entries. *)
Lemma history_page_size_not_positive_witness :
  let c := Fixtures.sample_config (Fixtures.numbered_history 25) in
  - 2 ^ 31 <= 0 <= 0
  /\ GoInt.len (ReadingHistory c) < 2 ^ 31
  /\ GetReadingHistoryPage c 1 0 = None
  /\ GetReadingHistoryPage DefaultConfig 1 0 = Some ([], 0, false, false).
Proof.
  intros c.
  assert (Hp : - 2 ^ 31 <= 0 <= 0) by lia.
  assert (HL : GoInt.len (ReadingHistory c) < 2 ^ 31) by (vm_compute; reflexivity).
  assert (HL0 : GoInt.len (ReadingHistory DefaultConfig) < 2 ^ 31)
    by (vm_compute; reflexivity).
  split; [exact Hp|]. split; [exact HL|]. split.
  - exact (history_page_size_not_positive c 1 0 Hp HL).
  - exact (history_page_size_not_positive DefaultConfig 1 0 Hp HL0).
Defined.

End HistoryPages.

(* ===================================================================== *)
(** * internal/config/config.go: bookmarks *)
(* ===================================================================== *)

Module BookmarkSpec.
Import Config.
Import ListFacts.

(** The chapter of a fiction that a bookmark marks. *)
Definition place (b : Bookmark) : string * Z := (bm_FictionID b, bm_ChapterIndex b).

Definition at_place (fictionID : string) (chapterIndex : Z) (b : Bookmark) : bool :=
  String.eqb (bm_FictionID b) fictionID && (bm_ChapterIndex b =? chapterIndex).

Lemma at_place_spec (fictionID : string) (chapterIndex : Z) (b : Bookmark) :
  at_place fictionID chapterIndex b = true <-> place b = (fictionID, chapterIndex).
Proof.
  unfold at_place, place. rewrite andb_true_iff, String.eqb_eq, Z.eqb_eq.
  split; [intros [-> ->]; reflexivity | intros [= -> ->]; now split].
Qed.

(** What the loop finds: the first bookmark of the place, and none of the
    place before it. *)
Lemma find_bookmark_Some (fictionID : string) (chapterIndex : Z) (l : list Bookmark)
  (i : nat) :
  find_bookmark fictionID chapterIndex l = Some i ->
  exists b,
    nth_error l i = Some b /\ place b = (fictionID, chapterIndex)
    /\ ~ In (fictionID, chapterIndex) (map place (firstn i l)).
Proof.
  revert i. induction l as [|x l IH]; intros i; cbn [find_bookmark]; [discriminate|].
  fold (at_place fictionID chapterIndex x).
  destruct (at_place fictionID chapterIndex x) eqn:E.
  - intros [= <-]. exists x. apply at_place_spec in E.
    split; [reflexivity|]. split; [exact E|]. cbn. tauto.
  - destruct (find_bookmark fictionID chapterIndex l) as [j|]; [|discriminate].
    intros [= <-]. destruct (IH j eq_refl) as (b & N & P & NI).
    exists b. split; [exact N|]. split; [exact P|].
    cbn [firstn map]. intros [H|H]; [|contradiction].
    apply at_place_spec in H. congruence.
Qed.

Lemma find_bookmark_None (fictionID : string) (chapterIndex : Z) (l : list Bookmark) :
  find_bookmark fictionID chapterIndex l = None
  <-> ~ In (fictionID, chapterIndex) (map place l).
Proof.
  induction l as [|x l IH]; cbn [find_bookmark map]; [cbn; tauto|].
  fold (at_place fictionID chapterIndex x).
  destruct (at_place fictionID chapterIndex x) eqn:E.
  - apply at_place_spec in E. split; [discriminate|].
    intros H. exfalso. apply H. now left.
  - assert (N : place x <> (fictionID, chapterIndex)).
    { intros H. apply at_place_spec in H. congruence. }
    destruct (find_bookmark fictionID chapterIndex l) as [j|]; cbn [option_map].
    + split; [discriminate|]. intros H. exfalso.
      assert (H' : ~ In (fictionID, chapterIndex) (map place l))
        by (intros H'; apply H; now right).
      apply IH in H'. discriminate.
    + split; [|reflexivity]. intros _ [H|H]; [contradiction|].
      now apply (proj1 IH).
Qed.

(** The bookmarks after [AddBookmark]: the bookmark replaces the first one
    of its place where that is, and goes to the end otherwise. *)
Lemma AddBookmark_list (bookmark : Bookmark) (c : Config) :
  let l := Bookmarks c in
  let l' := Bookmarks (AddBookmark bookmark c) in
  match find_bookmark (bm_FictionID bookmark) (bm_ChapterIndex bookmark) l with
  | Some i => l' = firstn i l ++ bookmark :: skipn (S i) l /\ (i < List.length l)%nat
  | None => l' = l ++ [bookmark]
  end.
Proof.
  intros l l'. subst l'. unfold AddBookmark. fold l.
  destruct (find_bookmark (bm_FictionID bookmark) (bm_ChapterIndex bookmark) l)
    as [i|] eqn:F; cbn [Bookmarks set_bookmarks]; [|reflexivity].
  destruct (find_bookmark_Some _ _ _ _ F) as (b & N & _ & _).
  split; [now apply assign_split with b|].
  apply nth_error_Some. congruence.
Qed.

Lemma find_bookmark_app (fictionID : string) (chapterIndex : Z) (l1 l2 : list Bookmark) :
  ~ In (fictionID, chapterIndex) (map place l1) ->
  find_bookmark fictionID chapterIndex (l1 ++ l2)
  = option_map (Nat.add (List.length l1)) (find_bookmark fictionID chapterIndex l2).
Proof.
  induction l1 as [|x l1 IH]; intros NI.
  - cbn. now destruct (find_bookmark fictionID chapterIndex l2).
  - cbn [app find_bookmark]. fold (at_place fictionID chapterIndex x).
    destruct (at_place fictionID chapterIndex x) eqn:E.
    + apply at_place_spec in E. exfalso. apply NI. now left.
    + rewrite IH by (intros H; apply NI; now right).
      now destruct (find_bookmark fictionID chapterIndex l2).
Qed.

Lemma find_bookmark_here (b : Bookmark) (l : list Bookmark) :
  find_bookmark (bm_FictionID b) (bm_ChapterIndex b) (b :: l) = Some O.
Proof. cbn. now rewrite String.eqb_refl, Z.eqb_refl. Qed.

(** The bookmark is found where [AddBookmark] has put it; a bookmark of
    the place keeps its position and the number of bookmarks, a new place
    goes behind the last bookmark; no other bookmark is touched. *)
Theorem AddBookmark_upsert (bookmark : Bookmark) (c : Config) :
  let l := Bookmarks c in
  let l' := Bookmarks (AddBookmark bookmark c) in
  let found := find_bookmark (bm_FictionID bookmark) (bm_ChapterIndex bookmark) in
  (exists i, found l' = Some i /\ nth_error l' i = Some bookmark
             /\ (found l = Some i \/ (found l = None /\ i = List.length l)))
  /\ List.length l' = match found l with
                      | Some _ => List.length l
                      | None => S (List.length l)
                      end
  /\ (forall j, found l' <> Some j -> nth_error l' j = nth_error l j)
  /\ ReadingHistory (AddBookmark bookmark c) = ReadingHistory c
  /\ LastFiction (AddBookmark bookmark c) = LastFiction c.
Proof.
  intros l l' found.
  pose proof (AddBookmark_list bookmark c) as H. cbv zeta in H.
  fold l l' found in H.
  assert (E4 : ReadingHistory (AddBookmark bookmark c) = ReadingHistory c
               /\ LastFiction (AddBookmark bookmark c) = LastFiction c).
  { unfold AddBookmark.
    destruct (find_bookmark (bm_FictionID bookmark) (bm_ChapterIndex bookmark)
                (Bookmarks c)); split; reflexivity. }
  destruct (found l) as [i|] eqn:F.
  - destruct H as [E Li].
    destruct (find_bookmark_Some _ _ _ _ F) as (b & N & P & NI).
    assert (Lf : List.length (firstn i l) = i) by (rewrite length_firstn; lia).
    assert (F' : found l' = Some i).
    { subst found. cbv beta. rewrite E, find_bookmark_app by exact NI.
      rewrite find_bookmark_here. cbn [option_map]. f_equal. lia. }
    pose proof (nth_error_split l i b N) as Hl.
    set (l1 := firstn i l) in *. set (l2 := skipn (S i) l) in *.
    clearbody l1 l2.
    split; [|split; [|split; [|exact E4]]].
    + exists i. split; [exact F'|]. split; [|now left].
      rewrite E, nth_error_app2 by lia. now rewrite Lf, Nat.sub_diag.
    + rewrite E, Hl, !length_app. reflexivity.
    + intros j Hj. rewrite F' in Hj.
      assert (j <> i) by congruence.
      rewrite E, Hl.
      destruct (Nat.lt_ge_cases j i).
      * rewrite !nth_error_app1 by lia. reflexivity.
      * rewrite !nth_error_app2 by lia. rewrite Lf.
        destruct (j - i)%nat as [|k] eqn:K; [lia|]. reflexivity.
  - apply find_bookmark_None in F.
    assert (F' : found l' = Some (List.length l)).
    { subst found. cbv beta. rewrite H, find_bookmark_app by exact F.
      rewrite find_bookmark_here. cbn [option_map]. f_equal. lia. }
    split; [|split; [|split; [|exact E4]]].
    + exists (List.length l). split; [exact F'|]. split; [|right; now split].
      rewrite H, nth_error_app2 by lia. now rewrite Nat.sub_diag.
    + rewrite H, length_app. cbn. lia.
    + intros j Hj. rewrite F' in Hj.
      assert (j <> List.length l) by congruence.
      rewrite H. destruct (Nat.lt_ge_cases j (List.length l)).
      * now rewrite nth_error_app1 by lia.
      * rewrite nth_error_app2 by lia.
        destruct (j - List.length l)%nat as [|k] eqn:K; [lia|].
        cbn. rewrite nth_error_nil. symmetry. apply nth_error_None. lia.
Qed.

Lemma NoDup_place_remove (l1 l2 : list Bookmark) (b : Bookmark) :
  NoDup (map place (l1 ++ b :: l2)) ->
  NoDup (map place (l1 ++ l2)) /\ ~ In (place b) (map place (l1 ++ l2)).
Proof.
  rewrite !map_app. cbn [map]. intros H.
  split; [now apply NoDup_remove_1 in H | now apply NoDup_remove_2 in H].
Qed.

Lemma NoDup_place_insert (l1 l2 : list Bookmark) (b : Bookmark) :
  NoDup (map place (l1 ++ l2)) -> ~ In (place b) (map place (l1 ++ l2)) ->
  NoDup (map place (l1 ++ b :: l2)).
Proof.
  rewrite !map_app. cbn [map]. intros H NI.
  apply NoDup_Add with (a := place b) (l := map place l1 ++ map place l2).
  - apply Add_app.
  - now split.
Qed.

(** With at most one bookmark a place, [AddBookmark] and [RemoveBookmark]
    leave at most one bookmark a place, and [RemoveBookmark] leaves none
    of the place it is called for, and every bookmark of another place in
    the order they had. *)
Theorem bookmarks_one_a_place (c : Config) :
  NoDup (map place (Bookmarks c)) ->
  (forall bookmark, NoDup (map place (Bookmarks (AddBookmark bookmark c))))
  /\ (forall fictionID chapterIndex,
        let l' := Bookmarks (RemoveBookmark fictionID chapterIndex c) in
        NoDup (map place l')
        /\ find_bookmark fictionID chapterIndex l' = None
        /\ l' = filter (fun b => negb (at_place fictionID chapterIndex b)) (Bookmarks c)).
Proof.
  intros ND. split.
  - intros bookmark.
    pose proof (AddBookmark_list bookmark c) as H. cbv zeta in H.
    destruct (find_bookmark (bm_FictionID bookmark) (bm_ChapterIndex bookmark)
                (Bookmarks c)) as [i|] eqn:F.
    + destruct H as [-> _].
      destruct (find_bookmark_Some _ _ _ _ F) as (b & N & P & _).
      rewrite (nth_error_split _ i b N) in ND.
      apply NoDup_place_remove in ND. destruct ND as [ND NI].
      apply NoDup_place_insert; try exact ND.
      change (place bookmark) with (bm_FictionID bookmark, bm_ChapterIndex bookmark).
      rewrite <- P. exact NI.
    + rewrite H. apply find_bookmark_None in F.
      rewrite <- (app_nil_r (Bookmarks c)) in ND, F.
      apply NoDup_place_insert; assumption.
  - intros fictionID chapterIndex l'. subst l'. unfold RemoveBookmark.
    destruct (find_bookmark fictionID chapterIndex (Bookmarks c)) as [i|] eqn:F;
      cbn [Bookmarks set_bookmarks].
    + destruct (find_bookmark_Some _ _ _ _ F) as (b & N & P & NI1).
      pose proof ND as ND0.
      rewrite (nth_error_split _ i b N) in ND.
      apply NoDup_place_remove in ND. destruct ND as [ND NI].
      rewrite P in NI.
      split; [exact ND|]. split; [now apply find_bookmark_None|].
      rewrite (nth_error_split _ i b N) at 3.
      rewrite filter_app. cbn [filter].
      apply at_place_spec in P. rewrite P. cbn [negb].
      rewrite map_app, in_app_iff in NI.
      f_equal; symmetry; apply forallb_filter_id; apply forallb_forall; intros x Hx;
        apply negb_true_iff; destruct (at_place fictionID chapterIndex x) eqn:E;
        try reflexivity; apply at_place_spec in E; exfalso; apply NI;
        [left|right]; rewrite <- E; now apply in_map.
    + split; [exact ND|]. split; [exact F|].
      apply find_bookmark_None in F.
      symmetry. apply forallb_filter_id. apply forallb_forall. intros x Hx.
      apply negb_true_iff. destruct (at_place fictionID chapterIndex x) eqn:E;
        [|reflexivity].
      apply at_place_spec in E. exfalso. apply F. rewrite <- E. now apply in_map.
Qed.

(** A bookmark added at a place that had none is taken away again by
    [RemoveBookmark], which gives back the configuration. *)
Theorem RemoveBookmark_AddBookmark (bookmark : Bookmark) (c : Config) :
  find_bookmark (bm_FictionID bookmark) (bm_ChapterIndex bookmark) (Bookmarks c) = None ->
  RemoveBookmark (bm_FictionID bookmark) (bm_ChapterIndex bookmark)
                 (AddBookmark bookmark c) = c.
Proof.
  intros F.
  pose proof (AddBookmark_list bookmark c) as H. cbv zeta in H. rewrite F in H.
  unfold RemoveBookmark. rewrite H.
  apply find_bookmark_None in F.
  rewrite find_bookmark_app, find_bookmark_here by exact F. cbn [option_map].
  rewrite Nat.add_0_r.
  rewrite firstn_app, firstn_all, Nat.sub_diag. cbn [firstn].
  rewrite skipn_app, skipn_all2 by lia.
  replace (S (List.length (Bookmarks c)) - List.length (Bookmarks c))%nat with 1%nat by lia.
  cbn [skipn app]. rewrite !app_nil_r.
  unfold AddBookmark. apply find_bookmark_None in F. rewrite F.
  destruct c; reflexivity.
Qed.

(** *** Closed examples *)

Import Config.

Definition sample_bookmark (id : string) (chapter position : Z) : Bookmark :=
  {| bm_FictionID := id; bm_FictionTitle := "A Fiction";
     bm_ChapterIndex := chapter; bm_ChapterTitle := "A Chapter";
     bm_Position := position; bm_CreatedAt := "2024-05-01 10:00" |}.

(** Two bookmarks in one fiction and one in another. *)
Definition marked : Config :=
  set_bookmarks DefaultConfig
    [sample_bookmark "7" 1 0; sample_bookmark "7" 4 12; sample_bookmark "9" 1 3].

Lemma marked_one_a_place : NoDup (map place (Bookmarks marked)).
Proof.
  cbn. repeat constructor; cbn; intuition discriminate.
Qed.

(** A bookmark moved within chapter 4 of fiction 7, and the bookmark of
    that chapter removed. *)
Lemma bookmarks_one_a_place_witness :
  NoDup (map place (Bookmarks marked))
  /\ NoDup (map place (Bookmarks (AddBookmark (sample_bookmark "7" 4 30) marked)))
  /\ Bookmarks (RemoveBookmark "7" 4 marked)
     = [sample_bookmark "7" 1 0; sample_bookmark "9" 1 3].
Proof.
  pose proof marked_one_a_place as ND.
  destruct (bookmarks_one_a_place marked ND) as [A R].
  split; [exact ND|]. split; [apply A|].
  destruct (R "7" 4) as (_ & _ & E). exact E.
Defined.

(** A bookmark at chapter 2 of fiction 9, where there was none. *)
Lemma RemoveBookmark_AddBookmark_witness :
  find_bookmark "9" 2 (Bookmarks marked) = None
  /\ RemoveBookmark "9" 2 (AddBookmark (sample_bookmark "9" 2 5) marked) = marked.
Proof.
  assert (F : find_bookmark (bm_FictionID (sample_bookmark "9" 2 5))
                (bm_ChapterIndex (sample_bookmark "9" 2 5)) (Bookmarks marked) = None)
    by reflexivity.
  split; [exact F|].
  exact (RemoveBookmark_AddBookmark (sample_bookmark "9" 2 5) marked F).
Defined.

End BookmarkSpec.

(* ===================================================================== *)
(** * internal/api: the chapter of a link *)
(* ===================================================================== *)

Module LinkSpec.
Import StringFacts.

(** The chapter of a link.  A link is its segments joined by slashes;
    [extractChapterID] reads the sixth segment, the one behind
    [/fiction/<id>/<name>/chapter/], as a decimal number, and answers -1
    for a link of fewer segments or a sixth segment that is no number. *)
Theorem extractChapterID_sixth_segment (segments : list string) :
  segments <> [] ->
  Forall (fun e => ~ has_byte "/"%char e) segments ->
  Api.extractChapterID (GoStrings.Join segments "/")
  = match nth_error segments 5 with
    | Some segment =>
        match GoStrings.Atoi segment with
        | Some id => id
        | None => -1
        end
    | None => -1
    end.
Proof.
  intros NE F. unfold Api.extractChapterID.
  rewrite (Split_Join_byte "/"%char segments NE F).
  destruct (Z.geb_spec (GoInt.len segments) 6) as [Ge|Lt].
  - destruct (nth_error segments 5) as [segment|] eqn:N.
    + now rewrite (nth_error_nth _ _ _ N).
    + apply nth_error_None in N. unfold GoInt.len in Ge. lia.
  - destruct (nth_error segments 5) as [segment|] eqn:N; [|reflexivity].
    assert (H : nth_error segments 5 <> None) by congruence.
    apply nth_error_Some in H. unfold GoInt.len in Lt. lia.
Qed.

(** *** Closed examples *)

Import StringFacts.

(** The link of a chapter of the site. *)
Lemma extractChapterID_sixth_segment_witness :
  let segments := [""; "fiction"; "21220"; "mother-of-learning"; "chapter"; "301778";
                   "1-good-morning-brother"] in
  segments <> []
  /\ Forall (fun e => ~ has_byte "/"%char e) segments
  /\ Api.extractChapterID
       "/fiction/21220/mother-of-learning/chapter/301778/1-good-morning-brother"
     = 301778
  /\ Api.extractChapterID "/fiction/21220/mother-of-learning" = -1.
Proof.
  intros segments.
  assert (NE : segments <> []) by discriminate.
  assert (F : Forall (fun e => ~ has_byte "/"%char e) segments).
  { repeat constructor; unfold has_byte; cbn; intuition discriminate. }
  split; [exact NE|]. split; [exact F|]. split.
  - exact (extractChapterID_sixth_segment segments NE F).
  - assert (F2 : Forall (fun e => ~ has_byte "/"%char e)
                        [""; "fiction"; "21220"; "mother-of-learning"]).
    { repeat constructor; unfold has_byte; cbn; intuition discriminate. }
    exact (extractChapterID_sixth_segment [""; "fiction"; "21220"; "mother-of-learning"]
             ltac:(discriminate) F2).
Defined.

End LinkSpec.

(* ===================================================================== *)
(** * internal/ui/reader.go: [wrapText] *)
(* ===================================================================== *)

Module WrapSpec.
Import GoStrings.
Import Reflow.
Import StringFacts.
Import FieldsFacts.
Import ReaderSpec.

Definition LF_byte : ascii := ascii_of_nat 10.

Lemma LF_space : asciiSpace LF_byte = true.
Proof. reflexivity. Qed.

Lemma blank_space : asciiSpace " "%char = true.
Proof. reflexivity. Qed.

(** The lines that the loop of [wrapText] over the words of a paragraph
    leaves: the completed lines and the line being filled, if any. *)
Definition all_lines (r : list string * string) : list string :=
  fst r ++ (if String.eqb (snd r) "" then [] else [snd r]).

Definition words_of (lines : list string) : list string :=
  List.concat (map Fields lines).

Lemma words_of_app (l1 l2 : list string) : words_of (l1 ++ l2) = words_of l1 ++ words_of l2.
Proof. unfold words_of. now rewrite map_app, concat_app. Qed.

Lemma all_lines_words (lines : list string) (cur : string) :
  words_of (all_lines (lines, cur)) = words_of lines ++ Fields cur.
Proof.
  unfold all_lines. cbn [fst snd]. rewrite words_of_app.
  destruct (String.eqb_spec cur "") as [->|_]; [reflexivity|].
  unfold words_of. cbn. now rewrite app_nil_r.
Qed.

(** The loop neither loses nor adds nor reorders a word, whatever the
    width. *)
Lemma wrap_words_words (width : Z) (words : list string) :
  Forall word words ->
  forall lines cur,
    words_of (all_lines (wrap_words width words lines cur))
    = words_of lines ++ Fields cur ++ words.
Proof.
  induction 1 as [|w words Hw F IH]; intros lines cur; cbn [wrap_words].
  - now rewrite all_lines_words, app_nil_r.
  - destruct (_ <=? width).
    + destruct (String.eqb_spec cur "") as [->|_]; rewrite IH.
      * now rewrite (Fields_word w Hw).
      * change (cur +++ " " +++ w) with (cur +++ String " "%char w).
        rewrite (Fields_space " "%char cur w blank_space), (Fields_word w Hw).
        now rewrite <- app_assoc.
    + destruct (String.eqb_spec cur "") as [->|_]; cbn [negb]; rewrite IH.
      * now rewrite (Fields_word w Hw).
      * rewrite words_of_app, (Fields_word w Hw). unfold words_of at 2. cbn.
        now rewrite app_nil_r, <- app_assoc.
Qed.

Lemma Fields_Join_space (c : ascii) (l : list string) :
  asciiSpace c = true -> Fields (Join l (String c "")) = words_of l.
Proof.
  intros A. induction l as [|e l IH]; [reflexivity|].
  destruct l as [|e' l].
  - cbn [Join]. unfold words_of. cbn. now rewrite app_nil_r.
  - rewrite Join_cons by discriminate.
    change (e +++ String c "" +++ Join (e' :: l) (String c ""))
      with (e +++ String c (Join (e' :: l) (String c ""))).
    rewrite (Fields_space c _ _ A), IH. reflexivity.
Qed.

Lemma Fields_Join_LFLF (l : list string) : Fields (Join l LFLF) = words_of l.
Proof.
  induction l as [|e l IH]; [reflexivity|].
  destruct l as [|e' l].
  - cbn [Join]. unfold words_of. cbn. now rewrite app_nil_r.
  - rewrite Join_cons by discriminate.
    change (e +++ LFLF +++ Join (e' :: l) LFLF)
      with (e +++ String LF_byte ("" +++ String LF_byte (Join (e' :: l) LFLF))).
    rewrite !(Fields_space LF_byte _ _ LF_space), IH. reflexivity.
Qed.

(** A paragraph that is wrapped keeps its words; one that is skipped
    has none. *)
Lemma wrap_paragraph_words (width : Z) (paragraph : string) :
  Fields match wrap_paragraph width paragraph with
         | Some wrapped => wrapped
         | None => ""
         end
  = Fields paragraph.
Proof.
  unfold wrap_paragraph.
  destruct (String.eqb_spec (TrimSpace paragraph) "") as [E|_].
  { symmetry. now apply TrimSpace_empty_Fields. }
  destruct (Z.eqb_spec (GoInt.len (Fields paragraph)) 0) as [E|_].
  { unfold GoInt.len in E. destruct (Fields paragraph); [reflexivity|discriminate]. }
  pose proof (wrap_words_words width (Fields paragraph) (Fields_words paragraph) [] "")
    as H.
  destruct (wrap_words width (Fields paragraph) [] "") as [lines cur].
  change (Join ?l LF) with (Join l (String LF_byte "")).
  rewrite (Fields_Join_space LF_byte _ LF_space).
  unfold all_lines in H. cbn [fst snd] in H.
  destruct (String.eqb cur ""); cbn [negb]; [rewrite app_nil_r in H|]; exact H.
Qed.

Lemma wrap_paragraphs_words (width : Z) (paragraphs : list string) :
  words_of (wrap_paragraphs width paragraphs) = words_of paragraphs.
Proof.
  induction paragraphs as [|p ps IH]; [reflexivity|].
  cbn [wrap_paragraphs]. pose proof (wrap_paragraph_words width p) as H.
  unfold words_of in *. cbn [map List.concat].
  destruct (wrap_paragraph width p) as [wrapped|]; cbn [map List.concat].
  - now rewrite H, IH.
  - rewrite <- H, IH. reflexivity.
Qed.

(** Wrapping changes white space only.  The words of the wrapped text
    are the words of the text, all of them, once each, in their order,
    whatever the width. *)
Theorem wrapText_keeps_the_words (text : string) (width : Z) :
  Fields (wrapText text width) = Fields text.
Proof.
  unfold wrapText.
  rewrite Fields_Join_LFLF, wrap_paragraphs_words, <- Fields_Join_LFLF.
  rewrite Join_Split by discriminate. reflexivity.
Qed.

(** *** The width of the lines *)

(** A line of the wrapped text: it has no line feed in it, and it fits
    the width or is a single word. *)
Definition line_ok (width : Z) (line : string) : Prop :=
  ~ has_byte LF_byte line
  /\ (GoInt.strlen line <= width \/ Fields line = [line]).

Lemma word_line_ok (width : Z) (w : string) : word w -> line_ok width w.
Proof.
  intros Hw. split; [|right; now apply Fields_word].
  intros H. apply (word_no_space w LF_byte Hw) in H. discriminate.
Qed.

Lemma strlen_app (a b : string) :
  GoInt.strlen (a +++ b) = GoInt.strlen a + GoInt.strlen b.
Proof. unfold GoInt.strlen. rewrite slength_app. lia. Qed.

Lemma wrap_words_widths (width : Z) (words : list string) :
  width < 2 ^ 62 ->
  Forall (fun w => word w /\ GoInt.strlen w < 2 ^ 62) words ->
  forall lines cur,
    Forall (line_ok width) lines ->
    cur = "" \/ line_ok width cur ->
    GoInt.strlen cur < 2 ^ 62 ->
    Forall (line_ok width) (all_lines (wrap_words width words lines cur)).
Proof.
  intros HW. induction 1 as [|w words [Hw Lw] F IH]; intros lines cur Hl Hc Lc;
    cbn [wrap_words].
  - unfold all_lines. cbn [fst snd]. apply Forall_app. split; [exact Hl|].
    destruct (String.eqb_spec cur "") as [E|N]; [constructor|].
    constructor; [|constructor]. destruct Hc; [contradiction|assumption].
  - assert (0 <= GoInt.strlen cur /\ 0 <= GoInt.strlen w)
      by (unfold GoInt.strlen; lia).
    unwrap.
    destruct (Z.leb_spec (GoInt.strlen cur + GoInt.strlen w + 1) width) as [Le|Gt].
    + destruct (String.eqb_spec cur "") as [->|N].
      * apply IH; [exact Hl| |exact Lw]. right. now apply word_line_ok.
      * destruct Hc as [E|[Nc _]]; [contradiction|].
        assert (Len : GoInt.strlen (cur +++ " " +++ w)
                      = GoInt.strlen cur + GoInt.strlen w + 1).
        { rewrite !strlen_app. change (GoInt.strlen " ") with 1. lia. }
        apply IH; [exact Hl| |lia].
        right. split; [|left; lia].
        rewrite !has_byte_app. intros [B|[B|B]].
        -- contradiction.
        -- destruct B as [B|[]]. discriminate B.
        -- apply (word_no_space w LF_byte Hw) in B. discriminate.
    + destruct (String.eqb_spec cur "") as [->|N]; cbn [negb].
      * apply IH; [exact Hl| |exact Lw]. right. now apply word_line_ok.
      * apply IH; [| |exact Lw].
        -- apply Forall_app. split; [exact Hl|]. constructor; [|constructor].
           destruct Hc; [contradiction|assumption].
        -- right. now apply word_line_ok.
Qed.

Lemma wrap_paragraph_lines (width : Z) (paragraph wrapped : string) :
  0 <= width < 2 ^ 62 -> GoInt.strlen paragraph < 2 ^ 62 ->
  wrap_paragraph width paragraph = Some wrapped ->
  Forall (line_ok width) (Split wrapped LF).
Proof.
  intros [HW0 HW] HL. unfold wrap_paragraph.
  destruct (String.eqb (TrimSpace paragraph) ""); [discriminate|].
  destruct (GoInt.len (Fields paragraph) =? 0); [discriminate|].
  assert (Fw : Forall (fun w => word w /\ GoInt.strlen w < 2 ^ 62) (Fields paragraph)).
  { pose proof (Fields_words paragraph) as F1.
    pose proof (Fields_lengths paragraph) as F2.
    rewrite Forall_forall in *. intros w Hw. split; [now apply F1|].
    specialize (F2 w Hw). cbv beta in F2. unfold GoInt.strlen in *. lia. }
  pose proof (wrap_words_widths width (Fields paragraph) HW Fw [] ""
                (Forall_nil _) (or_introl eq_refl)) as H.
  specialize (H ltac:(cbn; lia)).
  destruct (wrap_words width (Fields paragraph) [] "") as [lines cur].
  unfold all_lines in H. cbn [fst snd] in H.
  intros [= <-].
  set (ls := if negb (String.eqb cur "") then lines ++ [cur] else lines).
  assert (Hls : Forall (line_ok width) ls).
  { subst ls. destruct (String.eqb cur ""); cbn [negb];
      [now rewrite app_nil_r in H | exact H]. }
  clearbody ls. destruct ls as [|l0 ls]; [cbn; constructor; [|constructor]|].
  - split; [intros []|]. left. cbn. lia.
  - change LF with (String LF_byte "").
    rewrite Split_Join_byte; [exact Hls|discriminate|].
    eapply Forall_impl; [|exact Hls]. now intros l [Hn _].
Qed.

Lemma wrap_paragraphs_lines (width : Z) (paragraphs : list string) :
  0 <= width < 2 ^ 62 ->
  Forall (fun p => GoInt.strlen p < 2 ^ 62) paragraphs ->
  Forall (fun wrapped => Forall (line_ok width) (Split wrapped LF))
         (wrap_paragraphs width paragraphs).
Proof.
  intros HW. induction 1 as [|p ps Hp F IH]; cbn [wrap_paragraphs]; [constructor|].
  destruct (wrap_paragraph width p) as [wrapped|] eqn:E; [|exact IH].
  constructor; [|exact IH]. now apply (wrap_paragraph_lines width p).
Qed.

Lemma Split_Join_LFLF (l : list string) (line : string) :
  In line (Split (Join l LFLF) LF) ->
  line = "" \/ exists p, In p l /\ In line (Split p LF).
Proof.
  change LF with (String LF_byte "").
  induction l as [|e l IH]; [cbn; intros [<-|[]]; now left|].
  destruct l as [|e' l].
  - cbn [Join]. intros H. right. exists e. split; [now left|exact H].
  - rewrite Join_cons by discriminate.
    change (e +++ LFLF +++ Join (e' :: l) LFLF)
      with (e +++ String LF_byte ("" +++ String LF_byte (Join (e' :: l) LFLF))).
    rewrite !Split_byte_app, !in_app_iff. intros [H|[H|H]].
    + right. exists e. split; [now left|exact H].
    + left. cbn in H. destruct H as [<-|[]]. reflexivity.
    + destruct (IH H) as [E|(p & Hp & Hl)]; [now left|].
      right. exists p. split; [now right|exact Hl].
Qed.

Lemma effective_width_floor (width : Z) : 20 < effective_width width.
Proof. unfold effective_width. destruct (Z.leb_spec width 20); lia. Qed.

Lemma wrapped_line_fits (text : string) (width : Z) (line : string) :
  GoInt.strlen text < 2 ^ 62 -> width < 2 ^ 62 ->
  In line (Split (wrapText text width) LF) ->
  GoInt.strlen line <= effective_width width \/ Fields line = [line].
Proof.
  intros HL HW H. unfold wrapText in H.
  pose proof (effective_width_floor width) as Fl.
  apply Split_Join_LFLF in H. destruct H as [->|(p & Hp & Hl)].
  { left. cbn. lia. }
  assert (HW' : 0 <= effective_width width < 2 ^ 62).
  { unfold effective_width. destruct (Z.leb_spec width 20); lia. }
  assert (Fp : Forall (fun p => GoInt.strlen p < 2 ^ 62) (Split text LFLF)).
  { pose proof (Split_lengths text LFLF) as F. rewrite Forall_forall in *.
    intros q Hq. specialize (F q Hq). cbv beta in F. unfold GoInt.strlen in *. lia. }
  pose proof (wrap_paragraphs_lines _ _ HW' Fp) as F.
  rewrite Forall_forall in F. specialize (F p Hp).
  rewrite Forall_forall in F. now destruct (F line Hl) as [_ R].
Qed.

(** *** Where the lines are broken *)











End WrapSpec.

(* ===================================================================== *)
(** * internal/ui/reader.go: [cleanHTML] *)
(* ===================================================================== *)

Module CleanSpec.
Import GoStrings.
Import Reflow.
Import StringFacts.
Import FieldsFacts.

(** The angle brackets of a string, in their order. *)
Definition is_angle (c : ascii) : bool := Ascii.eqb c "<"%char || Ascii.eqb c ">"%char.

Fixpoint angles (s : string) : string :=
  match s with
  | EmptyString => EmptyString
  | String c s' => if is_angle c then String c (angles s') else angles s'
  end.

(** A tag, as the expression of [cleanHTML] reads it: a < with a > behind
    it. *)
Fixpoint tagged (s : string) : bool :=
  match s with
  | EmptyString => false
  | String c s' => (Ascii.eqb c "<"%char && has_gt s') || tagged s'
  end.

Lemma angles_app (a b : string) : angles (a +++ b) = angles a +++ angles b.
Proof.
  induction a as [|c a IH]; [reflexivity|]. cbn [String.append angles].
  rewrite IH. now destruct (is_angle c).
Qed.

Lemma has_gt_angles (s : string) : has_gt (angles s) = has_gt s.
Proof.
  induction s as [|c s IH]; [reflexivity|]. cbn [angles has_gt]. unfold is_angle.
  destruct (Ascii.eqb_spec c ">"%char) as [->|N]; [reflexivity|].
  rewrite orb_false_r.
  destruct (Ascii.eqb_spec c "<"%char) as [->|N']; cbn [has_gt orb]; [|exact IH].
  rewrite IH. reflexivity.
Qed.

Lemma tagged_angles (s : string) : tagged (angles s) = tagged s.
Proof.
  induction s as [|c s IH]; [reflexivity|]. cbn [angles tagged]. unfold is_angle.
  destruct (Ascii.eqb_spec c "<"%char) as [->|N].
  - cbn [orb andb tagged]. now rewrite has_gt_angles, IH.
  - cbn [orb andb]. destruct (Ascii.eqb_spec c ">"%char) as [->|N'];
      [cbn [tagged]; cbn [Ascii.eqb Bool.eqb andb orb]|]; exact IH.
Qed.

Lemma has_gt_app (a b : string) : has_gt (a +++ b) = has_gt a || has_gt b.
Proof.
  induction a as [|c a IH]; [reflexivity|]. cbn [String.append has_gt].
  now rewrite IH, orb_assoc.
Qed.

Lemma tagged_tag (a b c : string) :
  tagged (a +++ String "<" (b +++ String ">" c)) = true.
Proof.
  induction a as [|x a IH].
  - cbn [String.append tagged]. rewrite has_gt_app. cbn [has_gt].
    cbn [Ascii.eqb Bool.eqb andb orb]. now rewrite orb_true_r.
  - cbn [String.append tagged]. rewrite IH. apply orb_true_r.
Qed.

(** *** The steps of [cleanHTML] *)

Lemma strip_tags_has_gt (s : string) (in_tag : bool) :
  has_gt (strip_tags s in_tag) = true -> has_gt s = true.
Proof.
  revert in_tag. induction s as [|c s IH]; intros in_tag; cbn [strip_tags has_gt].
  - now destruct in_tag.
  - destruct in_tag.
    + intros H. apply IH in H. rewrite H. apply orb_true_r.
    + destruct (Ascii.eqb c "<" && has_gt s) eqn:E.
      * intros H. apply IH in H. rewrite H. apply orb_true_r.
      * cbn [has_gt]. destruct (Ascii.eqb c ">"); [reflexivity|].
        cbn [orb]. apply IH.
Qed.

(** No tag is left by the removal of the tags. *)
Lemma strip_tags_tagged (s : string) (in_tag : bool) :
  tagged (strip_tags s in_tag) = false.
Proof.
  revert in_tag. induction s as [|c s IH]; intros in_tag; cbn [strip_tags].
  - now destruct in_tag.
  - destruct in_tag; [apply IH|].
    destruct (Ascii.eqb c "<" && has_gt s) eqn:E; [apply IH|].
    cbn [tagged]. rewrite IH, orb_false_r.
    destruct (Ascii.eqb c "<"); [|reflexivity]. cbn [andb] in *.
    destruct (has_gt (strip_tags s false)) eqn:G; [|reflexivity].
    apply strip_tags_has_gt in G. congruence.
Qed.

Lemma re_space_not_angle (c : ascii) : re_space c = true -> is_angle c = false.
Proof.
  unfold re_space, is_angle. intros H.
  destruct (Ascii.eqb_spec c "<"%char) as [->|_]; [discriminate H|].
  destruct (Ascii.eqb_spec c ">"%char) as [->|_]; [discriminate H|]. reflexivity.
Qed.

Lemma collapse_spaces_angles (s : string) (in_run : bool) :
  angles (collapse_spaces s in_run) = angles s.
Proof.
  revert in_run. induction s as [|c s IH]; intros in_run; [reflexivity|].
  cbn [collapse_spaces angles].
  destruct (re_space c) eqn:R.
  - rewrite (re_space_not_angle c R).
    destruct in_run; cbn [angles]; [apply IH|].
    change (is_angle " ") with false. cbv iota. apply IH.
  - cbn [angles]. rewrite IH. reflexivity.
Qed.

Lemma high_not_angle (c : ascii) : 128 <= byte_of c -> is_angle c = false.
Proof.
  unfold is_angle. intros H.
  destruct (Ascii.eqb_spec c "<"%char) as [->|_]; [cbn in H; lia|].
  destruct (Ascii.eqb_spec c ">"%char) as [->|_]; [cbn in H; lia|]. reflexivity.
Qed.

Lemma asciiSpace_not_angle (c : ascii) : asciiSpace c = true -> is_angle c = false.
Proof.
  unfold is_angle. intros H.
  destruct (Ascii.eqb_spec c "<"%char) as [->|_]; [discriminate H|].
  destruct (Ascii.eqb_spec c ">"%char) as [->|_]; [discriminate H|]. reflexivity.
Qed.

Ltac byte_tests :=
  repeat match goal with
         | H : context [Z.eqb ?a ?b] |- _ => destruct (Z.eqb_spec a b)
         | H : context [Z.leb ?a ?b] |- _ => destruct (Z.leb_spec a b)
         end;
  cbn [andb orb] in *; try discriminate.

(** The bytes of a white space are no angle brackets. *)
Lemma space_angles (s : string) (w : nat) :
  space_width s = S w -> angles (drop (S w) s) = angles s.
Proof.
  destruct s as [|c0 s1]; [discriminate|]. rewrite space_width_cases.
  destruct (asciiSpace c0) eqn:A.
  { intros [= <-]. cbn [drop angles]. now rewrite (asciiSpace_not_angle c0 A). }
  destruct s1 as [|c1 [|c2 s3]]; intros H; byte_tests;
    injection H as <-; cbn [drop angles];
    rewrite ?(high_not_angle c0), ?(high_not_angle c1), ?(high_not_angle c2) by lia;
    reflexivity.
Qed.

Lemma trim_left_angles (fuel : nat) (s : string) :
  angles (trim_left space_width fuel s) = angles s.
Proof.
  revert s. induction fuel as [|fuel IH]; intros s; cbn [trim_left]; [reflexivity|].
  destruct (space_width s) as [|w] eqn:W; [reflexivity|].
  now rewrite IH, (space_angles s w W).
Qed.

Lemma angles_rev (s : string) : angles (rev s) = rev (angles s).
Proof.
  induction s as [|c s IH]; [reflexivity|].
  rewrite rev_cons, angles_app, IH. cbn [angles].
  destruct (is_angle c); [now rewrite rev_cons | now rewrite sapp_nil_r].
Qed.

Lemma space_all_angles (e : string) (w : nat) :
  space_width e = S w -> String.length e = S w -> angles e = "".
Proof.
  intros W L. rewrite <- (space_angles e w W).
  assert (E : drop (S w) e = "").
  { pose proof (drop_length (S w) e) as D. rewrite L, Nat.sub_diag in D.
    destruct (drop (S w) e); [reflexivity|discriminate]. }
  now rewrite E.
Qed.

Lemma trim_right_angles (fuel : nat) (r : string) :
  angles (trim_left space_width_rev fuel r) = angles r.
Proof.
  revert r. induction fuel as [|fuel IH]; intros r; cbn [trim_left]; [reflexivity|].
  destruct (space_width_rev r) as [|w] eqn:W; [reflexivity|].
  rewrite IH.
  destruct (space_width_rev_spec r w W) as (e & Er & We & Le).
  rewrite Er at 2. rewrite angles_app, angles_rev, (space_all_angles e w We Le).
  reflexivity.
Qed.

Lemma TrimSpace_angles (s : string) : angles (TrimSpace s) = angles s.
Proof.
  unfold TrimSpace.
  rewrite angles_rev, trim_right_angles, angles_rev, rev_involutive.
  apply trim_left_angles.
Qed.

Lemma angles_Join (l : list string) (sep : string) :
  angles sep = "" ->
  angles (Join l sep) = List.fold_right (fun e acc => angles e +++ acc) "" l.
Proof.
  intros S. induction l as [|e l IH]; [reflexivity|].
  destruct l as [|e' l].
  - cbn. now rewrite sapp_nil_r.
  - rewrite Join_cons by discriminate. rewrite !angles_app, S, IH. reflexivity.
Qed.

Lemma HasSuffix_dot_angles (p : string) :
  angles (if negb (HasSuffix p ".") then p +++ "." else p) = angles p.
Proof.
  destruct (negb (HasSuffix p ".")); [|reflexivity].
  rewrite angles_app. cbn. apply sapp_nil_r.
Qed.

Lemma clean_paragraphs_angles (paragraphs : list string) :
  List.fold_right (fun e acc => angles e +++ acc) "" (clean_paragraphs paragraphs)
  = List.fold_right (fun e acc => angles e +++ acc) "" paragraphs.
Proof.
  induction paragraphs as [|p rest IH]; [reflexivity|].
  cbn [clean_paragraphs fold_right].
  destruct (String.eqb_spec (TrimSpace p) "") as [E|_].
  - rewrite IH, <- (TrimSpace_angles p), E. reflexivity.
  - cbn [fold_right]. rewrite IH. f_equal.
    destruct rest; [apply TrimSpace_angles|].
    rewrite HasSuffix_dot_angles. apply TrimSpace_angles.
Qed.

Section Clean.

Variable UnescapeString : string -> string.

(** No tag is left.  What [cleanHTML] returns has no < with a > behind
    it, whatever the content and whatever [html.UnescapeString] makes of
    it. *)
Theorem cleanHTML_leaves_no_tag (htmlContent a b c : string) :
  cleanHTML UnescapeString htmlContent <> a +++ "<" +++ b +++ ">" +++ c.
Proof.
  intros E. apply (f_equal tagged) in E.
  change (a +++ "<" +++ b +++ ">" +++ c)
    with (a +++ String "<"%char (b +++ String ">"%char c)) in E.
  rewrite tagged_tag in E.
  assert (A : angles (cleanHTML UnescapeString htmlContent)
              = angles (strip_tags (UnescapeString htmlContent) false)).
  { unfold cleanHTML.
    set (content := TrimSpace (collapse_spaces (strip_tags _ false) false)).
    assert (Ac : angles content = angles (strip_tags (UnescapeString htmlContent) false))
      by (subst content; now rewrite TrimSpace_angles, collapse_spaces_angles).
    destruct (GoInt.len (Split content ". ") >? 1); [|exact Ac].
    rewrite angles_Join by reflexivity.
    rewrite clean_paragraphs_angles, <- (angles_Join _ ". ") by reflexivity.
    rewrite Join_Split by discriminate. exact Ac. }
  rewrite <- tagged_angles, A, tagged_angles, strip_tags_tagged in E.
  discriminate.
Qed.

Lemma strip_tags_outside (a s : string) :
  ~ has_byte "<"%char a ->
  strip_tags (a +++ s) false = a +++ strip_tags s false.
Proof.
  induction a as [|x a IH]; intros N; [reflexivity|].
  cbn [String.append strip_tags].
  destruct (Ascii.eqb_spec x "<"%char) as [->|_]; [exfalso; apply N; now left|].
  cbn [andb]. rewrite IH; [reflexivity|]. intros H. apply N. now right.
Qed.

Lemma strip_tags_inside (b c : string) :
  ~ has_byte ">"%char b ->
  strip_tags (b +++ String ">" c) true = strip_tags c false.
Proof.
  induction b as [|x b IH]; intros N.
  - reflexivity.
  - cbn [String.append strip_tags].
    destruct (Ascii.eqb_spec x ">"%char) as [->|_]; [exfalso; apply N; now left|].
    cbn [negb]. apply IH. intros H. apply N. now right.
Qed.

(** What is between a < and the next > is dropped, be it the name of a
    tag or text: a content that unescapes to a text with such a stretch
    cleans to what the text without the stretch cleans to. *)
Theorem cleanHTML_drops_between_angles (htmlContent without a b c : string) :
  ~ has_byte "<"%char a -> ~ has_byte ">"%char b ->
  UnescapeString htmlContent = a +++ "<" +++ b +++ ">" +++ c ->
  UnescapeString without = a +++ c ->
  cleanHTML UnescapeString htmlContent = cleanHTML UnescapeString without.
Proof.
  intros Na Nb E E'. unfold cleanHTML. rewrite E, E'.
  change (a +++ "<" +++ b +++ ">" +++ c)
    with (a +++ String "<"%char (b +++ String ">"%char c)).
  rewrite !strip_tags_outside by exact Na.
  cbn [strip_tags]. cbn [Ascii.eqb Bool.eqb andb].
  rewrite has_gt_app. cbn [has_gt]. cbn [Ascii.eqb Bool.eqb orb].
  rewrite orb_true_r, strip_tags_inside by exact Nb. reflexivity.
Qed.

End Clean.

(** *** Closed examples *)

Import GoStrings Reflow StringFacts.

(** A text with a < and a > in it, which is no tag. *)
Lemma cleanHTML_drops_between_angles_witness :
  ~ has_byte "<"%char "if x "
  /\ ~ has_byte ">"%char " 3 and y "
  /\ cleanHTML Fixtures.no_entities "if x < 3 and y > 2"
     = cleanHTML Fixtures.no_entities "if x  2"
  /\ cleanHTML Fixtures.no_entities "if x < 3 and y > 2" = "if x 2".
Proof.
  assert (Na : ~ has_byte "<"%char "if x ")
    by (unfold has_byte; cbn; intuition discriminate).
  assert (Nb : ~ has_byte ">"%char " 3 and y ")
    by (unfold has_byte; cbn; intuition discriminate).
  split; [exact Na|]. split; [exact Nb|].
  pose proof (cleanHTML_drops_between_angles Fixtures.no_entities
                "if x < 3 and y > 2" "if x  2" "if x " " 3 and y " " 2"
                Na Nb eq_refl eq_refl) as E.
  split; [exact E|]. rewrite E. reflexivity.
Defined.

End CleanSpec.

(* ===================================================================== *)
(** * internal/ui/reader.go: the pages of a chapter *)
(* ===================================================================== *)

Module PageSpec.
Import Reader.
Import ReaderSpec.
Import ListFacts.
Import HistoryPages.

(** Writing the empty string over the unused end of a new page changes
    nothing. *)
Lemma fill_padding {A : Type} (x : A) (n k : nat) (l : list A) :
  (n <= k)%nat ->
  fill (l ++ repeat x k) (List.length l) n x = l ++ repeat x k.
Proof.
  revert k l. induction n as [|n IH]; intros k l Hk; [reflexivity|].
  destruct k as [|k]; [lia|].
  cbn [fill repeat]. rewrite assign_same.
  replace (l ++ x :: repeat x k) with ((l ++ [x]) ++ repeat x k)
    by (now rewrite <- app_assoc).
  replace (S (List.length l)) with (List.length (l ++ [x]))
    by (rewrite length_app; cbn; lia).
  apply IH. lia.
Qed.

Lemma copy_into_new {A : Type} (x : A) (n : nat) (src : list A) :
  (List.length src <= n)%nat ->
  copy (repeat x n) src = src ++ repeat x (n - List.length src).
Proof.
  intros H. unfold copy. rewrite repeat_length, firstn_all2 by exact H.
  f_equal.
  replace n with (List.length src + (n - List.length src))%nat at 1 by lia.
  rewrite repeat_app, skipn_app, repeat_length, Nat.sub_diag.
  rewrite skipn_all2 by (rewrite repeat_length; lia). reflexivity.
Qed.

Section Pages.

Context {T : GoTime}.
Variable noContentText : float -> string.
Variable endOfChapterText : Z -> Z -> Z -> string.

(** The lines of page [k] of a reader, at its page height. *)
Definition page_lines (m : ReaderModel) (k : nat) : list string :=
  firstn (Z.to_nat (linesPerPage m))
         (skipn (k * Z.to_nat (linesPerPage m)) (content m)).

(** A page filled up to the page height with empty lines. *)
Definition padded (m : ReaderModel) (lines : list string) : string :=
  GoStrings.Join
    (lines ++ repeat EmptyString (Z.to_nat (linesPerPage m) - List.length lines))
    Reflow.LF.

Lemma page_content (m : ReaderModel) (k : Z) :
  1 <= linesPerPage m <= 2 ^ 62 ->
  1 <= GoInt.len (content m) < 2 ^ 53 ->
  0 <= k < Z.max 1 (ceil_div (GoInt.len (content m)) (linesPerPage m)) ->
  getCurrentPageContent noContentText endOfChapterText (set_currentPage k m)
  = Some (padded m (page_lines m (Z.to_nat k)))
  /\ (1 <= List.length (page_lines m (Z.to_nat k)) <= Z.to_nat (linesPerPage m))%nat
  /\ ((k + 1) * linesPerPage m <= GoInt.len (content m) ->
      List.length (page_lines m (Z.to_nat k)) = Z.to_nat (linesPerPage m)).
Proof.
  intros Hp HL Hk.
  pose proof (ceil_div_bounds _ _ (proj1 HL) (proj1 Hp)) as B.
  pose proof (ceil_div_covers _ _ (proj1 HL) (proj1 Hp)) as Cv.
  set (tp := ceil_div (GoInt.len (content m)) (linesPerPage m)) in *.
  set (L := GoInt.len (content m)) in *.
  set (p := linesPerPage m) in *.
  assert (S1 : 0 <= k * p < L) by nia.
  assert (Ll : (List.length (page_lines m (Z.to_nat k)) = Z.to_nat (Z.min p (L - k * p)))%nat).
  { unfold page_lines. rewrite length_firstn, length_skipn. fold p.
    subst L. unfold GoInt.len in *. nia. }
  split; [|split; [lia|intros Full; fold p L in Full; lia]].
  unfold getCurrentPageContent. fields. fold L p.
  destruct (Z.eqb_spec L 0); [lia|].
  unwrap.
  destruct (Z.geb_spec (k * p) L); [lia|].
  destruct (Z.ltb_spec p 0); [lia|].
  set (e := if k * p + p >? L then L else k * p + p).
  assert (Ee : e = Z.min (k * p + p) L).
  { subst e. destruct (Z.gtb_spec (k * p + p) L); lia. }
  unfold Config.slice. fold L.
  destruct (Z.leb_spec 0 (k * p)); [|lia].
  destruct (Z.leb_spec (k * p) e); [|lia].
  destruct (Z.leb_spec e L); [|lia].
  cbn [andb]. f_equal.
  assert (Es : firstn (Z.to_nat (e - k * p)) (skipn (Z.to_nat (k * p)) (content m))
               = page_lines m (Z.to_nat k)).
  { unfold page_lines. fold p. replace (Z.to_nat k * Z.to_nat p)%nat
      with (Z.to_nat (k * p)) by nia.
    destruct (Z.le_gt_cases (k * p + p) L).
    - f_equal. lia.
    - rewrite !firstn_all2; [reflexivity| |];
        rewrite length_skipn; subst L; unfold GoInt.len in *; lia. }
  rewrite Es. unwrap.
  rewrite copy_into_new by lia.
  replace (Z.to_nat (e - k * p)) with (List.length (page_lines m (Z.to_nat k))) by lia.
  rewrite fill_padding by lia.
  reflexivity.
Qed.

(** The pages of a loaded chapter.  Every page that [getCurrentPageContent]
    shows is a run of lines of the chapter, [linesPerPage] of them on
    every page but the last and at least one on the last, filled up with
    empty lines to the page height, never the notice of a page behind the
    end; and the runs of the pages 0, 1, ..., [totalPages - 1], one
    behind the other, are the lines of the chapter. *)
Theorem pages_cover_chapter (m : ReaderModel) :
  Inv m -> currentChapter m <> None ->
  exists pages : list (list string),
    List.concat pages = content m
    /\ GoInt.len pages = totalPages m
    /\ (forall k lines,
          nth_error pages k = Some lines ->
          (1 <= List.length lines <= Z.to_nat (linesPerPage m))%nat
          /\ (Z.of_nat k < totalPages m - 1 ->
              List.length lines = Z.to_nat (linesPerPage m))
          /\ getCurrentPageContent noContentText endOfChapterText
               (set_currentPage (Z.of_nat k) m)
             = Some (padded m lines))
    /\ exists lines,
         nth_error pages (Z.to_nat (currentPage m)) = Some lines
         /\ getCurrentPageContent noContentText endOfChapterText m
            = Some (padded m lines).
Proof.
  intros (W & I) Ld. destruct (I Ld) as (HL & Pt & Pc).
  destruct W as (Hp & _).
  pose proof (ceil_div_bounds _ _ (proj1 HL) (proj1 Hp)) as B.
  pose proof (ceil_div_covers _ _ (proj1 HL) (proj1 Hp)) as Cv.
  set (tp := ceil_div (GoInt.len (content m)) (linesPerPage m)) in *.
  assert (Et : totalPages m = tp) by lia.
  exists (map (page_lines m) (seq 0 (Z.to_nat tp))).
  assert (Nth : forall k, (k < Z.to_nat tp)%nat ->
                nth_error (map (page_lines m) (seq 0 (Z.to_nat tp))) k
                = Some (page_lines m k)).
  { intros k Hk. rewrite nth_error_map, nth_error_seq.
    destruct (Nat.ltb_spec k (Z.to_nat tp)); [reflexivity|lia]. }
  split; [|split; [|split]].
  - unfold page_lines. rewrite concat_chunks.
    apply firstn_all2. unfold GoInt.len in *. nia.
  - unfold GoInt.len. rewrite length_map, length_seq. lia.
  - intros k lines Hk.
    assert (Kt : (k < Z.to_nat tp)%nat).
    { assert (Hn : nth_error (map (page_lines m) (seq 0 (Z.to_nat tp))) k <> None)
        by congruence.
      apply nth_error_Some in Hn. now rewrite length_map, length_seq in Hn. }
    rewrite (Nth k Kt) in Hk. injection Hk as <-.
    destruct (page_content m (Z.of_nat k) Hp HL ltac:(lia)) as (E & Bl & Full).
    rewrite Nat2Z.id in E, Bl, Full. split; [exact Bl|]. split; [|exact E].
    intros Hk'. apply Full. nia.
  - exists (page_lines m (Z.to_nat (currentPage m))).
    split; [apply Nth; lia|].
    destruct (page_content m (currentPage m) Hp HL ltac:(lia)) as (E & _).
    rewrite <- E. f_equal. destruct m; reflexivity.
Qed.

End Pages.

(** *** Closed examples *)

Import Reader ReaderSpec Examples.

(** The two pages of the chapter of 12 sentences: 19 lines, and 4 lines
    with 15 empty lines behind them. *)
Lemma pages_cover_chapter_witness :
  Inv reading /\ currentChapter reading <> None
  /\ exists first second,
       first ++ second = content reading
       /\ List.length first = 19%nat /\ List.length second = 4%nat
       /\ getCurrentPageContent sample_noContent sample_endOfChapter reading
          = Some (padded reading first)
       /\ getCurrentPageContent sample_noContent sample_endOfChapter
            (set_currentPage 1 reading)
          = Some (padded reading second).
Proof.
  pose proof reading_Inv as I. pose proof reading_loaded as L.
  split; [exact I|]. split; [exact L|].
  destruct (pages_cover_chapter sample_noContent sample_endOfChapter reading I L)
    as (pages & Ec & Lp & Each & _).
  assert (Lp' : List.length pages = 2%nat).
  { unfold GoInt.len in Lp. replace (totalPages reading) with 2 in Lp by reflexivity.
    lia. }
  destruct pages as [|first [|second [|third pages]]]; try discriminate Lp'.
  exists first, second.
  cbn [List.concat] in Ec. rewrite app_nil_r in Ec.
  destruct (Each 0%nat first eq_refl) as (B0 & F0 & E0).
  destruct (Each 1%nat second eq_refl) as (B1 & _ & E1).
  assert (Ls : (List.length first + List.length second = 23)%nat).
  { rewrite <- length_app, Ec. reflexivity. }
  assert (L0 : List.length first = 19%nat) by (apply F0; by_computation).
  split; [exact Ec|]. split; [exact L0|]. split; [lia|].
  split; [|exact E1].
  rewrite <- E0. f_equal.
Defined.

End PageSpec.

(* ===================================================================== *)
(** * internal/ui/reader.go: the lines of a chapter *)
(* ===================================================================== *)

Module ShownLines.
Import Reader.
Import ReaderSpec.
Import StringFacts.
Import WrapSpec.

Section Lines.

Context {T : GoTime}.
Variable UnescapeString : string -> string.
Variable Render : string -> string.

(** The lines that the reader shows.  For a chapter without author
    notes, every line of the content that [updateContent] makes fits
    the terminal width less 4, or 40 on a narrower terminal, or is a
    single word. *)
Theorem reader_lines_fit (m : ReaderModel) (ch : Api.Chapter) :
  currentChapter m = Some ch ->
  Api.PreNote ch = "" -> Api.PostNote ch = "" ->
  1 <= linesPerPage m <= 2 ^ 62 ->
  - 2 ^ 62 <= termWidth m < 2 ^ 62 ->
  GoInt.strlen (Reflow.cleanHTML UnescapeString (Api.Content ch)) < 2 ^ 62 ->
  GoInt.len (chapterLines UnescapeString Render ch (termWidth m)) < 2 ^ 53 ->
  exists m',
    updateContent UnescapeString Render m = Some m'
    /\ content m'
       = GoStrings.Split
           (Reflow.wrapText (Reflow.cleanHTML UnescapeString (Api.Content ch))
              (Z.max (termWidth m - 4) 40)) Reflow.LF
    /\ forall line,
         In line (content m') ->
         GoInt.strlen line <= Z.max (termWidth m - 4) 40
         \/ GoStrings.Fields line = [line].
Proof.
  intros C Pre Post Hp Hw Hc HL.
  destruct (updateContent_loaded UnescapeString Render m ch C Hp HL) as (U & _ & _).
  cbv zeta in U.
  assert (E : chapterLines UnescapeString Render ch (termWidth m)
              = GoStrings.Split
                  (Reflow.wrapText (Reflow.cleanHTML UnescapeString (Api.Content ch))
                     (Z.max (termWidth m - 4) 40)) Reflow.LF).
  { unfold chapterLines, Reflow.formatChapterContent. rewrite Pre, Post.
    cbn [String.eqb negb String.append]. rewrite sapp_nil_r.
    rewrite GoIntFacts.max_spec. unwrap. reflexivity. }
  eexists. split; [exact U|].
  assert (Ec : forall p, content (if currentPage m >=? p
                                  then set_currentPage (Z.max 0 (p - 1))
                                         (set_totalPages p
                                            (set_content
                                               (chapterLines UnescapeString Render ch
                                                  (termWidth m)) m))
                                  else set_totalPages p
                                         (set_content
                                            (chapterLines UnescapeString Render ch
                                               (termWidth m)) m))
                         = chapterLines UnescapeString Render ch (termWidth m)).
  { intros p. destruct (currentPage m >=? p); reflexivity. }
  rewrite Ec, E. split; [reflexivity|].
  intros line Hl.
  assert (Hm : Z.max (termWidth m - 4) 40 < 2 ^ 62) by lia.
  pose proof (wrapped_line_fits _ _ line Hc Hm Hl) as W.
  unfold Reflow.effective_width in W.
  destruct (Z.leb_spec (Z.max (termWidth m - 4) 40) 20); [lia|exact W].
Qed.

End Lines.

(** *** Closed examples *)

Import Reader ReaderSpec Examples.

(** The chapter of 12 sentences on a terminal of 80 columns. *)
Lemma reader_lines_fit_witness :
  let ch := Fixtures.sample_chapter 12 in
  currentChapter reading = Some ch
  /\ Api.PreNote ch = "" /\ Api.PostNote ch = ""
  /\ 1 <= linesPerPage reading <= 2 ^ 62
  /\ - 2 ^ 62 <= termWidth reading < 2 ^ 62
  /\ GoInt.strlen (Reflow.cleanHTML Fixtures.no_entities (Api.Content ch)) < 2 ^ 62
  /\ GoInt.len (chapterLines Fixtures.no_entities Fixtures.no_style ch
                  (termWidth reading)) < 2 ^ 53
  /\ exists m',
       updateContent Fixtures.no_entities Fixtures.no_style reading = Some m'
       /\ forall line,
            In line (content m') ->
            GoInt.strlen line <= 76 \/ GoStrings.Fields line = [line].
Proof.
  intros ch.
  assert (H1 : currentChapter reading = Some ch) by reflexivity.
  assert (H2 : Api.PreNote ch = "") by reflexivity.
  assert (H3 : Api.PostNote ch = "") by reflexivity.
  assert (H4 : 1 <= linesPerPage reading <= 2 ^ 62) by (split; by_computation).
  assert (H5 : - 2 ^ 62 <= termWidth reading < 2 ^ 62) by (split; by_computation).
  assert (H6 : GoInt.strlen (Reflow.cleanHTML Fixtures.no_entities (Api.Content ch))
               < 2 ^ 62) by by_computation.
  assert (H7 : GoInt.len (chapterLines Fixtures.no_entities Fixtures.no_style ch
                            (termWidth reading)) < 2 ^ 53) by by_computation.
  repeat (split; [assumption|]).
  destruct (reader_lines_fit Fixtures.no_entities Fixtures.no_style reading ch
              H1 H2 H3 H4 H5 H6 H7) as (m' & U & _ & W).
  exists m'. split; [exact U|]. exact W.
Defined.

End ShownLines.

(* ===================================================================== *)
(** * internal/ui/reader.go: the chapters that are requested *)
(* ===================================================================== *)

Module SessionSpec.
Import Reader.
Import ReaderSpec.

Section Session.

Context {T : GoTime}.
Variable UnescapeString : string -> string.
Variable Render : string -> string.
Variable indefinite : float -> Z.
Variable GetFiction : Z -> Api.Fiction + string.
Variable GetChapter : Z -> Api.Chapter + string.








End Session.

(** *** Closed examples *)

Import Reader ReaderSpec Examples.



End SessionSpec.

(* ===================================================================== *)
(** * internal/ui/reader.go: the recorded position *)
(* ===================================================================== *)

Module ProgressSpec.
Import Reader.
Import ReaderSpec.
Import ListFacts.

(** The history after [UpdateReadingProgress] starts with the entry, and
    has no entry behind it that was not in the history before; this needs
    no assumption on the history. *)
Lemma UpdateReadingProgress_front (entry : Config.ReadingEntry) (c : Config.Config) :
  exists rest,
    Config.ReadingHistory (Config.UpdateReadingProgress entry c) = entry :: rest
    /\ (forall e, In e rest -> In e (Config.ReadingHistory c))
    /\ Config.LastFiction (Config.UpdateReadingProgress entry c) = Config.FictionID entry.
Proof.
  unfold Config.UpdateReadingProgress.
  generalize (Config.ReadingHistory c) as h. intros h.
  destruct (Config.find_entry (Config.FictionID entry) h)
    as [i|] eqn:F; cbn [Config.ReadingHistory Config.LastFiction Config.set_history].
  - destruct i as [|i]; cbn [Nat.eqb].
    + destruct h as [|a l]; [discriminate|].
      cbn [Config.assign]. exists l. split; [reflexivity|]. split; [|reflexivity].
      intros e He. now right.
    + cbn [app]. eexists. split; [reflexivity|]. split; [|reflexivity].
      intros e He. rewrite assign_firstn, assign_skipn in He.
      apply in_app_or in He. destruct He as [He|He];
        [now apply In_firstn in He | now apply In_skipn in He].
  - cbn [app]. exists h. auto.
Qed.

Section Progress.

Context {T : GoTime}.
Variable UnescapeString : string -> string.
Variable Render : string -> string.
Variable indefinite : float -> Z.

(** The title that [saveReadingProgress] records: of the chapter of the
    index, or empty when the fiction has no such chapter. *)
Definition title_at (f : Api.Fiction) (i : Z) : string :=
  match nth_error (Api.Chapters f) (Z.to_nat i) with
  | Some c => Api.ch_Title c
  | None => EmptyString
  end.

Definition position_entry (now : string) (m : ReaderModel) (f : Api.Fiction)
  : Config.ReadingEntry :=
  {| Config.FictionID := fictionID m;
     Config.FictionTitle := Api.Title f;
     Config.Author := Api.au_Name (Api.Author f);
     Config.CurrentChapter := chapterIndex m;
     Config.ChapterTitle := title_at f (chapterIndex m);
     Config.ChapterProgress := chapterProgress m;
     Config.LastRead := now;
     Config.TotalChapters := GoInt.len (Api.Chapters f) |}.

Lemma saveReadingProgress_entry (now : string) (m : ReaderModel) (f : Api.Fiction)
  (cfg : Config.Config) :
  fiction m = Some f -> config m = Some cfg -> 0 <= chapterIndex m ->
  saveReadingProgress now m
  = Some (set_config
            (Some (Config.UpdateReadingProgress (position_entry now m f) cfg)) m).
Proof.
  intros F C H. unfold saveReadingProgress. rewrite F, C.
  unfold position_entry, title_at, index.
  destruct (Z.ltb_spec (chapterIndex m) (GoInt.len (Api.Chapters f))) as [Lt|Ge].
  - destruct (Z.leb_spec 0 (chapterIndex m)); [|lia]. cbn [andb].
    destruct (nth_error (Api.Chapters f) (Z.to_nat (chapterIndex m))) eqn:N.
    + reflexivity.
    + apply nth_error_None in N. unfold GoInt.len in Lt. lia.
  - destruct (nth_error (Api.Chapters f) (Z.to_nat (chapterIndex m))) eqn:N;
      [|reflexivity].
    assert (N' : nth_error (Api.Chapters f) (Z.to_nat (chapterIndex m)) <> None)
      by congruence.
    apply nth_error_Some in N'. unfold GoInt.len in Ge. lia.
Qed.



End Progress.

(** *** Closed examples *)

Import Reader ReaderSpec Examples.


End ProgressSpec.

(* ===================================================================== *)
(** * internal/ui/reader.go: reading on *)
(* ===================================================================== *)

Module ResumeSpec.
Import Reader.
Import ReaderSpec.
Import ProgressSpec.

Section Resume.

Context {T : GoTime}.
Variable UnescapeString : string -> string.
Variable Render : string -> string.
Variable indefinite : float -> Z.

(** The progress that a new reader takes over from an entry of its
    fiction and its start chapter. *)
Definition resumed_progress (p : float) : float :=
  if PrimFloat.ltb 0%float p then p else 0%float.

(** The loop of [restoreReadingPosition] stops at the first entry of the
    fiction; a reader that has no start chapter, or the chapter of that
    entry, takes the chapter and the progress of the entry. *)
Lemma restore_from_entry (history : list Config.ReadingEntry) (entry : Config.ReadingEntry)
  (m : ReaderModel) :
  first_entry (fictionID m) history = Some entry ->
  startChapter m = 0 \/ startChapter m = Config.CurrentChapter entry ->
  savedChapterProgress m = 0%float ->
  restore_from history m
  = set_savedChapterProgress (resumed_progress (Config.ChapterProgress entry))
      (set_startChapter (Config.CurrentChapter entry) m).
Proof.
  intros F S P. induction history as [|e history IH];
    cbn [first_entry find restore_from] in *; [discriminate|].
  destruct (String.eqb (Config.FictionID e) (fictionID m)); [|now apply IH].
  injection F as ->. unfold resumed_progress.
  destruct (Z.eqb_spec (startChapter m) 0) as [Z0|NZ]; fields.
  - rewrite Z.eqb_refl. cbn [andb].
    destruct (PrimFloat.ltb 0 (Config.ChapterProgress entry)); [reflexivity|].
    destruct m; cbn in *; subst; reflexivity.
  - destruct S as [S|S]; [contradiction|]. rewrite S, Z.eqb_refl. cbn [andb].
    destruct (PrimFloat.ltb 0 (Config.ChapterProgress entry));
      destruct m; cbn in *; subst; reflexivity.
Qed.

(** A new reader of the fiction of an entry of the history, opened with
    no start chapter or with the chapter of the entry. *)
Lemma new_reader_resumes (termSize : Z * Z) (cfg : Config.Config)
  (entry : Config.ReadingEntry) (start : Z) :
  first_entry (Config.FictionID entry) (Config.ReadingHistory cfg) = Some entry ->
  start = 0 \/ start = Config.CurrentChapter entry ->
  fst (Init (SetStartChapter start (NewReaderModel termSize cfg (Config.FictionID entry))))
  = set_savedChapterProgress (resumed_progress (Config.ChapterProgress entry))
      (set_startChapter (Config.CurrentChapter entry)
         (SetStartChapter start (NewReaderModel termSize cfg (Config.FictionID entry)))).
Proof.
  intros F S. destruct termSize as [w h]. cbn [Init fst].
  unfold restoreReadingPosition.
  change (config (SetStartChapter start (NewReaderModel (w, h) cfg ?id))) with (Some cfg).
  cbv iota. apply restore_from_entry; [exact F|exact S|reflexivity].
Qed.

(** Reading on where the reader was left.  A reader that is left at a
    chapter records it; a new reader of the same fiction, opened with no
    start chapter or, as the menu and the [continue] command do, with
    the chapter of the entry, starts at that chapter with the recorded
    progress, and asks for that chapter once the fiction has arrived,
    if the fiction still has it. *)
Theorem resume_where_left (now : string) (m : ReaderModel) (f : Api.Fiction)
  (cfg : Config.Config) :
  fiction m = Some f -> config m = Some cfg -> 0 <= chapterIndex m ->
  exists cfg',
    saveReadingProgress now m = Some (set_config (Some cfg') m)
    /\ forall termSize start,
         start = 0 \/ start = chapterIndex m ->
         let r := fst (Init (SetStartChapter start
                               (NewReaderModel termSize cfg' (fictionID m)))) in
         fictionID r = fictionID m
         /\ startChapter r = chapterIndex m
         /\ savedChapterProgress r = resumed_progress (chapterProgress m)
         /\ forall now' f',
              chapterIndex m < GoInt.len (Api.Chapters f') <= GoInt.max_int ->
              exists r',
                Update UnescapeString Render indefinite now' r (fictionLoadedMsg f')
                = Some (ReaderM r', cmd_loadChapter (chapterIndex m))
                /\ fiction r' = Some f'
                /\ savedChapterProgress r' = resumed_progress (chapterProgress m).
Proof.
  intros F C H.
  exists (Config.UpdateReadingProgress (position_entry now m f) cfg).
  split; [now apply saveReadingProgress_entry|].
  intros [w h] start S r.
  destruct (UpdateReadingProgress_front (position_entry now m f) cfg)
    as (rest & E1 & _ & _).
  assert (Fe : first_entry (Config.FictionID (position_entry now m f))
                 (Config.ReadingHistory
                    (Config.UpdateReadingProgress (position_entry now m f) cfg))
               = Some (position_entry now m f)).
  { rewrite E1. unfold first_entry. cbn [find]. now rewrite String.eqb_refl. }
  pose proof (new_reader_resumes (w, h) _ (position_entry now m f) start Fe S) as Er.
  change (Config.FictionID (position_entry now m f)) with (fictionID m) in Er.
  change (Config.CurrentChapter (position_entry now m f)) with (chapterIndex m) in Er.
  change (Config.ChapterProgress (position_entry now m f)) with (chapterProgress m) in Er.
  fold r in Er.
  rewrite Er. fields. split; [reflexivity|]. split; [reflexivity|].
  split; [reflexivity|].
  intros now' f' Hf. cbn [Update]. fields.
  assert (0 <= GoInt.len (Api.Chapters f')) by (unfold GoInt.len; lia).
  destruct (Z.gtb_spec (GoInt.len (Api.Chapters f')) 0); [|lia].
  destruct (Z.geb_spec (chapterIndex m) (GoInt.len (Api.Chapters f'))); [lia|].
  destruct (Z.ltb_spec (chapterIndex m) 0); [lia|].
  eexists. split; [reflexivity|]. fields. split; reflexivity.
Qed.

End Resume.

(** *** Closed examples *)

Import Reader ReaderSpec ProgressSpec Examples.

(** That reader is left and opened again. *)
Lemma resume_where_left_witness :
  fiction reading_second = Some Fixtures.sample_fiction
  /\ config reading_second <> None
  /\ 0 <= chapterIndex reading_second
  /\ exists cfg' r',
       saveReadingProgress "2024-05-01 10:05" reading_second
       = Some (set_config (Some cfg') reading_second)
       /\ startChapter
            (fst (Init (NewReaderModel (T := Fixtures.linear_time) (80, 24) cfg' "7")))
          = 1
       /\ sample_Update "2024-05-02 09:00"
            (fst (Init (NewReaderModel (80, 24) cfg' "7")))
            (fictionLoadedMsg Fixtures.sample_fiction)
          = Some (ReaderM r', cmd_loadChapter 1).
Proof.
  assert (F : fiction reading_second = Some Fixtures.sample_fiction) by reflexivity.
  assert (C : exists cfg, config reading_second = Some cfg) by (eexists; reflexivity).
  assert (H : 0 <= chapterIndex reading_second) by by_computation.
  split; [exact F|]. destruct C as (cfg & C).
  split; [rewrite C; discriminate|]. split; [exact H|].
  destruct (resume_where_left Fixtures.no_entities Fixtures.no_style
              Fixtures.amd64_indefinite "2024-05-01 10:05" reading_second
              Fixtures.sample_fiction cfg F C H) as (cfg' & S & R).
  destruct (R (80, 24) 0 (or_introl eq_refl)) as (_ & St & _ & Load).
  assert (Hl : chapterIndex reading_second
               < GoInt.len (Api.Chapters Fixtures.sample_fiction)
               <= GoInt.max_int) by (split; by_computation).
  destruct (Load "2024-05-02 09:00" Fixtures.sample_fiction Hl) as (r' & U & _).
  exists cfg', r'. split; [exact S|]. split; [exact St|exact U].
Defined.

End ResumeSpec.

(* ===================================================================== *)
(** * internal/ui/reader.go: turning pages, and the recorded progress *)
(* ===================================================================== *)

Module TurnSpec.
Import Reader.
Import ReaderSpec.
Import ProgressSpec.

Section Turn.

Context {T : GoTime}.
Variable UnescapeString : string -> string.
Variable Render : string -> string.
Variable indefinite : float -> Z.

Lemma set_currentPage_back (m : ReaderModel) (p : Z) :
  set_currentPage (currentPage m) (set_currentPage p m) = m.
Proof. destruct m; reflexivity. Qed.

(** Inside a chapter, a page forward and a page back cancel: from a page
    that is not the last, a next-page key and then a previous-page key
    give back the reader as it was, and so do a previous-page key and
    then a next-page key from a page that is not the first; neither
    asks for a chapter. *)
Theorem page_turns_cancel (now now' next prev : string) (m : ReaderModel) :
  is_key next next_page_keys = true ->
  is_key prev prev_page_keys = true ->
  Inv m -> currentChapter m <> None ->
  (currentPage m < totalPages m - 1 ->
   exists m1,
     Update UnescapeString Render indefinite now m (KeyMsg next) = Some (ReaderM m1, cmd_nil)
     /\ currentPage m1 = currentPage m + 1
     /\ Update UnescapeString Render indefinite now' m1 (KeyMsg prev)
        = Some (ReaderM m, cmd_nil))
  /\ (0 < currentPage m ->
      exists m1,
        Update UnescapeString Render indefinite now m (KeyMsg prev) = Some (ReaderM m1, cmd_nil)
        /\ currentPage m1 = currentPage m - 1
        /\ Update UnescapeString Render indefinite now' m1 (KeyMsg next)
           = Some (ReaderM m, cmd_nil)).
Proof.
  intros Kn Kp I L.
  pose proof (Inv_pages m I L) as B.
  destruct I as (_ & I). destruct (I L) as (HL & Pt & Pc).
  split; intros Hc.
  - exists (set_currentPage (currentPage m + 1) m).
    rewrite (next_page_dispatch UnescapeString Render indefinite now next m Kn).
    rewrite (prev_page_dispatch UnescapeString Render indefinite now' prev _ Kp).
    unfold nextPageKey, prevPageKey. fields.
    destruct (Z.ltb_spec (currentPage m) (GoInt.sub (totalPages m) 1)) as [Lt|Ge];
      [|unwrap_in Ge; lia].
    unwrap. split; [reflexivity|]. split; [reflexivity|].
    destruct (Z.gtb_spec (currentPage m + 1) 0); [|lia].
    replace (currentPage m + 1 - 1) with (currentPage m) by lia.
    now rewrite set_currentPage_back.
  - exists (set_currentPage (currentPage m - 1) m).
    rewrite (prev_page_dispatch UnescapeString Render indefinite now prev m Kp).
    rewrite (next_page_dispatch UnescapeString Render indefinite now' next _ Kn).
    unfold nextPageKey, prevPageKey. fields.
    destruct (Z.gtb_spec (currentPage m) 0); [|lia].
    unwrap. split; [reflexivity|]. split; [reflexivity|].
    destruct (Z.ltb_spec (currentPage m - 1) (totalPages m - 1)); [|lia].
    replace (currentPage m - 1 + 1) with (currentPage m) by lia.
    now rewrite set_currentPage_back.
Qed.

(** The jump keys: [g] and [home] go to the first page, [G] and [end] to
    the last page of the chapter, from which a next-page key leaves the
    chapter or, in the last chapter, does nothing. *)

(** *** The recorded progress *)

Lemma chapterProgress_not_above_one (m : ReaderModel) :
  PrimFloat.ltb 1%float (chapterProgress m) = false.
Proof.
  unfold chapterProgress. destruct (totalPages m >? 0); [|reflexivity].
  cbv zeta.
  destruct (PrimFloat.ltb 1 (PrimFloat.div (Float64.of_int (currentPage m))
                                           (Float64.of_int (totalPages m)))) eqn:E;
    [reflexivity|exact E].
Qed.

(** The configuration of the reader has no progress above 1. *)
Definition config_ok (m : ReaderModel) : Prop :=
  forall cfg, config m = Some cfg -> history_ok cfg.

Lemma saveReadingProgress_keeps_ok (now : string) (m m' : ReaderModel) :
  config_ok m -> saveReadingProgress now m = Some m' -> config_ok m'.
Proof.
  intros O S. unfold saveReadingProgress in S.
  destruct (fiction m) as [f|]; [|now injection S as <-].
  destruct (config m) as [cfg|] eqn:C; [|now injection S as <-].
  match type of S with
  | match ?t with _ => _ end = _ => destruct t as [title|]; [|discriminate]
  end.
  injection S as <-. intros cfg' C'. fields_in C'. injection C' as <-.
  match goal with
  | |- history_ok (Config.UpdateReadingProgress ?e cfg) =>
      destruct (UpdateReadingProgress_front e cfg) as (rest & E1 & E2 & _);
      assert (Pe : Config.ChapterProgress e = chapterProgress m) by reflexivity
  end.
  unfold history_ok. rewrite E1. constructor.
  - rewrite Pe. apply chapterProgress_not_above_one.
  - specialize (O cfg C). unfold history_ok in O.
    rewrite Forall_forall in *. intros e He. apply O, E2, He.
Qed.

Lemma updateContent_config (m m' : ReaderModel) :
  updateContent UnescapeString Render m = Some m' -> config m' = config m.
Proof.
  unfold updateContent. destruct (currentChapter m); [|now intros [= <-]].
  fields.
  match goal with
  | |- match ?p with _ => _ end = _ -> _ => destruct p; [|discriminate]
  end.
  fields. intros [= <-].
  match goal with |- context [if ?c then _ else _] => destruct c end; reflexivity.
Qed.

Lemma setPagePosition_config (m : ReaderModel) :
  config (setPagePosition indefinite m) = config m.
Proof.
  unfold setPagePosition.
  repeat match goal with |- context [if ?c then _ else _] => destruct c end;
    reflexivity.
Qed.

Ltac same_config :=
  let H := fresh in
  intros H; injection H as <-; auto.

Lemma Update_keeps_ok (now : string) (m m' : ReaderModel) (msg : Msg) (cmd : Cmd) :
  config_ok m ->
  Update UnescapeString Render indefinite now m msg = Some (ReaderM m', cmd) ->
  config_ok m'.
Proof.
  intros O. destruct msg as [w h|key|f|ch idx|e|]; cbn [Update].
  - fields. destruct (currentChapter m) eqn:C; [|same_config].
    destruct (updateContent _ _ _) as [m1|] eqn:U; cbn [option_map]; [|discriminate].
    apply updateContent_config in U. fields_in U.
    intros [= <- _]. unfold config_ok. now rewrite U.
  - unfold keyUpdate.
    destruct (is_key key ["ctrl+c"; "q"]).
    { destruct (saveReadingProgress now m) as [m1|] eqn:S; cbn [option_map];
        [|discriminate].
      intros [= <- _]. now apply (saveReadingProgress_keeps_ok now m). }
    destruct (is_key key ["m"]).
    { destruct (saveReadingProgress now m); cbn [option_map]; discriminate. }
    destruct (is_key key ["?"]); [same_config|].
    destruct (is_key key ["t"]); [destruct (fiction m); same_config|].
    destruct (is_key key ["n"; "b"]).
    { unfold nextChapterKey. destruct (fiction m); [|same_config].
      match goal with |- context [if ?c then _ else _] => destruct c end; same_config. }
    destruct (is_key key ["p"]).
    { unfold prevChapterKey. destruct (fiction m); [|same_config].
      match goal with |- context [if ?c then _ else _] => destruct c end; same_config. }
    destruct (is_key key [" "; "f"; "down"; "j"; "right"; "l"]).
    { unfold nextPageKey.
      match goal with |- context [if ?c then _ else _] => destruct c end; [same_config|].
      destruct (fiction m); [|same_config].
      match goal with |- context [if ?c then _ else _] => destruct c end; same_config. }
    destruct (is_key key ["up"; "k"; "left"; "h"]).
    { unfold prevPageKey.
      match goal with |- context [if ?c then _ else _] => destruct c end; [same_config|].
      destruct (fiction m); [|same_config].
      match goal with |- context [if ?c then _ else _] => destruct c end; same_config. }
    destruct (is_key key ["g"; "home"]); [same_config|].
    destruct (is_key key ["G"; "end"]).
    { match goal with |- context [if ?c then _ else _] => destruct c end; same_config. }
    destruct (is_key key ["r"]); [same_config|].
    destruct (is_key key ["0"; "1"; "2"; "3"; "4"; "5"; "6"; "7"; "8"; "9"]);
      [|same_config].
    unfold digitKey. destruct (showTOC m); [|same_config].
    destruct (fiction m); [|same_config].
    destruct (GoStrings.Atoi key); [|same_config].
    match goal with |- context [if ?c then _ else _] => destruct c end; same_config.
  - fields.
    match goal with |- context [if ?c then _ else _] => destruct c end; same_config.
  - fields. destruct (updateContent _ _ _) as [m1|] eqn:U; [|discriminate].
    apply updateContent_config in U. fields_in U.
    destruct (saveReadingProgress now (setPagePosition indefinite m1)) as [m2|] eqn:S;
      cbn [option_map]; [|discriminate].
    intros [= <- _]. apply (saveReadingProgress_keeps_ok now _ _) in S; [exact S|].
    unfold config_ok. now rewrite setPagePosition_config, U.
  - same_config.
  - same_config.
Qed.

(** No progress above 1 is ever recorded.  If no entry of the history
    has a progress above 1, then after whatever [Update] does, leaving
    the reader or the arrival of a chapter included, no entry has. *)
Theorem progress_stays_at_most_one (now : string) (m : ReaderModel) (msg : Msg) :
  Inv m -> msg_ok UnescapeString Render m msg -> config_ok m ->
  exists model cmd,
    Update UnescapeString Render indefinite now m msg = Some (model, cmd)
    /\ forall m', model = ReaderM m' -> Inv m' /\ config_ok m'.
Proof.
  intros I M O.
  destruct (Update_keeps_Inv UnescapeString Render indefinite now m msg I M)
    as (model & cmd & U & Im).
  exists model, cmd. split; [exact U|].
  intros m' ->. split; [exact Im|].
  now apply (Update_keeps_ok now m m' msg cmd).
Qed.

End Turn.

(** *** Closed examples *)

Import Reader ReaderSpec ProgressSpec Examples.

(** A page down and a page up on the first of two pages. *)
Lemma page_turns_cancel_witness :
  is_key "j" next_page_keys = true /\ is_key "k" prev_page_keys = true
  /\ Inv reading /\ currentChapter reading <> None
  /\ currentPage reading < totalPages reading - 1
  /\ exists m1,
       sample_Update "2024-05-01 10:01" reading (KeyMsg "j") = Some (ReaderM m1, cmd_nil)
       /\ currentPage m1 = 1
       /\ sample_Update "2024-05-01 10:02" m1 (KeyMsg "k")
          = Some (ReaderM reading, cmd_nil).
Proof.
  assert (Kn : is_key "j" next_page_keys = true) by reflexivity.
  assert (Kp : is_key "k" prev_page_keys = true) by reflexivity.
  pose proof reading_Inv as I. pose proof reading_loaded as L.
  assert (Hc : currentPage reading < totalPages reading - 1) by by_computation.
  repeat (split; [assumption|]).
  destruct (page_turns_cancel Fixtures.no_entities Fixtures.no_style
              Fixtures.amd64_indefinite "2024-05-01 10:01" "2024-05-01 10:02"
              "j" "k" reading Kn Kp I L) as [Fwd _].
  destruct (Fwd Hc) as (m1 & U1 & P1 & U2).
  exists m1. split; [exact U1|]. split; [exact P1|exact U2].
Defined.

Lemma reading_config_ok : config_ok reading.
Proof.
  intros cfg E. vm_compute in E. injection E as <-.
  repeat constructor.
Qed.

(** The key [q] on the reader of the examples: what is recorded has no
    progress above 1. *)
Lemma progress_stays_at_most_one_witness :
  Inv reading
  /\ msg_ok Fixtures.no_entities Fixtures.no_style reading (KeyMsg "q")
  /\ config_ok reading
  /\ exists m',
       sample_Update "2024-05-01 10:05" reading (KeyMsg "q") = Some (ReaderM m', cmd_Quit)
       /\ config_ok m'.
Proof.
  pose proof reading_Inv as I. pose proof reading_config_ok as O.
  split; [exact I|]. split; [exact Logic.I|]. split; [exact O|].
  destruct (progress_stays_at_most_one Fixtures.no_entities Fixtures.no_style
              Fixtures.amd64_indefinite "2024-05-01 10:05" reading (KeyMsg "q")
              I Logic.I O) as (model & cmd & U & K).
  assert (S : exists m', saveReadingProgress "2024-05-01 10:05" reading = Some m').
  { destruct (saveReadingProgress_returns "2024-05-01 10:05" reading) as (c & E);
      [by_computation|]. eexists. exact E. }
  destruct S as (m' & S).
  assert (U' : sample_Update "2024-05-01 10:05" reading (KeyMsg "q")
               = Some (ReaderM m', cmd_Quit)).
  { unfold sample_Update. cbn [Update]. unfold keyUpdate.
    cbn [is_key existsb String.eqb Ascii.eqb Bool.eqb orb]. now rewrite S. }
  exists m'. split; [exact U'|].
  unfold sample_Update in U'. rewrite U' in U. injection U as <- _.
  destruct (K m' eq_refl) as [_ Ok]. exact Ok.
Defined.

End TurnSpec.

(* ===================================================================== *)
(** * internal/ui/toc.go: the table of contents *)
(* ===================================================================== *)

Module TocSpec.
Import Toc.
Import ReaderSpec.

Lemma GoInt_min_spec (a b : Z) : GoInt.min a b = Z.min a b.
Proof. unfold GoInt.min. destruct (Z.ltb_spec a b); lia. Qed.

Ltac toc_fields := cbn [fiction currentIndex selectedIndex scrollOffset viewHeight visible set_currentIndex set_selectedIndex set_scrollOffset set_visible].

Section Table.

Context {T : GoTime}.

(** The table is open on a fiction with chapters, the selected row is a
    chapter, and the window of [viewHeight] rows that starts at
    [scrollOffset] holds it, starts at a row of the table, and ends behind
    the last chapter only if the table is shorter than the window. *)
Definition shown (m : TOCModel) (f : Api.Fiction) : Prop :=
  fiction m = Some f
  /\ visible m = true
  /\ 1 <= GoInt.len (Api.Chapters f) <= 2 ^ 62
  /\ 1 <= viewHeight m <= 2 ^ 62
  /\ 0 <= selectedIndex m < GoInt.len (Api.Chapters f)
  /\ 0 <= scrollOffset m <= selectedIndex m
  /\ selectedIndex m < scrollOffset m + viewHeight m
  /\ scrollOffset m <= Z.max 0 (GoInt.len (Api.Chapters f) - viewHeight m).

(** [ensureVisible] brings the selected row into the window, wherever
    the window was. *)
Lemma ensureVisible_shows (m : TOCModel) (f : Api.Fiction) :
  fiction m = Some f -> visible m = true ->
  1 <= GoInt.len (Api.Chapters f) <= 2 ^ 62 ->
  1 <= viewHeight m <= 2 ^ 62 ->
  0 <= selectedIndex m < GoInt.len (Api.Chapters f) ->
  - 2 ^ 62 <= scrollOffset m < 2 ^ 62 ->
  exists m',
    ensureVisible m = Some m' /\ shown m' f
    /\ selectedIndex m' = selectedIndex m /\ currentIndex m' = currentIndex m.
Proof.
  intros F V Hl Hv Hs Ho. unfold ensureVisible.
  set (m1 := if selectedIndex m <? scrollOffset m then _ else _).
  assert (E1 : fiction m1 = Some f /\ visible m1 = true
               /\ viewHeight m1 = viewHeight m /\ selectedIndex m1 = selectedIndex m
               /\ currentIndex m1 = currentIndex m
               /\ scrollOffset m1
                  = if selectedIndex m <? scrollOffset m then selectedIndex m
                    else if selectedIndex m >=? scrollOffset m + viewHeight m
                         then selectedIndex m - viewHeight m + 1
                         else scrollOffset m).
  { subst m1. unwrap.
    destruct (selectedIndex m <? scrollOffset m); toc_fields;
      [repeat split; auto|].
    destruct (selectedIndex m >=? scrollOffset m + viewHeight m); toc_fields;
      repeat split; auto. }
  clearbody m1. destruct E1 as (F1 & V1 & H1 & S1 & C1 & O1).
  rewrite F1. eexists. split; [reflexivity|]. toc_fields.
  split; [|split; assumption].
  unfold shown. toc_fields. rewrite H1, S1, O1, GoIntFacts.max_spec, GoInt_min_spec.
  destruct (Z.ltb_spec (selectedIndex m) (scrollOffset m));
    [|destruct (Z.geb_spec (selectedIndex m) (scrollOffset m + viewHeight m))];
    unwrap; repeat split; try assumption; lia.
Qed.

(** Opening the table, or moving it to another chapter while it is open,
    selects the current chapter and shows it. *)
Theorem toc_shows_current_chapter (f : Api.Fiction) (currentIndex0 viewHeight0 index : Z) :
  1 <= GoInt.len (Api.Chapters f) <= 2 ^ 62 ->
  0 <= currentIndex0 < GoInt.len (Api.Chapters f) ->
  0 <= index < GoInt.len (Api.Chapters f) ->
  - 2 ^ 62 <= viewHeight0 <= 2 ^ 62 ->
  let m := SetVisible true (NewTOCModel (Some f) currentIndex0 viewHeight0) in
  shown m f /\ selectedIndex m = currentIndex0
  /\ viewHeight m = Z.max (viewHeight0 - 4) 10
  /\ shown (SetCurrentChapter index m) f
  /\ selectedIndex (SetCurrentChapter index m) = index.
Proof.
  intros Hl Hc Hi Hv m.
  assert (Center : forall m0 : TOCModel,
             fiction m0 = Some f -> visible m0 = true ->
             10 <= viewHeight m0 <= 2 ^ 62 ->
             0 <= currentIndex m0 < GoInt.len (Api.Chapters f) ->
             selectedIndex m0 = currentIndex m0 ->
             shown (centerOnCurrentChapter m0) f
             /\ selectedIndex (centerOnCurrentChapter m0) = currentIndex m0
             /\ viewHeight (centerOnCurrentChapter m0) = viewHeight m0
             /\ visible (centerOnCurrentChapter m0) = true
             /\ fiction (centerOnCurrentChapter m0) = Some f
             /\ currentIndex (centerOnCurrentChapter m0) = currentIndex m0).
  { intros m0 F0 V0 H0 C0 S0. unfold centerOnCurrentChapter. rewrite F0.
    destruct (Z.eqb_spec (GoInt.len (Api.Chapters f)) 0); [lia|].
    unfold shown. toc_fields.
    rewrite GoIntFacts.max_spec, GoInt_min_spec.
    pose proof (Z.quot_pos (viewHeight m0) 2 ltac:(lia) ltac:(lia)).
    assert (2 * Z.quot (viewHeight m0) 2 <= viewHeight m0)
      by (apply Z.mul_quot_le; lia).
    unwrap. rewrite S0. repeat split; try assumption; lia. }
  assert (Vh : GoInt.max (GoInt.sub viewHeight0 4) 10 = Z.max (viewHeight0 - 4) 10).
  { rewrite GoIntFacts.max_spec. unwrap. reflexivity. }
  assert (Hm : shown m f /\ selectedIndex m = currentIndex0
               /\ viewHeight m = Z.max (viewHeight0 - 4) 10
               /\ visible m = true /\ fiction m = Some f
               /\ currentIndex m = currentIndex0).
  { subst m. unfold SetVisible, NewTOCModel. toc_fields.
    match goal with
    | |- context [centerOnCurrentChapter ?x] => set (m0 := x)
    end.
    assert (H0 : 10 <= viewHeight m0 <= 2 ^ 62)
      by (subst m0; toc_fields; rewrite Vh; lia).
    destruct (Center m0 eq_refl eq_refl H0 Hc eq_refl) as (A & B & C & D & E & G).
    rewrite C. split; [exact A|]. split; [exact B|].
    split; [subst m0; toc_fields; exact Vh|].
    split; [exact D|]. split; [exact E|exact G]. }
  destruct Hm as (A & B & C & D & E & G).
  split; [exact A|]. split; [exact B|]. split; [exact C|].
  unfold SetCurrentChapter. toc_fields. rewrite D.
  match goal with
  | |- context [centerOnCurrentChapter ?x] => set (m0 := x)
  end.
  assert (H0 : 10 <= viewHeight m0 <= 2 ^ 62)
    by (subst m0; toc_fields; rewrite C; lia).
  destruct (Center m0 E D H0 Hi eq_refl) as (A' & B' & _).
  split; [exact A'|exact B'].
Qed.

(** Whatever the key, the table stays as described by [shown], and what
    [Update] returns is -1 or a chapter of the fiction: the selected row
    for the enter key, the chapter of a digit key; the rows that [View]
    lists are rows of the table and the selected row is among them. *)
Theorem toc_update_keeps_shown (m : TOCModel) (f : Api.Fiction) (msg : Msg) :
  shown m f ->
  exists m' target close,
    Update m msg = Some (m', (target, close))
    /\ shown m' f
    /\ (target = -1 \/ (close = true /\ 0 <= target < GoInt.len (Api.Chapters f)))
    /\ (msg = KeyMsg "enter" -> target = selectedIndex m /\ close = true)
    /\ (let (start, end_) := viewRange m' f in
        0 <= start <= selectedIndex m' /\ selectedIndex m' < end_
        /\ end_ <= GoInt.len (Api.Chapters f)).
Proof.
  intros S. pose proof S as (F & V & Hl & Hv & Hs & Ho & Hw & Hb).
  assert (R : forall m', shown m' f ->
              let (start, end_) := viewRange m' f in
              0 <= start <= selectedIndex m' /\ selectedIndex m' < end_
              /\ end_ <= GoInt.len (Api.Chapters f)).
  { intros m' (F' & V' & Hl' & Hv' & Hs' & Ho' & Hw' & Hb').
    unfold viewRange. rewrite GoInt_min_spec. unwrap. lia. }
  assert (Stay : forall target close,
             (target = -1 \/ (close = true /\ 0 <= target < GoInt.len (Api.Chapters f))) ->
             (msg = KeyMsg "enter" -> target = selectedIndex m /\ close = true) ->
             exists m' target' close',
               Some (m, (target, close)) = Some (m', (target', close'))
               /\ shown m' f
               /\ (target' = -1 \/ (close' = true
                                    /\ 0 <= target' < GoInt.len (Api.Chapters f)))
               /\ (msg = KeyMsg "enter" -> target' = selectedIndex m /\ close' = true)
               /\ (let (start, end_) := viewRange m' f in
                   0 <= start <= selectedIndex m' /\ selectedIndex m' < end_
                   /\ end_ <= GoInt.len (Api.Chapters f))).
  { intros target close Ht He. exists m, target, close.
    split; [reflexivity|]. split; [exact S|]. split; [exact Ht|].
    split; [exact He|]. apply R, S. }
  unfold Update. rewrite V, F. cbn [negb].
  destruct msg as [key|]; [|apply Stay; [now left|discriminate]].
  destruct (is_key key ["up"; "k"]) eqn:K1.
  { assert (Ne : KeyMsg key = KeyMsg "enter" -> False).
    { intros [= ->]. discriminate K1. }
    destruct (Z.gtb_spec (selectedIndex m) 0) as [Gt|_];
      [|apply Stay; [now left|intros E; destruct (Ne E)]].
    destruct (ensureVisible_shows (set_selectedIndex (GoInt.sub (selectedIndex m) 1) m) f)
      as (m' & E & S' & _); toc_fields; try assumption; try (unwrap; lia).
    rewrite E. cbn [option_map]. exists m', (-1), false.
    split; [reflexivity|]. split; [exact S'|]. split; [now left|].
    split; [intros E'; destruct (Ne E')|]. apply R, S'. }
  destruct (is_key key ["down"; "j"]) eqn:K2.
  { assert (Ne : KeyMsg key = KeyMsg "enter" -> False).
    { intros [= ->]. discriminate K2. }
    destruct (Z.ltb_spec (selectedIndex m) (GoInt.sub (GoInt.len (Api.Chapters f)) 1))
      as [Lt|_]; [|apply Stay; [now left|intros E; destruct (Ne E)]].
    unwrap_in Lt.
    destruct (ensureVisible_shows (set_selectedIndex (GoInt.add (selectedIndex m) 1) m) f)
      as (m' & E & S' & _); toc_fields; try assumption; try (unwrap; lia).
    rewrite E. cbn [option_map]. exists m', (-1), false.
    split; [reflexivity|]. split; [exact S'|]. split; [now left|].
    split; [intros E'; destruct (Ne E')|]. apply R, S'. }
  destruct (is_key key ["g"; "home"]) eqn:K3.
  { assert (Ne : KeyMsg key = KeyMsg "enter" -> False).
    { intros [= ->]. discriminate K3. }
    assert (S' : shown (set_scrollOffset 0 (set_selectedIndex 0 m)) f).
    { unfold shown. toc_fields. repeat split; try assumption; lia. }
    do 3 eexists. split; [reflexivity|]. split; [exact S'|]. split; [now left|].
    split; [intros E'; destruct (Ne E')|]. apply R, S'. }
  destruct (is_key key ["G"; "end"]) eqn:K4.
  { assert (Ne : KeyMsg key = KeyMsg "enter" -> False).
    { intros [= ->]. discriminate K4. }
    match goal with
    | |- exists m' target close, Some (?x, _) = _ /\ _ => assert (S' : shown x f)
    end.
    { unfold shown. toc_fields. rewrite GoIntFacts.max_spec. unwrap.
      repeat split; try assumption; lia. }
    do 3 eexists. split; [reflexivity|]. split; [exact S'|]. split; [now left|].
    split; [intros E'; destruct (Ne E')|]. apply R, S'. }
  destruct (is_key key ["enter"]) eqn:K5.
  { apply Stay; [right; split; [reflexivity|lia]|]. intros _. now split. }
  assert (Ne : KeyMsg key = KeyMsg "enter" -> False).
  { intros [= ->]. discriminate K5. }
  destruct (is_key key ["0"; "1"; "2"; "3"; "4"; "5"; "6"; "7"; "8"; "9"]).
  { destruct (GoStrings.Atoi key) as [chapterNum|];
      [|apply Stay; [now left|intros E; destruct (Ne E)]].
    destruct (Z.geb_spec chapterNum 1); cbn [andb];
      [|apply Stay; [now left|intros E; destruct (Ne E)]].
    destruct (Z.leb_spec chapterNum (GoInt.len (Api.Chapters f)));
      [|apply Stay; [now left|intros E; destruct (Ne E)]].
    apply Stay; [|intros E; destruct (Ne E)].
    right. split; [reflexivity|]. unwrap. lia. }
  destruct (is_key key ["t"; "escape"]);
    apply Stay; try (now left); intros E; destruct (Ne E).
Qed.

End Table.

(** *** Closed examples *)

Import Toc ReaderSpec.

(** The table of the fiction of two chapters, opened at the second. *)
Definition open_table : TOCModel (T := Fixtures.linear_time) :=
  SetVisible true (NewTOCModel (Some Fixtures.sample_fiction) 1 24).

Lemma toc_shows_current_chapter_witness :
  1 <= GoInt.len (Api.Chapters Fixtures.sample_fiction) <= 2 ^ 62
  /\ 0 <= 1 < GoInt.len (Api.Chapters Fixtures.sample_fiction)
  /\ 0 <= 0 < GoInt.len (Api.Chapters Fixtures.sample_fiction)
  /\ - 2 ^ 62 <= 24 <= 2 ^ 62
  /\ shown open_table Fixtures.sample_fiction
  /\ selectedIndex open_table = 1
  /\ viewHeight open_table = 20
  /\ selectedIndex (SetCurrentChapter 0 open_table) = 0.
Proof.
  assert (H1 : 1 <= GoInt.len (Api.Chapters Fixtures.sample_fiction) <= 2 ^ 62)
    by (split; by_computation).
  assert (H2 : 0 <= 1 < GoInt.len (Api.Chapters Fixtures.sample_fiction))
    by (split; by_computation).
  assert (H3 : 0 <= 0 < GoInt.len (Api.Chapters Fixtures.sample_fiction))
    by (split; by_computation).
  assert (H4 : - 2 ^ 62 <= 24 <= 2 ^ 62) by lia.
  repeat (split; [assumption|]).
  destruct (toc_shows_current_chapter Fixtures.sample_fiction 1 24 0 H1 H2 H3 H4)
    as (S & Sel & Vh & _ & Sel').
  split; [exact S|]. split; [exact Sel|]. split; [exact Vh|exact Sel'].
Defined.

Lemma open_table_shown : shown open_table Fixtures.sample_fiction.
Proof.
  unfold shown. split; [reflexivity|]. split; [reflexivity|].
  repeat split; by_computation.
Qed.

(** The key [up] in that table, and the enter key. *)
Lemma toc_update_keeps_shown_witness :
  shown open_table Fixtures.sample_fiction
  /\ (exists m',
        Update open_table (KeyMsg "up") = Some (m', (-1, false))
        /\ shown m' Fixtures.sample_fiction /\ selectedIndex m' = 0)
  /\ Update open_table (KeyMsg "enter") = Some (open_table, (1, true)).
Proof.
  pose proof open_table_shown as S.
  split; [exact S|]. split.
  - destruct (toc_update_keeps_shown open_table Fixtures.sample_fiction (KeyMsg "up") S)
      as (m' & target & close & U & S' & _).
    assert (U' : exists m1, Update open_table (KeyMsg "up") = Some (m1, (-1, false))
                            /\ selectedIndex m1 = 0).
    { eexists. split; [vm_compute; reflexivity|reflexivity]. }
    destruct U' as (m1 & U1 & Sel).
    rewrite U1 in U. injection U as -> _ _.
    exists m'. split; [exact U1|]. split; [exact S'|exact Sel].
  - destruct (toc_update_keeps_shown open_table Fixtures.sample_fiction (KeyMsg "enter") S)
      as (m' & target & close & U & _ & _ & E & _).
    destruct (E eq_refl) as [-> ->].
    assert (U' : Update open_table (KeyMsg "enter") = Some (open_table, (1, true)))
      by (vm_compute; reflexivity).
    exact U'.
Defined.

End TocSpec.

(* ===================================================================== *)
(** * internal/ui: the menu *)
(* ===================================================================== *)

Module MenuSpec.
Import Menu.
Import ReaderSpec.
Import HistoryPages.
Import ResumeSpec.

Ltac menu_fields := cbn [state config historyPage historyPageSize fictionInput chapterInput loading err selectedEntry set_state set_historyPage set_fictionInput].

Section History.

Context {T : GoTime}.
Context {TextInput : Type}.
Variable Focus : TextInput -> TextInput.

(** The page of the history menu is a page of the history, at a page size
    as [NewMenuModel] sets it. *)
Definition on_a_page (m : @MenuModel TextInput) : Prop :=
  1 <= historyPageSize m <= 2 ^ 62
  /\ GoInt.len (Config.ReadingHistory (config m)) < 2 ^ 62
  /\ 1 <= historyPage m
     <= Z.max 1 (ceil_div (GoInt.len (Config.ReadingHistory (config m)))
                          (historyPageSize m)).

Lemma history_page_flags (c : Config.Config) (page pageSize : Z) :
  1 <= pageSize <= 2 ^ 62 ->
  GoInt.len (Config.ReadingHistory c) < 2 ^ 62 ->
  exists entries totalPages hasNext hasPrev,
    Config.GetReadingHistoryPage c page pageSize
    = Some (entries, totalPages, hasNext, hasPrev)
    /\ (hasNext = true ->
        page < ceil_div (GoInt.len (Config.ReadingHistory c)) pageSize).
Proof.
  intros Hp HL.
  destruct (Config.ReadingHistory c) as [|e0 h0] eqn:Eh.
  - unfold Config.GetReadingHistoryPage. rewrite Eh. cbn.
    do 4 eexists. split; [reflexivity|discriminate].
  - assert (NE : Config.ReadingHistory c <> []) by (rewrite Eh; discriminate).
    rewrite <- Eh in *.
    destruct (history_page_spec c page pageSize NE Hp HL) as (E & B & S1).
    cbv zeta in E. rewrite E. do 4 eexists. split; [reflexivity|].
    rewrite Z.ltb_lt. lia.
Qed.

(** The history menu never panics, and its page stays a page of the
    history whatever the key: the keys left and right stop at the first
    and at the last page. *)
Theorem history_menu_stays_on_a_page (termSize : Z * Z) (loaded : Config.Config)
  (key : string) (m : @MenuModel TextInput) :
  on_a_page m ->
  exists model cmd,
    handleHistoryMenu termSize loaded key m = Some (model, cmd)
    /\ (forall m', model = MenuM m' ->
                   on_a_page m' /\ config m' = config m
                   /\ historyPageSize m' = historyPageSize m
                   /\ Z.abs (historyPage m' - historyPage m) <= 1)
    /\ (is_key key ["left"; "h"] = true -> 1 < historyPage m ->
        model = MenuM (set_historyPage (historyPage m - 1) m))
    /\ (is_key key ["right"; "l"] = true ->
        historyPage m < ceil_div (GoInt.len (Config.ReadingHistory (config m)))
                                 (historyPageSize m) ->
        model = MenuM (set_historyPage (historyPage m + 1) m)).
Proof.
  intros (Hs & HL & Hp).
  assert (Bp : historyPage m <= 2 ^ 62).
  { destruct (Z.eq_dec (GoInt.len (Config.ReadingHistory (config m))) 0) as [Z0|NZ].
    - rewrite Z0 in Hp. cbn in Hp. lia.
    - pose proof (GoIntFacts.len_nonneg (Config.ReadingHistory (config m))).
      pose proof (ceil_div_bounds (GoInt.len (Config.ReadingHistory (config m)))
                    (historyPageSize m) ltac:(lia) ltac:(lia)).
      lia. }
  assert (Same : forall cmd : Cmd,
            exists model cmd',
              Some (MenuM m, cmd) = Some (model, cmd')
              /\ (forall m', model = MenuM m' ->
                             on_a_page m' /\ config m' = config m
                             /\ historyPageSize m' = historyPageSize m
                             /\ Z.abs (historyPage m' - historyPage m) <= 1)).
  { intros cmd. do 2 eexists. split; [reflexivity|].
    intros m' [= <-]. unfold on_a_page. repeat split; try assumption; lia. }
  unfold handleHistoryMenu.
  destruct (is_key key ["ctrl+c"; "q"]) eqn:K1.
  { destruct (Same (cmd_Quit)) as (model & cmd & E & P).
    exists model, cmd. split; [exact E|]. split; [exact P|].
    split; intros K; apply is_key_In in K; cbn in K;
      repeat (destruct K as [<-|K]; [discriminate K1|]); contradiction. }
  destruct (is_key key ["esc"]) eqn:K2.
  { do 2 eexists. split; [reflexivity|]. split.
    - intros m' [= <-]. menu_fields. unfold on_a_page. menu_fields.
      repeat split; try assumption; lia.
    - split; intros K; apply is_key_In in K; cbn in K;
        repeat (destruct K as [<-|K]; [discriminate K2|]); contradiction. }
  destruct (is_key key ["left"; "h"]) eqn:K3.
  { do 2 eexists. split; [reflexivity|]. split; [|split].
    - intros m' [= <-].
      destruct (Z.gtb_spec (historyPage m) 1); menu_fields;
        unfold on_a_page; menu_fields; unwrap; repeat split; try assumption; lia.
    - intros _ H1. destruct (Z.gtb_spec (historyPage m) 1); [|lia]. unwrap. reflexivity.
    - intros K. apply is_key_In in K; cbn in K;
        repeat (destruct K as [<-|K]; [discriminate K3|]); contradiction. }
  destruct (is_key key ["right"; "l"]) eqn:K4.
  { destruct (history_page_flags (config m) (historyPage m) (historyPageSize m) Hs HL)
      as (entries & tp & hasNext & hasPrev & E & Hn).
    rewrite E. do 2 eexists. split; [reflexivity|]. split; [|split].
    - intros m' [= <-]. destruct hasNext; cbn [andb];
        [destruct (Z.ltb_spec (historyPage m) tp)|]; menu_fields;
        unfold on_a_page; menu_fields; unwrap;
        repeat split; try assumption; try lia.
    - discriminate.
    - intros _ Hlt.
      destruct (Config.ReadingHistory (config m)) as [|e0 h0] eqn:Eh.
      { cbn in Hlt. lia. }
      assert (NE : Config.ReadingHistory (config m) <> []) by (rewrite Eh; discriminate).
      rewrite <- Eh in *.
      destruct (history_page_spec (config m) (historyPage m) (historyPageSize m) NE Hs HL)
        as (E' & B & S1).
      cbv zeta in E'. rewrite E' in E. injection E as _ <- <- _.
      replace (Z.max 1 (Z.min (historyPage m) _)) with (historyPage m) by lia.
      destruct (Z.ltb_spec (historyPage m)
                  (ceil_div (GoInt.len (Config.ReadingHistory (config m)))
                            (historyPageSize m))); [|lia].
      cbn [andb]. unwrap. reflexivity. }
  destruct (is_key key ["1"; "2"; "3"; "4"; "5"; "6"; "7"; "8"; "9"]).
  { destruct (history_page_flags (config m) (historyPage m) (historyPageSize m) Hs HL)
      as (entries & tp & hasNext & hasPrev & E & Hn).
    rewrite E.
    set (num := match GoStrings.Atoi key with Some num => num | None => 0 end).
    assert (Rn : GoInt.in_range num).
    { subst num. destruct (GoStrings.Atoi key) eqn:A;
        [now apply GoStringsFacts.Atoi_in_range in A|].
      unfold GoInt.in_range, GoInt.min_int, GoInt.max_int. lia. }
    clearbody num.
    destruct (Z.gtb_spec num 0); cbn [andb].
    - destruct (Z.leb_spec num (GoInt.len entries)).
      + unfold Reader.index. unwrap.
        destruct (Z.leb_spec 0 (num - 1)); [|lia].
        destruct (Z.ltb_spec (num - 1) (GoInt.len entries)); [|lia].
        cbn [andb].
        destruct (nth_error entries (Z.to_nat (num - 1))) as [entry|] eqn:N.
        * unfold openReader, Reader.Init.
          do 2 eexists. split; [reflexivity|]. split; [discriminate|].
          split; discriminate.
        * apply nth_error_None in N. unfold GoInt.len in *. lia.
      + destruct (Same (cmd_nil)) as (model & cmd & E1 & P).
        exists model, cmd. split; [exact E1|]. split; [exact P|]. split; discriminate.
    - destruct (Same (cmd_nil)) as (model & cmd & E1 & P).
      exists model, cmd. split; [exact E1|]. split; [exact P|]. split; discriminate. }
  destruct (Same (cmd_nil)) as (model & cmd & E1 & P).
  exists model, cmd. split; [exact E1|]. split; [exact P|]. split; discriminate.
Qed.

Lemma first_entry_unique (h : list Config.ReadingEntry) (entry : Config.ReadingEntry) :
  NoDup (map Config.FictionID h) -> In entry h ->
  first_entry (Config.FictionID entry) h = Some entry.
Proof.
  unfold first_entry. induction h as [|e h IH]; intros ND HI; [contradiction|].
  cbn [map] in ND. inversion ND as [|? ? NI ND']; subst.
  cbn [find]. destruct HI as [->|HI].
  - now rewrite String.eqb_refl.
  - destruct (String.eqb_spec (Config.FictionID e) (Config.FictionID entry)) as [E|_];
      [|now apply IH].
    exfalso. apply NI. rewrite E. now apply in_map.
Qed.

(** Choosing an entry of the history.  The digit [n] on a page of the
    history menu opens a reader on the fiction of row [n] of that page,
    which is entry [(historyPage - 1) * historyPageSize + n - 1] of the
    history; once [Init] has run, the reader starts at the chapter of the
    entry, with the progress of the entry, and loads the fiction.  The
    history has at most one entry a fiction, and the reader reads the
    configuration that the menu has. *)
Theorem history_choice_resumes_entry (termSize : Z * Z) (key : string) (n : Z)
  (m : @MenuModel TextInput) (entry : Config.ReadingEntry) :
  on_a_page m ->
  NoDup (map Config.FictionID (Config.ReadingHistory (config m))) ->
  is_key key ["1"; "2"; "3"; "4"; "5"; "6"; "7"; "8"; "9"] = true ->
  GoStrings.Atoi key = Some n ->
  n <= historyPageSize m ->
  nth_error (Config.ReadingHistory (config m))
            (Z.to_nat ((historyPage m - 1) * historyPageSize m + (n - 1)))
  = Some entry ->
  exists r,
    handleHistoryMenu termSize (config m) key m
    = Some (ReaderM r, cmd_reader Reader.cmd_loadFiction)
    /\ Reader.fictionID r = Config.FictionID entry
    /\ Reader.startChapter r = Config.CurrentChapter entry
    /\ Reader.savedChapterProgress r = resumed_progress (Config.ChapterProgress entry)
    /\ Reader.config r = Some (config m).
Proof.
  intros (Hs & HL & Hp) ND K A Hn N.
  assert (N1 : 1 <= n <= 9).
  { apply is_key_In in K. cbn in K.
    repeat (destruct K as [<-|K]; [cbn in A; injection A as <-; lia|]).
    contradiction. }
  assert (NE : Config.ReadingHistory (config m) <> []).
  { intros E. rewrite E in N. now destruct (Z.to_nat _). }
  destruct (history_page_spec (config m) (historyPage m) (historyPageSize m) NE Hs HL)
    as (E & B & S1).
  cbv zeta in E.
  replace (Z.max 1 (Z.min (historyPage m) _)) with (historyPage m) in E, S1 by lia.
  set (entries := firstn (Z.to_nat (historyPageSize m))
                    (skipn (Z.to_nat ((historyPage m - 1) * historyPageSize m))
                       (Config.ReadingHistory (config m)))) in *.
  assert (Ne : nth_error entries (Z.to_nat (n - 1)) = Some entry).
  { subst entries. rewrite nth_error_firstn.
    destruct (Nat.ltb_spec (Z.to_nat (n - 1)) (Z.to_nat (historyPageSize m))); [|lia].
    rewrite nth_error_skipn, <- N. f_equal. nia. }
  assert (Le : n <= GoInt.len entries).
  { assert (H : nth_error entries (Z.to_nat (n - 1)) <> None) by congruence.
    apply nth_error_Some in H. unfold GoInt.len. lia. }
  unfold handleHistoryMenu.
  assert (K' : forall names, ~ In key names -> is_key key names = false).
  { intros names NI. unfold is_key.
    destruct (existsb (String.eqb key) names) eqn:X; [|reflexivity].
    exfalso. apply NI. apply existsb_exists in X. destruct X as (x & Hx & Ex).
    apply String.eqb_eq in Ex. now subst. }
  assert (Dg : In key ["1"; "2"; "3"; "4"; "5"; "6"; "7"; "8"; "9"])
    by now apply is_key_In.
  rewrite !K' by (cbn in Dg |- *; intuition (subst; discriminate)).
  rewrite K, A, E.
  destruct (Z.gtb_spec n 0); [|lia].
  destruct (Z.leb_spec n (GoInt.len entries)); [|lia]. cbn [andb].
  unfold Reader.index. unwrap.
  destruct (Z.leb_spec 0 (n - 1)); [|lia].
  destruct (Z.ltb_spec (n - 1) (GoInt.len entries)); [|lia]. cbn [andb].
  rewrite Ne. unfold openReader.
  assert (HI : In entry (Config.ReadingHistory (config m)))
    by (now apply nth_error_In in N).
  pose proof (new_reader_resumes termSize (config m) entry (Config.CurrentChapter entry)
                (first_entry_unique _ _ ND HI) (or_intror eq_refl)) as R.
  unfold Reader.Init in *. cbn [fst] in R.
  eexists. split; [reflexivity|]. rewrite R. destruct termSize. now fields.
Qed.

(** Reading on from the main menu.  The key [c] opens a reader on the
    first entry of the history, at its chapter and with its progress;
    without a history it does nothing. *)
Theorem continue_resumes_last_entry (termSize : Z * Z) (m : @MenuModel TextInput) :
  match Config.GetLastReadEntry (config m) with
  | Some entry =>
      exists r,
        handleMainMenu Focus termSize (config m) "c" m
        = (ReaderM r, cmd_reader Reader.cmd_loadFiction)
        /\ Reader.fictionID r = Config.FictionID entry
        /\ Reader.startChapter r = Config.CurrentChapter entry
        /\ Reader.savedChapterProgress r
           = resumed_progress (Config.ChapterProgress entry)
        /\ Reader.config r = Some (config m)
  | None => handleMainMenu Focus termSize (config m) "c" m = (MenuM m, cmd_nil)
  end.
Proof.
  unfold handleMainMenu. cbn [is_key existsb String.eqb Ascii.eqb Bool.eqb orb andb].
  unfold Config.GetLastReadEntry.
  destruct (Config.ReadingHistory (config m)) as [|entry rest] eqn:Eh; [reflexivity|].
  assert (F : first_entry (Config.FictionID entry) (Config.ReadingHistory (config m))
              = Some entry).
  { rewrite Eh. unfold first_entry. cbn [find]. now rewrite String.eqb_refl. }
  pose proof (new_reader_resumes termSize (config m) entry (Config.CurrentChapter entry)
                F (or_intror eq_refl)) as R.
  unfold openReader, Reader.Init in *. cbn [fst] in R.
  eexists. split; [reflexivity|]. rewrite R. destruct termSize. now fields.
Qed.

End History.

(** *** Closed examples *)

Import Menu ReaderSpec ResumeSpec.

(** The history menu on its second page, over a history of 12 entries;
    the inputs of the menu are their texts. *)
Definition history_menu : @MenuModel string :=
  set_historyPage 2
    (set_state MenuStateHistory
       (NewMenuModel (Fixtures.sample_config (Fixtures.numbered_history 12)) "" "")).

Lemma history_menu_on_a_page : on_a_page history_menu.
Proof. unfold on_a_page. repeat split; by_computation. Qed.

(** The keys right and left on the last of two pages. *)
Lemma history_menu_stays_on_a_page_witness :
  on_a_page history_menu
  /\ handleHistoryMenu (T := Fixtures.linear_time) (80, 24)
       (config history_menu) "right" history_menu
     = Some (MenuM history_menu, cmd_nil)
  /\ handleHistoryMenu (T := Fixtures.linear_time) (80, 24)
       (config history_menu) "left" history_menu
     = Some (MenuM (set_historyPage 1 history_menu), cmd_nil).
Proof.
  pose proof history_menu_on_a_page as P.
  split; [exact P|]. split.
  - destruct (history_menu_stays_on_a_page (T := Fixtures.linear_time) (80, 24)
                (config history_menu) "right" history_menu P)
      as (model & cmd & U & _).
    vm_compute. reflexivity.
  - destruct (history_menu_stays_on_a_page (T := Fixtures.linear_time) (80, 24)
                (config history_menu) "left" history_menu P)
      as (model & cmd & U & _ & Left & _).
    rewrite U. rewrite (Left eq_refl ltac:(by_computation)).
    assert (C : cmd = cmd_nil).
    { assert (U' : handleHistoryMenu (T := Fixtures.linear_time) (80, 24)
                     (config history_menu) "left" history_menu
                   = Some (MenuM (set_historyPage 1 history_menu), cmd_nil))
        by (vm_compute; reflexivity).
      rewrite U' in U. now injection U as _ <-. }
    rewrite C. reflexivity.
Defined.

Lemma history_12_distinct :
  NoDup (map Config.FictionID (Config.ReadingHistory (config history_menu))).
Proof.
  cbn. repeat constructor; cbn; intuition discriminate.
Qed.

(** The digit 2 on the second page: the twelfth entry, of fiction L at
    chapter 11. *)
Lemma history_choice_resumes_entry_witness :
  let entry := Fixtures.sample_entry "L" 11 0%float in
  on_a_page history_menu
  /\ NoDup (map Config.FictionID (Config.ReadingHistory (config history_menu)))
  /\ GoStrings.Atoi "2" = Some 2
  /\ nth_error (Config.ReadingHistory (config history_menu)) 11 = Some entry
  /\ exists r,
       handleHistoryMenu (T := Fixtures.linear_time) (80, 24)
         (config history_menu) "2" history_menu
       = Some (ReaderM r, cmd_reader Reader.cmd_loadFiction)
       /\ Reader.fictionID r = "L"
       /\ Reader.startChapter r = 11.
Proof.
  intros entry.
  pose proof history_menu_on_a_page as P. pose proof history_12_distinct as ND.
  assert (A : GoStrings.Atoi "2" = Some 2) by reflexivity.
  assert (N : nth_error (Config.ReadingHistory (config history_menu)) 11 = Some entry)
    by reflexivity.
  repeat (split; [assumption|]).
  destruct (history_choice_resumes_entry (T := Fixtures.linear_time) (80, 24) "2" 2
              history_menu entry P ND eq_refl A ltac:(by_computation) N)
    as (r & U & Fi & St & _).
  exists r. split; [exact U|]. split; [exact Fi|exact St].
Defined.

End MenuSpec.
